(** * Batching kernels: a shallow embedding of
      tensorflow/core/kernels/batch_kernels.cc

    The development follows the classes of the source file:
    [BatchResource] (concat, pad, split, dispatch), the two batch kernels
    (validation of [allowed_batch_sizes]), [UnbatchResource] (rendezvous of
    callers and tensor slices) and [UnbatchGradResource] (re-batching of
    gradients).  Definitions come first, one module per class; the theorems
    follow. *)

From Stdlib Require Import ZArith Lia List Bool String Sorted.
From stdpp Require Import base gmap list fin_maps strings.

Local Open Scope Z_scope.

(** ** Machine integers

    C++ integers are values in [Z]; every narrowing or unsigned conversion of
    the source is written with one of the wrappers below. *)

(** Value of a [w]-bit unsigned integer holding [x]. *)
Definition wrap_unsigned (w x : Z) : Z := x mod 2 ^ w.

(** Value of a [w]-bit two's complement integer holding [x]. *)
Definition wrap_signed (w x : Z) : Z :=
  (x + 2 ^ (w - 1)) mod 2 ^ w - 2 ^ (w - 1).

(** [int] and [int32]. *)
Definition to_int (x : Z) : Z := wrap_signed 32 x.
(** [int64]. *)
Definition to_int64 (x : Z) : Z := wrap_signed 64 x.
(** [size_t] and [uint64]. *)
Definition to_size_t (x : Z) : Z := wrap_unsigned 64 x.

Definition INT_MAX : Z := 2 ^ 31 - 1.
Definition INT64_MAX : Z := 2 ^ 63 - 1.

(** ** Status *)

(** Modelled from the spec: the codes of the error channel ([Status] is
    declared outside this file); [ResourceExhausted] and [Unknown] stand for
    what an allocator or a failed library check may answer. *)
Inductive Code :=
| InvalidArgument
| FailedPrecondition
| Internal
| AlreadyExists
| DeadlineExceeded
| ResourceExhausted
| Unknown.

(** A [Status] is OK or an error code with its message (the literal part of
    the message the source builds). *)
Inductive Status :=
| OK
| Error (c : Code) (msg : string).

Definition ok (s : Status) : bool :=
  match s with OK => true | Error _ _ => false end.

Definition code (s : Status) : option Code :=
  match s with OK => None | Error c _ => Some c end.

(** Modelled from the spec: [Status::Update] keeps the first error (the
    comment on [ThreadSafeStatus::Update] in the source says the same). *)
Definition Status_Update (cur new : Status) : Status :=
  if ok cur then new else cur.

(** ** Tensors

    The kernels only ever look at tensors along dimension 0: they read
    [dim_size(0)], slice rows [lo, hi) and concatenate rows.  A tensor of rank
    at least one is therefore its element type, the shape of one row
    ([inner], dimensions 1 and up) and the list of its rows; a rank-0 tensor
    is a scalar. *)

Definition DataType := nat.
Definition Row := list Z.

(** Modelled from the spec: [Tensor] is declared by the tensor runtime,
    outside this file; the spec gives it as a typed array of shape
    (d0, d1, ...) that is sliced and concatenated along dimension 0. *)
Inductive Tensor :=
| Scalar (dt : DataType) (v : Z)
| Rows (dt : DataType) (inner : list Z) (rows : list Row).

Definition dtype (t : Tensor) : DataType :=
  match t with Scalar dt _ => dt | Rows dt _ _ => dt end.

(** [shape().dims()]. *)
Definition dims (t : Tensor) : Z :=
  match t with
  | Scalar _ _ => 0
  | Rows _ inner _ => 1 + Z.of_nat (length inner)
  end.

Definition tensor_rows (t : Tensor) : list Row :=
  match t with Scalar _ _ => [] | Rows _ _ rows => rows end.

Definition tensor_inner (t : Tensor) : list Z :=
  match t with Scalar _ _ => [] | Rows _ inner _ => inner end.

(** [shape().dim_size(d)].  Asking a dimension a tensor does not have is a
    failed check in the tensor library; the model answers 0 there. *)
Definition dim_size (t : Tensor) (d : nat) : Z :=
  match t, d with
  | Scalar _ _, _ => 0
  | Rows _ _ rows, O => Z.of_nat (length rows)
  | Rows _ inner _, S d' => nth d' inner 0
  end.

Definition product (l : list Z) : Z := fold_right Z.mul 1 l.

Definition NumElements (t : Tensor) : Z :=
  match t with
  | Scalar _ _ => 1
  | Rows _ inner rows => Z.of_nat (length rows) * product inner
  end.

(** Modelled from the spec: [Tensor::Slice(lo, hi)], the rows [lo, hi) along
    dimension 0. *)
Definition Slice (t : Tensor) (lo hi : Z) : Tensor :=
  match t with
  | Scalar dt v => Scalar dt v
  | Rows dt inner rows =>
      Rows dt inner (take (Z.to_nat (hi - lo)) (drop (Z.to_nat lo) rows))
  end.

(** A freshly allocated tensor of shape [d0 :: inner]. *)
Definition allocated (dt : DataType) (d0 : Z) (inner : list Z) : Tensor :=
  Rows dt inner (replicate (Z.to_nat d0) (replicate (Z.to_nat (product inner)) 0)).

Definition sum_list (l : list Z) : Z := fold_right Z.add 0 l.

(** ** Kernel contexts and the effects of a kernel

    An [OpKernelContext] is known by its identity, its inputs, the number of
    its outputs and what its allocator answers.  What a kernel does to
    contexts, shared cells and callbacks is recorded in a [World]. *)

Definition DoneCallback := nat.

(** Modelled from the spec: [OpKernelContext] is declared by the op
    framework, outside this file; it is the handle through which a kernel
    reads its inputs, allocates and sets its outputs and reports its
    status. *)
Record OpKernelContext := {
  ctx_id : nat;
  ctx_inputs : list Tensor;
  num_outputs : Z;
  (** status returned by [allocate_temp] and [allocate_output] *)
  ctx_allocate : Status
}.

Definition input (c : OpKernelContext) (i : nat) : Tensor :=
  nth i (ctx_inputs c) (Scalar 0%nat 0).

Definition TensorMatrix := list (list Tensor).

Record World := {
  (** [OpKernelContext::status_], by context *)
  ctx_status : gmap nat Status;
  (** outputs set on a context, by (context, output index) *)
  ctx_output : gmap (nat * Z) Tensor;
  (** [ThreadSafeStatus] cells, by reference *)
  shared_status : gmap nat Status;
  (** [TensorMatrix] cells, by reference *)
  shared_output : gmap nat TensorMatrix;
  (** done callbacks invoked so far, oldest first *)
  done_log : list DoneCallback
}.

Definition status_of (m : gmap nat Status) (r : nat) : Status :=
  default OK (m !! r).

(** Modelled from the spec: [OpKernelContext::SetStatus] reports a status on
    the context, [status_.Update(status)]. *)
Definition SetStatus (c : OpKernelContext) (s : Status) (w : World) : World :=
  {| ctx_status := <[ctx_id c := Status_Update (status_of (ctx_status w) (ctx_id c)) s]> (ctx_status w);
     ctx_output := ctx_output w;
     shared_status := shared_status w;
     shared_output := shared_output w;
     done_log := done_log w |}.

Definition set_output (c : OpKernelContext) (i : Z) (t : Tensor) (w : World) : World :=
  {| ctx_status := ctx_status w;
     ctx_output := <[(ctx_id c, i) := t]> (ctx_output w);
     shared_status := shared_status w;
     shared_output := shared_output w;
     done_log := done_log w |}.

(** [ThreadSafeStatus::Update] on the cell [r]. *)
Definition ThreadSafeStatus_Update (r : nat) (new_status : Status) (w : World) : World :=
  if ok new_status then w
  else
    {| ctx_status := ctx_status w;
       ctx_output := ctx_output w;
       shared_status := <[r := Status_Update (status_of (shared_status w) r) new_status]> (shared_status w);
       shared_output := shared_output w;
       done_log := done_log w |}.

(** Calling a done callback: the call is recorded. *)
Definition call_done (d : DoneCallback) (w : World) : World :=
  {| ctx_status := ctx_status w;
     ctx_output := ctx_output w;
     shared_status := shared_status w;
     shared_output := shared_output w;
     done_log := done_log w ++ [d] |}.

(** ** Concat and Split (file-level helpers of the source)

    [Concat] and [Split] call functions of the tensor library that stop the
    program when one of their checks fails: [Tensor::shaped<T, 2>] compares
    the element type of the tensor with [T] and the number of elements with
    the shape asked for, [TensorShape::set_dim] wants a dimension the shape
    has and a size that is not negative, [Tensor::Slice] wants a tensor of
    rank at least one and 0 <= start <= limit <= dim_size(0).  The source
    returns nothing on such a path.  The model answers [check_failed], an
    [Unknown] error, there: it never answers OK where the source does not
    return. *)

Definition check_failed (what : string) : Status := Error Unknown what.

Module TensorOps.
Section WithTypes.

(** The element types [TF_CALL_ALL_TYPES] enumerates (the macro is declared
    outside this file). *)
Variable TF_CALL_ALL_TYPES : DataType -> bool.

(** [IsInnerDimsSizeAligned<T>], a property of the memory layout. *)
Variable IsInnerDimsSizeAligned : Tensor -> bool.

(** The body of the loop of [Concat<T>] on one input: same rank as
    [inputs[0]], same dimensions 1 and up, and, for an input that has
    elements, [input.shaped<T, 2>], which checks that the element type of
    the input is [T]. *)
Definition Concat_check (T : DataType) (first input : Tensor) : Status :=
  if negb (dims input =? dims first) then
    Error InvalidArgument "Ranks of all input tensors should match: shape[0] = "
  else if negb (forallb (fun j => dim_size input j =? dim_size first j)
                  (seq 1 (Z.to_nat (dims first) - 1)))
  then Error InvalidArgument "Dimensions of inputs should match: shape[0] = "
  else if (NumElements input >? 0) && negb (dtype input =? T)%nat
  then check_failed "Tensor::shaped: the element type of the tensor is not T"
  else OK.

(** The loop of [Concat<T>]: first failing check, or [output_dim0]. *)
Fixpoint Concat_loop (T : DataType) (first : Tensor) (inputs : list Tensor)
    (output_dim0 : Z) : Status * Z :=
  match inputs with
  | [] => (OK, output_dim0)
  | input :: rest =>
      match Concat_check T first input with
      | OK => Concat_loop T first rest (output_dim0 + dim_size input 0)
      | e => (e, output_dim0)
      end
  end.

(** [Concat<T>(context, inputs, output)].  After the loop,
    [output_shape.set_dim(0, output_dim0)] fails its check when [inputs[0]]
    has no dimension 0 ([output_dim0], the number of rows the inputs hold
    together, is not negative).  The output is allocated with element type
    [T] and the row shape of [inputs[0]], and holds the rows of all inputs in
    order (inputs without elements contribute none).  [inputs[0]] of an empty
    list is undefined in the source; the model reports it as an [Unknown]
    error. *)
Definition Concat_T (T : DataType) (context : OpKernelContext)
    (inputs : list Tensor) : Status * Tensor :=
  match inputs with
  | [] => (Error Unknown "inputs[0] of an empty list", Scalar 0%nat 0)
  | first :: _ =>
      match Concat_loop T first inputs 0 with
      | (OK, _) =>
          if dims first =? 0 then
            (check_failed "TensorShape::set_dim: the shape has no dimension 0",
             Scalar 0%nat 0)
          else
            match ctx_allocate context with
            | OK => (OK, Rows T (tensor_inner first)
                           (concat (map tensor_rows inputs)))
            | e => (e, Scalar 0%nat 0)
            end
      | (e, _) => (e, Scalar 0%nat 0)
      end
  end.

(** [Concat(context, inputs, output)]: [Concat<T>] with [T] the element type
    of [inputs[0]]. *)
Definition Concat (context : OpKernelContext) (inputs : list Tensor)
  : Status * Tensor :=
  match inputs with
  | [] => (Error Unknown "inputs[0] of an empty list", Scalar 0%nat 0)
  | first :: _ =>
      if TF_CALL_ALL_TYPES (dtype first) then
        Concat_T (dtype first) context inputs
      else (Error InvalidArgument "Unsupported data type: ", Scalar 0%nat 0)
  end.

(** [total_size] of [SplitEasyCases]: the sizes added up in an [int64]. *)
Definition total_size (sizes : list Z) : Z :=
  fold_left (fun total size => to_int64 (total + size)) sizes 0.

(** The checks of [Tensor::Slice(start, limit)]. *)
Definition Slice_checks (input : Tensor) (start limit : Z) : bool :=
  (1 <=? dims input) && (0 <=? start) && (start <=? limit)
  && (limit <=? dim_size input 0).

(** The loop of special case 1 of [SplitEasyCases]: split [i] is
    [input.Slice(position, position + size)], with [position] an [int64]. *)
Fixpoint SplitEasyCases_loop (input : Tensor) (position : Z) (sizes : list Z)
  : Status * list Tensor :=
  match sizes with
  | [] => (OK, [])
  | size :: rest =>
      let limit := to_int64 (position + size) in
      if Slice_checks input position limit then
        match SplitEasyCases_loop input limit rest with
        | (OK, outputs) => (OK, Slice input position limit :: outputs)
        | (e, _) => (e, [])
        end
      else (check_failed "Tensor::Slice: not 0 <= start <= limit <= dim_size(0)", [])
  end.

(** [SplitEasyCases<T>(context, input, sizes, outputs, done)]: the status,
    the outputs and [done]. *)
Definition SplitEasyCases (input : Tensor) (sizes : list Z)
  : Status * list Tensor * bool :=
  if total_size sizes >? dim_size input 0 then
    (Error InvalidArgument
       "Sum of split sizes must not exceed dim0-size of input tensor", [], false)
  else if (Z.of_nat (length sizes) =? 1) && (nth 0 sizes 0 =? dim_size input 0)
  then (OK, [input], true)
  else if IsInnerDimsSizeAligned input then
    let '(s, outputs) := SplitEasyCases_loop input 0 sizes in (s, outputs, true)
  else (OK, [], false).

(** The loop of [SplitCPU]: for each size, [set_dim(0, size)] (a size that
    is not negative), the allocation of the output, and the copy of the rows
    [position, position + size) of the input by [functor::Split]; reading
    rows the input does not have is undefined in the source, and the model
    reports it as a failed check. *)
Fixpoint SplitCPU_loop (context : OpKernelContext) (input : Tensor)
    (position : Z) (sizes : list Z) : Status * list Tensor :=
  match sizes with
  | [] => (OK, [])
  | size :: rest =>
      if size <? 0 then
        (check_failed "TensorShape::set_dim: the size is negative", [])
      else
        match ctx_allocate context with
        | OK =>
            if (0 <=? position) && (position + size <=? dim_size input 0) then
              match SplitCPU_loop context input (to_int64 (position + size))
                      rest with
              | (OK, outputs) =>
                  (OK, Slice input position (position + size) :: outputs)
              | (e, _) => (e, [])
              end
            else (check_failed "functor::Split: rows outside the input", [])
        | e => (e, [])
        end
  end.

(** [SplitCPU<T>(context, input, sizes, outputs)].  [input.shaped<T, 2>] is
    asked for [dim_size(0)] rows of [suffix_dim_size] elements, which must be
    the elements of the input. *)
Definition SplitCPU (context : OpKernelContext) (input : Tensor)
    (sizes : list Z) : Status * list Tensor :=
  let suffix_dim_size := product (tensor_inner input) in
  if negb (dim_size input 0 * suffix_dim_size =? NumElements input) then
    (check_failed "Tensor::shaped: the shape asked for has other elements", [])
  else SplitCPU_loop context input 0 sizes.

(** [Split<T>(context, input, sizes, outputs)]: [SplitEasyCases], then
    [SplitCPU] when no easy case applied. *)
Definition Split_T (context : OpKernelContext) (input : Tensor) (sizes : list Z)
  : Status * list Tensor :=
  match SplitEasyCases input sizes with
  | (OK, outputs, easy_cases_done) =>
      if easy_cases_done then (OK, outputs) else SplitCPU context input sizes
  | (e, _, _) => (e, [])
  end.

Definition Split (context : OpKernelContext) (input : Tensor) (sizes : list Z)
  : Status * list Tensor :=
  if TF_CALL_ALL_TYPES (dtype input) then Split_T context input sizes
  else (Error InvalidArgument "Unsupported data type: ", []).

(** The rows [position, position + size) for every size in turn: what the
    loops of [SplitEasyCases] and [SplitCPU] produce when no check fails. *)
Fixpoint Split_slices (input : Tensor) (position : Z) (sizes : list Z)
  : list Tensor :=
  match sizes with
  | [] => []
  | size :: rest =>
      Slice input position (position + size)
      :: Split_slices input (position + size) rest
  end.

End WithTypes.
End TensorOps.

(** ** BatchResource *)

Module BatchResource.

(** [BatchResource::BatchTask].  [output] and [status] are the references of
    the shared cells; [propagated_context], which no function below reads, is
    left out. *)
Record BatchTask := {
  guid : Z;
  inputs : list Tensor;
  captured_inputs : list Tensor;
  context : OpKernelContext;
  done_callback : DoneCallback;
  split_index : Z;
  output : nat;
  status : nat;
  is_partial : bool;
  start_time : Z
}.

(** [BatchTask::size()]: [inputs[0].shape().dim_size(0)], a non-negative
    dimension that reads the same as a [size_t]. *)
Definition size (t : BatchTask) : Z :=
  dim_size (nth 0 (inputs t) (Scalar 0%nat 0)) 0.

(** Modelled from the spec: [serving::Batch<BatchTask>] is declared by the
    scheduler, outside this file; a batch is its tasks in order and its size
    is the sum of their sizes. *)
Definition Batch := list BatchTask.

Definition num_tasks (b : Batch) : Z := Z.of_nat (length b).

(** [Batch::size()]: the sum of the task sizes, a [size_t]. *)
Definition batch_size (b : Batch) : Z := to_size_t (sum_list (map size b)).

Definition default_task : BatchTask :=
  {| guid := 0; inputs := []; captured_inputs := [];
     context := {| ctx_id := 0; ctx_inputs := []; num_outputs := 0;
                   ctx_allocate := OK |};
     done_callback := 0%nat; split_index := 0; output := 0%nat;
     status := 0%nat; is_partial := false; start_time := 0 |}.

Definition task (b : Batch) (i : nat) : BatchTask := nth i b default_task.

Definition last_task (b : Batch) : BatchTask :=
  task b (length b - 1).

(** [ValidateBatch]. *)
Definition ValidateBatch (b : Batch) : Status :=
  if forallb (fun t => (length (inputs t) =? length (inputs (task b 0)))%nat) b
  then OK
  else Error InvalidArgument "Batching inputs must have equal number of edges".

Section WithResource.

Variable TF_CALL_ALL_TYPES : DataType -> bool.
Variable IsInnerDimsSizeAligned : Tensor -> bool.

(** The field [allowed_batch_sizes_]. *)
Variable allowed_batch_sizes_ : list Z.

(** The loop of [RoundToLowestAllowedBatchSize]. *)
Fixpoint first_allowed (sizes : list Z) (batch_size : Z) : option Z :=
  match sizes with
  | [] => None
  | allowed_size :: rest =>
      if allowed_size >=? batch_size then Some allowed_size
      else first_allowed rest batch_size
  end.

(** [RoundToLowestAllowedBatchSize(int batch_size)]. *)
Definition RoundToLowestAllowedBatchSize (batch_size : Z) : Z :=
  match allowed_batch_sizes_ with
  | [] => batch_size
  | _ =>
      match first_allowed allowed_batch_sizes_ batch_size with
      | Some allowed_size => allowed_size
      | None => batch_size
      end
  end.

(** [padded_batch_size] of [ConcatInputTensors]: [batch.size()] narrows to
    the [int] parameter. *)
Definition padded_batch_size (b : Batch) : Z :=
  RoundToLowestAllowedBatchSize (to_int (batch_size b)).

(** [padding_amount] of [ConcatInputTensors] and [padding_size] of
    [SplitOutputTensors]: [int - size_t] is computed in [size_t] and stored
    in an [int]. *)
Definition padding_amount (b : Batch) : Z :=
  to_int (to_size_t (padded_batch_size b - batch_size b)).

(** [inputs.at(i)] of every task. *)
Definition edge_inputs (b : Batch) (i : nat) : option (list Tensor) :=
  mapM (fun t => inputs t !! i) b.

(** The padding tensor for one edge: the first row of [padding_source]. *)
Definition padding_of (padding_source : Tensor) : Tensor :=
  if dim_size padding_source 0 =? 1 then padding_source
  else Slice padding_source 0 1.

(** The body of the loop of [ConcatInputTensors] over the input edges.
    [inputs.at(i)] out of range throws in the source; the model reports it as
    an [Unknown] error. *)
Fixpoint ConcatInputTensors_loop (b : Batch) (context : OpKernelContext)
    (edges : list nat) (concatenated_tensors : list Tensor)
  : Status * list Tensor :=
  match edges with
  | [] => (OK, concatenated_tensors)
  | i :: rest =>
      match edge_inputs b i with
      | None => (Error Unknown "std::out_of_range", concatenated_tensors)
      | Some to_concatenate =>
          let padding_source := nth i (inputs (task b 0)) (Scalar 0%nat 0) in
          if (padding_amount b >? 0) && (dim_size padding_source 0 =? 0) then
            (Error InvalidArgument
               "Cannot use an empty tensor with zero rows as padding when batching. (Input ",
             concatenated_tensors)
          else
            let to_concatenate :=
              if padding_amount b >? 0 then
                to_concatenate
                  ++ replicate (Z.to_nat (padding_amount b)) (padding_of padding_source)
              else to_concatenate in
            match TensorOps.Concat TF_CALL_ALL_TYPES context to_concatenate with
            | (OK, concatenated_tensor) =>
                ConcatInputTensors_loop b context rest
                  (concatenated_tensors ++ [concatenated_tensor])
            | (e, _) => (e, concatenated_tensors)
            end
      end
  end.

(** [ConcatInputTensors(batch, context, concatenated_tensors)].  (The two
    calls that record metrics have no part in the result and are left
    out.) *)
Definition ConcatInputTensors (b : Batch) (context : OpKernelContext)
  : Status * list Tensor :=
  if num_tasks b =? 0 then (Error InvalidArgument "Empty batch.", [])
  else
    let num_inputs := to_int (Z.of_nat (length (inputs (task b 0)))) in
    ConcatInputTensors_loop b context (seq 0 (Z.to_nat num_inputs)) [].

(** *** SplitInputTask *)

(** The [for] loop of [SplitInputTask] that cuts what is left of the task
    into pieces of at most [max_batch_size].  The loop of the source need not
    end (it does not when [max_batch_size <= 0]), so the model counts its
    iterations down from [fuel] and answers [None] when they run out. *)
Fixpoint SplitInputTask_loop (fuel : nat) (left_task_size max_batch_size : Z)
  : option (list Z) :=
  if left_task_size >? 0 then
    match fuel with
    | O => None
    | S fuel' =>
        let next_task_size := Z.min left_task_size max_batch_size in
        option_map (cons next_task_size)
          (SplitInputTask_loop fuel' (to_int (left_task_size - max_batch_size))
             max_batch_size)
    end
  else Some [].

(** [output_task_sizes] of [SplitInputTask]. *)
Definition output_task_sizes (fuel : nat)
    (input_task_size open_batch_remaining_slot max_batch_size : Z)
  : option (list Z) :=
  option_map
    (app (if open_batch_remaining_slot >? 0 then [open_batch_remaining_slot] else []))
    (SplitInputTask_loop fuel
       (to_int (input_task_size - open_batch_remaining_slot)) max_batch_size).

(** [std::vector::resize(n)] with value-initialised new elements. *)
Definition resize {A} (l : list A) (n : Z) (d : A) : list A :=
  take (Z.to_nat n) l ++ replicate (Z.to_nat n - length l) d.

(** The tokens [barrier.Inc()] hands out, in order (the barrier is declared
    outside this file). *)
Variable barrier_Inc : nat -> DoneCallback.

(** The output tasks before their inputs are filled in. *)
Definition SplitInputTask_tasks (input_task : BatchTask) (output_task_num : Z)
  : list BatchTask :=
  map (fun i =>
         {| guid := guid input_task;
            inputs := [];
            captured_inputs := captured_inputs input_task;
            context := context input_task;
            done_callback := barrier_Inc i;
            split_index := Z.of_nat i;
            output := output input_task;
            status := status input_task;
            is_partial := true;
            start_time := start_time input_task |})
      (seq 0 (Z.to_nat output_task_num)).

Definition push_input (t : BatchTask) (x : Tensor) : BatchTask :=
  {| guid := guid t; inputs := inputs t ++ [x];
     captured_inputs := captured_inputs t; context := context t;
     done_callback := done_callback t; split_index := split_index t;
     output := output t; status := status t; is_partial := is_partial t;
     start_time := start_time t |}.

(** The last loop of [SplitInputTask]: split every input tensor and hand
    piece [j] to output task [j]. *)
Fixpoint SplitInputTask_inputs (input_task : BatchTask) (sizes : list Z)
    (input_tensors : list Tensor) (output_tasks : list BatchTask)
  : Status * list BatchTask :=
  match input_tensors with
  | [] => (OK, output_tasks)
  | input_tensor :: rest =>
      match TensorOps.Split TF_CALL_ALL_TYPES IsInnerDimsSizeAligned
              (context input_task) input_tensor sizes with
      | (OK, split_tensors) =>
          if negb (length split_tensors =? length sizes)%nat then
            (Error Internal
               "When splitting input, tensor split operation did not work as expected; got ",
             output_tasks)
          else
            SplitInputTask_inputs input_task sizes rest
              (imap (fun j t =>
                       match split_tensors !! j with
                       | Some x => push_input t x
                       | None => t
                       end) output_tasks)
      | (_, _) =>
          (Error Internal "When splitting input, Tensor split operation failed: ",
           output_tasks)
      end
  end.

Definition set_shared_output (r : nat) (m : TensorMatrix) (w : World) : World :=
  {| ctx_status := ctx_status w;
     ctx_output := ctx_output w;
     shared_status := shared_status w;
     shared_output := <[r := m]> (shared_output w);
     done_log := done_log w |}.

(** [SplitInputTask(input_task_ptr, open_batch_remaining_slot, max_batch_size,
    output_tasks)]. *)
Definition SplitInputTask (fuel : nat) (input_task : BatchTask)
    (open_batch_remaining_slot max_batch_size : Z) (w : World)
  : option (Status * list BatchTask * World) :=
  let input_task_size := to_int64 (size input_task) in
  match output_task_sizes fuel input_task_size open_batch_remaining_slot
          max_batch_size with
  | None => None
  | Some sizes =>
      let output_task_num := to_int (Z.of_nat (length sizes)) in
      let matrix :=
        map (fun row => resize row (num_outputs (context input_task)) (Scalar 0%nat 0))
          (resize (default [] (shared_output w !! output input_task))
             output_task_num []) in
      let w := set_shared_output (output input_task) matrix w in
      let '(st, output_tasks) :=
        SplitInputTask_inputs input_task sizes (inputs input_task)
          (SplitInputTask_tasks input_task output_task_num) in
      Some (st, output_tasks, w)
  end.

(** *** SplitOutputTensors *)

(** [tensor::Split] of the tensor library. *)
Variable tensor_Split : Tensor -> list Z -> Status * list Tensor.

Definition task_sizes_plus_optional_padding (b : Batch) : list Z :=
  map size b ++ (if padding_amount b >? 0 then [padding_amount b] else []).

(** Assignment to entry [task.split_index][i] of the matrix [task.output]
    points to.  Indexing outside the matrix is
    undefined in the source; the model leaves the matrix as it is. *)
Definition assign_shared_output (t : BatchTask) (i : nat) (x : Tensor)
    (w : World) : World :=
  set_shared_output (output t)
    (alter (fun tensor_vector => <[i := x]> tensor_vector)
       (Z.to_nat (split_index t))
       (default [] (shared_output w !! output t)))
    w.

(** The inner loop of [SplitOutputTensors] over the tasks, for output [i]. *)
Definition scatter_output (i : nat) (split_tensor : list Tensor) (b : Batch)
    (w : World) : World :=
  foldl (fun w jt =>
           let x := nth (fst jt) split_tensor (Scalar 0%nat 0) in
           if is_partial (snd jt) then assign_shared_output (snd jt) i x w
           else set_output (context (snd jt)) (Z.of_nat i) x w)
        w (imap (fun j t => (j, t)) b).

(** The outer loop of [SplitOutputTensors] over the combined outputs. *)
Fixpoint SplitOutputTensors_loop (b : Batch) (i : nat)
    (combined_outputs : list Tensor) (w : World) : Status * World :=
  match combined_outputs with
  | [] => (OK, w)
  | output_tensor :: rest =>
      if dims output_tensor =? 0 then
        (Error FailedPrecondition "Batched output tensor has 0 dimensions", w)
      else if negb (dim_size output_tensor 0
                      =? to_int64 (to_size_t (batch_size b + padding_amount b)))
      then
        (Error FailedPrecondition
           "Batched output tensor's 0th dimension does not equal the sum of the 0th dimension sizes of the input tensors",
         w)
      else
        match tensor_Split output_tensor (task_sizes_plus_optional_padding b) with
        | (OK, split_tensor) =>
            if negb (length split_tensor
                       =? length (task_sizes_plus_optional_padding b))%nat
            then
              (Error Internal
                 "Tensor split operation did not work as expected; got ", w)
            else
              SplitOutputTensors_loop b (S i) rest
                (scatter_output i split_tensor b w)
        | (_, _) => (Error Internal "Tensor split operation failed: ", w)
        end
  end.

(** [SplitOutputTensors(combined_outputs, batch)]. *)
Definition SplitOutputTensors (combined_outputs : list Tensor) (b : Batch)
    (w : World) : Status * World :=
  if num_tasks b <? 1 then
    (Error Internal "Batch size expected to be positive; was ", w)
  else if negb (to_int (Z.of_nat (length combined_outputs))
                  =? num_outputs (context (task b 0)))
  then (Error Internal "Wrong number of batched output tensors", w)
  else SplitOutputTensors_loop b 0 combined_outputs w.

(** *** ProcessFuncBatch *)

(** [flib->Run(opts, fhandle_, args, &combined_outputs, callback)]: the
    function runtime computes a status and the outputs and calls [callback]
    with the status, once. *)
Variable flib_Run : list Tensor -> Status * list Tensor.

(** The body of [cleanup_fn] for one task. *)
Definition cleanup_task (s : Status) (w : World) (t : BatchTask) : World :=
  call_done (done_callback t)
    (if is_partial t then ThreadSafeStatus_Update (status t) s w
     else SetStatus (context t) s w).

(** [cleanup_fn(status)], with the flag [cleanup_done] it reads and sets. *)
Definition cleanup_fn (b : Batch) (s : Status) (cw : bool * World)
  : bool * World :=
  let '(cleanup_done, w) := cw in
  if cleanup_done then (cleanup_done, w)
  else (true, foldl (cleanup_task s) w b).

(** [ProcessFuncBatch(batch)].  Every way out of the function is one of the
    branches below; each runs [cleanup_fn], through [finally] before
    [finally.release()] and through [run_finally] in the callback of
    [flib->Run] after it. *)
Definition ProcessFuncBatch (b : Batch) (w : World) : World :=
  if (length b =? 0)%nat then w
  else
    let last_task_context := context (last_task b) in
    let cleanup_done := false in
    let st := ValidateBatch b in
    if negb (ok st) then snd (cleanup_fn b st (cleanup_done, w))
    else
      match ConcatInputTensors b last_task_context with
      | (OK, concatenated_tensors) =>
          let args := concatenated_tensors ++ captured_inputs (last_task b) in
          let '(run_status, combined_outputs) := flib_Run args in
          if negb (ok run_status) then
            snd (cleanup_fn b run_status (cleanup_done, w))
          else
            let '(final_status, w) := SplitOutputTensors combined_outputs b w in
            snd (cleanup_fn b final_status (cleanup_done, w))
      | (st, _) => snd (cleanup_fn b st (cleanup_done, w))
      end.

(** *** EmitIndexTensor *)

Definition DT_INT64 : DataType := 9%nat.

(** [index_flat(i, j) = v]. *)
Definition index_write (index : list Row) (i j : nat) (v : Z) : list Row :=
  alter (fun row => <[j := v]> row) i index.

(** The loop of [EmitIndexTensor]; [offset] is a [size_t], the entries of the
    index are [int64]. *)
Fixpoint EmitIndexTensor_loop (tasks : list BatchTask) (task_idx : nat)
    (offset : Z) (index : list Row) : list Row :=
  match tasks with
  | [] => index
  | t :: rest =>
      let index := index_write index task_idx 0 (guid t) in
      let index := index_write index task_idx 1 (to_int64 offset) in
      let index :=
        index_write index task_idx 2 (to_int64 (to_size_t (offset + size t))) in
      EmitIndexTensor_loop rest (S task_idx) (to_size_t (offset + size t)) index
  end.

(** [EmitIndexTensor(context, batch, output_index)]: the status, and the
    world in which output [output_index] of [context] is the index tensor. *)
Definition EmitIndexTensor (context : OpKernelContext) (b : Batch)
    (output_index : Z) (w : World) : Status * World :=
  match ctx_allocate context with
  | OK =>
      let index := allocated DT_INT64 (num_tasks b) [3] in
      (OK,
       set_output context output_index
         (Rows DT_INT64 [3] (EmitIndexTensor_loop b 0 0 (tensor_rows index))) w)
  | e => (e, w)
  end.

(** *** ProcessBatch *)

(** Where a function stands after a statement: it goes on, or it has
    returned. *)
Inductive Flow :=
| Continue (w : World)
| Return (w : World).

Definition and_then (f : Flow) (k : World -> Flow) : Flow :=
  match f with
  | Continue w => k w
  | Return w => Return w
  end.

Definition flow_world (f : Flow) : World :=
  match f with Continue w => w | Return w => w end.

(** The macro [OP_REQUIRES_OK_ASYNC(CTX, STATUS, CALLBACK)]: on an error,
    fail the context, call the callback and return. *)
Definition OP_REQUIRES_OK_ASYNC (ctx : OpKernelContext) (st : Status)
    (callback : DoneCallback) (w : World) : Flow :=
  if ok st then Continue w
  else Return (call_done callback (SetStatus ctx st w)).

(** [context->allocate_output(i, shape, &output)], [t] being the fresh
    tensor of that shape. *)
Definition allocate_output (ctx : OpKernelContext) (i : Z) (t : Tensor)
    (w : World) : Status * World :=
  match ctx_allocate ctx with
  | OK => (OK, set_output ctx i t w)
  | e => (e, w)
  end.

Fixpoint for_each {A} (l : list A) (body : A -> World -> Flow) (w : World)
  : Flow :=
  match l with
  | [] => Continue w
  | x :: rest => and_then (body x w) (for_each rest body)
  end.

(** The tasks before the last one. *)
Definition but_last (b : Batch) : list BatchTask := take (length b - 1) b.

(** [ProcessBatch(batch)]. *)
Definition ProcessBatch (b : Batch) (w : World) : World :=
  if (length b =? 0)%nat then w
  else
    let last_task_context := context (last_task b) in
    let last_task_callback := done_callback (last_task b) in
    flow_world
      (and_then
         (OP_REQUIRES_OK_ASYNC last_task_context (ValidateBatch b)
            last_task_callback w)
         (fun w =>
      let num_input_edges := to_int (Z.of_nat (length (inputs (task b 0)))) in
      let '(concat_status, concatenated_tensors) :=
        ConcatInputTensors b last_task_context in
      and_then
        (OP_REQUIRES_OK_ASYNC last_task_context concat_status
           last_task_callback w)
        (fun w =>
      and_then
        (for_each (seq 0 (Z.to_nat num_input_edges))
           (fun i w =>
              for_each (but_last b)
                (fun t w =>
                   let '(st, w) :=
                     allocate_output (context t) (Z.of_nat i)
                       (Rows (dtype (nth i (inputs t) (Scalar 0%nat 0)))
                          (tensor_inner (nth i (inputs t) (Scalar 0%nat 0))) [])
                       w in
                   OP_REQUIRES_OK_ASYNC (context t) st (done_callback t) w)
                (set_output last_task_context (Z.of_nat i)
                   (nth i concatenated_tensors (Scalar 0%nat 0)) w))
           w)
        (fun w =>
      and_then
        (for_each (but_last b)
           (fun t w =>
              let '(st, w) :=
                allocate_output (context t) num_input_edges
                  (Rows DT_INT64 [3] []) w in
              OP_REQUIRES_OK_ASYNC (context t) st (done_callback t) w)
           w)
        (fun w =>
      and_then
        (for_each b
           (fun t w =>
              let '(st, w) :=
                allocate_output (context t) (num_input_edges + 1)
                  (Scalar DT_INT64 (guid t)) w in
              OP_REQUIRES_OK_ASYNC (context t) st (done_callback t) w)
           w)
        (fun w =>
      let '(st, w) := EmitIndexTensor last_task_context b num_input_edges w in
      and_then
        (OP_REQUIRES_OK_ASYNC last_task_context st last_task_callback w)
        (fun w =>
      Continue (foldl (fun w t => call_done (done_callback t) w) w b)))))))).

End WithResource.
End BatchResource.

(** *** RegisterInput and LookupOrCreateBatcherQueue *)

Module BatchResourceInput.

Import BatchResource.

(** A [BatcherQueue] is known by its identity; the scheduler that makes the
    queues and takes the tasks is declared outside this file. *)
Definition BatcherQueue := nat.

(** [LookupOrCreateBatcherQueue(queue_name, queue)] on the map
    [batcher_queues_]; [add_queue] is what [batcher_->AddQueue] answers when
    it is asked: its status and the new queue. *)
Definition LookupOrCreateBatcherQueue (queue_name : string)
    (add_queue : Status * BatcherQueue)
    (batcher_queues_ : gmap string BatcherQueue)
  : Status * option BatcherQueue * gmap string BatcherQueue :=
  match batcher_queues_ !! queue_name with
  | Some queue => (OK, Some queue, batcher_queues_)
  | None =>
      match add_queue with
      | (OK, new_queue) =>
          (OK, Some new_queue, <[queue_name := new_queue]> batcher_queues_)
      | (e, _) => (e, None, batcher_queues_)
      end
  end.

(** The loop of [RegisterInput] over [tensors]; [first] is [tensors[0]] and
    [n] is [tensors.size()]. *)
Fixpoint RegisterInput_loop (first : Tensor) (n : nat) (tensors : list Tensor)
  : Status :=
  match tensors with
  | [] => OK
  | tensor :: rest =>
      if dims tensor =? 0 then
        Error InvalidArgument
          "Batching input tensors must have at least one dimension"
      else if (2 <=? n)%nat && negb (dim_size tensor 0 =? dim_size first 0) then
        Error InvalidArgument
          "Batching input tensors supplied in a given op invocation must have equal 0th-dimension size"
      else RegisterInput_loop first n rest
  end.

Section WithScheduler.

(** [batcher_queue->Schedule(&batch_components)]. *)
Variable Schedule : BatcherQueue -> BatchTask -> Status.

(** [RegisterInput(guid, context, batcher_queue_name, done_callback)].
    [in_tensors] and [captured_tensors] are what [context->input_list]
    answers for the two names, [now] what [EnvTime::NowNanos()] answers,
    [fresh_output] and [fresh_status] the references of the two cells
    [make_shared] makes.  The answer is the status, the queue and the task
    handed to [Schedule] if it was reached, and the map of queues.
    [tensors[0]] of an empty list is undefined in the source; the model
    reports it as an [Unknown] error. *)
Definition RegisterInput (guid : Z) (context : OpKernelContext)
    (batcher_queue_name : string) (done_callback : DoneCallback) (now : Z)
    (in_tensors captured_tensors : Status * list Tensor)
    (fresh_output fresh_status : nat) (add_queue : Status * BatcherQueue)
    (batcher_queues_ : gmap string BatcherQueue)
  : Status * option (BatcherQueue * BatchTask) * gmap string BatcherQueue :=
  match in_tensors with
  | (OK, tensors) =>
      match RegisterInput_loop (nth 0 tensors (Scalar 0%nat 0)) (length tensors)
              tensors with
      | OK =>
          match tensors with
          | [] => (Error Unknown "tensors[0] of an empty list", None,
                   batcher_queues_)
          | _ =>
              let batch_components :=
                {| guid := guid;
                   inputs := tensors;
                   captured_inputs :=
                     if ok (fst captured_tensors) then snd captured_tensors
                     else [];
                   context := context;
                   done_callback := done_callback;
                   split_index := 0;
                   output := fresh_output;
                   status := fresh_status;
                   is_partial := false;
                   start_time := now |} in
              match LookupOrCreateBatcherQueue batcher_queue_name add_queue
                      batcher_queues_ with
              | (OK, Some batcher_queue, queues) =>
                  (Schedule batcher_queue batch_components,
                   Some (batcher_queue, batch_components), queues)
              | (e, _, queues) => (e, None, queues)
              end
          end
      | e => (e, None, batcher_queues_)
      end
  | (e, _) => (e, None, batcher_queues_)
  end.

(** [BatchKernel::ComputeAsync(c, done)] and
    [BatchFunctionKernel::ComputeAsync(c, done)], which differ in the
    arguments they create the resource with: [lookup] is the status of
    [resource_manager()->LookupOrCreate], [guid] what [random::New64()]
    answers. *)
Definition ComputeAsync (lookup : Status) (guid : Z) (c : OpKernelContext)
    (batcher_queue_ : string) (done : DoneCallback) (now : Z)
    (in_tensors captured_tensors : Status * list Tensor)
    (fresh_output fresh_status : nat) (add_queue : Status * BatcherQueue)
    (batcher_queues_ : gmap string BatcherQueue) (w : World)
  : option (BatcherQueue * BatchTask) * gmap string BatcherQueue * World :=
  match OP_REQUIRES_OK_ASYNC c lookup done w with
  | Return w => (None, batcher_queues_, w)
  | Continue w =>
      let '(status, scheduled, queues) :=
        RegisterInput guid c batcher_queue_ done now in_tensors
          captured_tensors fresh_output fresh_status add_queue
          batcher_queues_ in
      (scheduled, queues, flow_world (OP_REQUIRES_OK_ASYNC c status done w))
  end.

End WithScheduler.
End BatchResourceInput.

(** *** split_task_done_callback

    The callback [SplitInputTask] hands to the barrier; it runs once all the
    splits of a task are done. *)

Module SplitCallback.
Section WithTypes.

Import BatchResource.

Variable TF_CALL_ALL_TYPES : DataType -> bool.

(** What the tensor library leaves in a tensor that was moved from, and a
    default-constructed tensor that [Concat] did not fill. *)
Variable moved_from : Tensor -> Tensor.
Variable unset_tensor : Tensor.

(** Entry [i] of every row of the matrix, [output][j][i] for every [j].  An
    entry that a row does not have is undefined in the source; the model reads
    a scalar 0 there. *)
Definition column (m : TensorMatrix) (i : nat) : list Tensor :=
  map (fun tensor_vector => nth i tensor_vector (Scalar 0%nat 0)) m.

(** The body of the loop over the outputs, for output [i]. *)
Definition merge_output (input_task : BatchTask) (i : nat) (w : World) : World :=
  let m := default [] (shared_output w !! output input_task) in
  let to_concatenate := column m i in
  let w :=
    set_shared_output (output input_task)
      (map (fun tensor_vector => alter moved_from i tensor_vector) m) w in
  let '(concat_status, output_tensor) :=
    TensorOps.Concat TF_CALL_ALL_TYPES (context input_task) to_concatenate in
  let w :=
    if negb (ok concat_status) then
      ThreadSafeStatus_Update (status input_task) concat_status w
    else w in
  set_output (context input_task) (Z.of_nat i)
    (if ok concat_status then output_tensor else unset_tensor) w.

(** [split_task_done_callback()], with the fields of [input_task] it
    captured. *)
Definition split_task_done_callback (input_task : BatchTask) (w : World)
  : World :=
  let num_output := num_outputs (context input_task) in
  let w :=
    foldl (fun w i => merge_output input_task i w) w
      (seq 0 (Z.to_nat num_output)) in
  call_done (done_callback input_task)
    (SetStatus (context input_task)
       (status_of (shared_status w) (status input_task)) w).

End WithTypes.
End SplitCallback.

(** *** BatchResource::Create *)

Module BatchResourceCreate.



Section WithScheduler.

(** Status of [Batcher::Create] and the value a default-constructed
    [QueueOptions] has in [max_execution_batch_size] (both belong to the
    scheduler, declared outside this file). *)
Variable Batcher_Create : Status.
Variable default_max_execution_batch_size : Z.

(** [*allowed_batch_sizes.rbegin()]. *)
Definition rbegin (l : list Z) : Z := List.last l 0.


End WithScheduler.
End BatchResourceCreate.

(** ** BatchFunctionKernel and BatchKernel *)

Module BatchFunctionKernel.
Section WithKernel.

Variable allowed_batch_sizes_ : list Z.
Variable max_batch_size_ : Z.
Variable enable_large_batch_splitting_ : bool.

(** [max_execution_batch_size_] as the constructor sets it. *)
Definition max_execution_batch_size_ : Z :=
  if enable_large_batch_splitting_ && negb (length allowed_batch_sizes_ =? 0)%nat
  then BatchResourceCreate.rbegin allowed_batch_sizes_
  else max_batch_size_.

(** The loop of [ValidateAllowedBatchSizes], from index [i] on. *)
Fixpoint ValidateAllowedBatchSizes_loop (i : nat) (sizes : list Z)
    (last_size : Z) : Status :=
  match sizes with
  | [] => OK
  | size :: rest =>
      if (0 <? i)%nat && (size <=? last_size) then
        Error InvalidArgument
          "allowed_batch_sizes entries must be monotonically increasing"
      else if negb enable_large_batch_splitting_
              && (i =? length allowed_batch_sizes_ - 1)%nat
              && negb (size =? max_batch_size_)
      then
        Error InvalidArgument
          "final entry in allowed_batch_sizes must equal max_batch_size when enable_large_batch_splitting is False"
      else ValidateAllowedBatchSizes_loop (S i) rest size
  end.

(** [BatchFunctionKernel::ValidateAllowedBatchSizes]. *)
Definition ValidateAllowedBatchSizes : Status :=
  match allowed_batch_sizes_ with
  | [] => OK
  | _ => ValidateAllowedBatchSizes_loop 0 allowed_batch_sizes_ 0
  end.

End WithKernel.
End BatchFunctionKernel.

Module BatchKernel.
Section WithKernel.

Variable allowed_batch_sizes_ : list Z.
Variable max_batch_size_ : Z.

Fixpoint ValidateAllowedBatchSizes_loop (i : nat) (sizes : list Z)
    (last_size : Z) : Status :=
  match sizes with
  | [] => OK
  | size :: rest =>
      if (0 <? i)%nat && (size <=? last_size) then
        Error InvalidArgument
          "allowed_batch_sizes entries must be monotonically increasing"
      else if (i =? length allowed_batch_sizes_ - 1)%nat
              && negb (size =? max_batch_size_)
      then
        Error InvalidArgument
          "final entry in allowed_batch_sizes must equal max_batch_size"
      else ValidateAllowedBatchSizes_loop (S i) rest size
  end.

(** [BatchKernel::ValidateAllowedBatchSizes]. *)
Definition ValidateAllowedBatchSizes : Status :=
  match allowed_batch_sizes_ with
  | [] => OK
  | _ => ValidateAllowedBatchSizes_loop 0 allowed_batch_sizes_ 0
  end.

End WithKernel.
End BatchKernel.

(** ** Reading index tensors and scalars *)

(** [t.scalar<int64>()()].  On a tensor that is no scalar the tensor library
    fails a check; the model answers 0 there. *)
Definition scalar (t : Tensor) : Z :=
  match t with Scalar _ v => v | Rows _ _ _ => 0 end.

(** [batch_index(i, j)] of an index tensor viewed as a matrix with rows of
    three entries. *)
Definition batch_indices (batch_index_t : Tensor) (i j : nat) : Z :=
  nth j (nth i (tensor_rows batch_index_t) []) 0.

(** ** UnbatchResource *)

Module UnbatchResource.

Record WaitingTensor := {
  wt_deadline_micros : Z;
  tensor : Tensor
}.

Record WaitingCallback := {
  wc_deadline_micros : Z;
  context : OpKernelContext;
  done : DoneCallback
}.

(** The two maps of the resource, keyed by batch key. *)
Record State := {
  waiting_tensors_ : gmap Z WaitingTensor;
  waiting_callbacks_ : gmap Z WaitingCallback
}.

(** The resource as its constructor leaves it. *)
Definition init : State :=
  {| waiting_tensors_ := ∅; waiting_callbacks_ := ∅ |}.

Section WithResource.

Variable TF_CALL_ALL_TYPES : DataType -> bool.
Variable IsInnerDimsSizeAligned : Tensor -> bool.
Variable timeout_micros_ : Z.

(** One iteration of the loop of the critical section, for the key
    [batch_keys[i]] and its piece [split_inputs[i]]: hand the piece to the
    kernel waiting for it, or store it. *)
Definition Compute_row (deadline_micros : Z) (key : Z) (piece : Tensor)
    (acc : State * World * list DoneCallback)
  : Status * (State * World * list DoneCallback) :=
  let '(s, w, done_callbacks_to_call) := acc in
  match waiting_callbacks_ s !! key with
  | Some runs =>
      (OK,
       ({| waiting_tensors_ := waiting_tensors_ s;
           waiting_callbacks_ := delete key (waiting_callbacks_ s) |},
        set_output (context runs) 0 piece w,
        done_callbacks_to_call ++ [done runs]))
  | None =>
      match waiting_tensors_ s !! key with
      | Some _ =>
          (Error AlreadyExists "Multiple tensors returned for same batch key.",
           (s, w, done_callbacks_to_call))
      | None =>
          (OK,
           ({| waiting_tensors_ :=
                 <[key := {| wt_deadline_micros := deadline_micros;
                             tensor := piece |}]> (waiting_tensors_ s);
               waiting_callbacks_ := waiting_callbacks_ s |},
            w, done_callbacks_to_call))
      end
  end.

(** The loop of the critical section over the rows of the index, from row
    [i] on. *)
Fixpoint Compute_rows (deadline_micros : Z) (i : nat) (batch_keys : list Z)
    (split_inputs : list Tensor) (acc : State * World * list DoneCallback)
  : Status * (State * World * list DoneCallback) :=
  match batch_keys with
  | [] => (OK, acc)
  | key :: rest =>
      match Compute_row deadline_micros key
              (nth i split_inputs (Scalar 0%nat 0)) acc with
      | (OK, acc') => Compute_rows deadline_micros (S i) rest split_inputs acc'
      | r => r
      end
  end.

(** The critical section of [Compute]; [now] is what [NowMicros()]
    answers. *)
Definition Compute_critical (ctx : OpKernelContext) (done_ : DoneCallback)
    (batch_key : Z) (nonempty_input : bool) (batch_keys : list Z)
    (split_inputs : list Tensor) (now : Z) (s : State) (w : World)
  : Status * (State * World * list DoneCallback) :=
  match waiting_tensors_ s !! batch_key with
  | Some tensor_it =>
      (OK,
       ({| waiting_tensors_ := delete batch_key (waiting_tensors_ s);
           waiting_callbacks_ := waiting_callbacks_ s |},
        set_output ctx 0 (tensor tensor_it) w,
        [done_]))
  | None =>
      let deadline_micros := to_size_t (now + timeout_micros_) in
      match waiting_callbacks_ s !! batch_key with
      | Some _ =>
          (Error AlreadyExists "Multiple session runs with the same batch key.",
           (s, w, []))
      | None =>
          let s :=
            {| waiting_tensors_ := waiting_tensors_ s;
               waiting_callbacks_ :=
                 <[batch_key := {| wc_deadline_micros := deadline_micros;
                                   context := ctx; done := done_ |}]>
                   (waiting_callbacks_ s) |} in
          if nonempty_input then
            Compute_rows deadline_micros 0 batch_keys split_inputs (s, w, [])
          else (OK, (s, w, []))
      end
  end.

(** [UnbatchResource::Compute(context, done)] at time [now]. *)
Definition Compute (ctx : OpKernelContext) (done_ : DoneCallback) (now : Z)
    (s : State) (w : World) : Status * State * World :=
  let data_t := input ctx 0 in
  let batch_index_t := input ctx 1 in
  if dim_size batch_index_t 0 >? dim_size data_t 0 then
    (Error InvalidArgument
       "Wrong shape for index tensor. Expected 0th dimension size to be no greater than ",
     s, w)
  else if negb (dim_size batch_index_t 1 =? 3) then
    (Error InvalidArgument
       "Wrong shape for index tensor. Expected 1st dimension size to be 3 ; Got: ",
     s, w)
  else
    let batch_key := scalar (input ctx 2) in
    let nonempty_input := dim_size batch_index_t 0 >? 0 in
    let rows := seq 0 (Z.to_nat (dim_size batch_index_t 0)) in
    let sizes :=
      if nonempty_input then
        map (fun i => to_int64 (batch_indices batch_index_t i 2
                                - batch_indices batch_index_t i 1)) rows
      else [] in
    let batch_keys :=
      if nonempty_input then map (fun i => batch_indices batch_index_t i 0) rows
      else [] in
    let '(split_status, split_inputs) :=
      if nonempty_input then
        TensorOps.Split TF_CALL_ALL_TYPES IsInnerDimsSizeAligned ctx data_t sizes
      else (OK, []) in
    if negb (ok split_status) then (split_status, s, w)
    else
      let '(st, (s, w, done_callbacks_to_call)) :=
        Compute_critical ctx done_ batch_key nonempty_input batch_keys
          split_inputs now s w in
      (st, s, foldl (fun w d => call_done d w) w done_callbacks_to_call).

(** [UnbatchResource::EnforceTimeout()] at time [now]: the two loops erase
    the entries whose deadline is before [now] and keep the others, which is
    a filter of each map; the evicted callbacks fail with DeadlineExceeded
    and are called. *)
Definition EnforceTimeout (now : Z) (s : State) (w : World) : State * World :=
  let evicted_callbacks :=
    filter (fun kv => wc_deadline_micros (snd kv) < now)
      (map_to_list (waiting_callbacks_ s)) in
  ({| waiting_tensors_ :=
        filter (fun kv => ¬ wt_deadline_micros (snd kv) < now) (waiting_tensors_ s);
      waiting_callbacks_ :=
        filter (fun kv => ¬ wc_deadline_micros (snd kv) < now)
          (waiting_callbacks_ s) |},
   foldl (fun w kv =>
            call_done (done (snd kv))
              (SetStatus (context (snd kv))
                 (Error DeadlineExceeded
                    "Batched data did not arrive within timeout window.") w))
     w evicted_callbacks).

End WithResource.
End UnbatchResource.

(** ** UnbatchKernel *)

Module UnbatchKernel.
Section WithKernel.

Variable TF_CALL_ALL_TYPES : DataType -> bool.
Variable IsInnerDimsSizeAligned : Tensor -> bool.
Variable timeout_micros_ : Z.

(** [UnbatchKernel::ComputeAsync(c, done)] at time [now]; [lookup] is the
    status of [resource_manager()->LookupOrCreate] and [s] the resource it
    answers with. *)
Definition ComputeAsync (lookup : Status) (c : OpKernelContext)
    (done : DoneCallback) (now : Z) (s : UnbatchResource.State) (w : World)
  : UnbatchResource.State * World :=
  match BatchResource.OP_REQUIRES_OK_ASYNC c lookup done w with
  | BatchResource.Return w => (s, w)
  | BatchResource.Continue w =>
      let '(status, s, w) :=
        UnbatchResource.Compute TF_CALL_ALL_TYPES IsInnerDimsSizeAligned
          timeout_micros_ c done now s w in
      (s, BatchResource.flow_world
            (BatchResource.OP_REQUIRES_OK_ASYNC c status done w))
  end.

End WithKernel.
End UnbatchKernel.

(** ** UnbatchGradResource *)

Module UnbatchGradResource.

(** [UnbatchGradResource::Batch]: a batch that still misses tensors. *)
Record Batch := {
  missing_tensors : gset Z;
  context : OpKernelContext;
  done : DoneCallback
}.

Record State := {
  available_batches_ : gmap Z Batch;
  available_tensors_ : gmap Z Tensor;
  desired_tensor_to_batch_map_ : gmap Z Z
}.

Definition init : State :=
  {| available_batches_ := ∅; available_tensors_ := ∅;
     desired_tensor_to_batch_map_ := ∅ |}.

Definition with_available_tensors (s : State) (m : gmap Z Tensor) : State :=
  {| available_batches_ := available_batches_ s;
     available_tensors_ := m;
     desired_tensor_to_batch_map_ := desired_tensor_to_batch_map_ s |}.

Section WithResource.

Variable TF_CALL_ALL_TYPES : DataType -> bool.

(** The loop of [OutputBatch] that takes the tensors of the batch out of
    [available_tensors_], in the order of the index. *)
Fixpoint OutputBatch_collect (keys : list Z) (available : gmap Z Tensor)
    (tensors : list Tensor) : Status * gmap Z Tensor * list Tensor :=
  match keys with
  | [] => (OK, available, tensors)
  | key :: rest =>
      match available !! key with
      | None =>
          (Error Internal "bad bookkeeping of available tensors.",
           available, tensors)
      | Some t =>
          OutputBatch_collect rest (delete key available) (tensors ++ [t])
      end
  end.

Definition index_keys (batch_index_t : Tensor) : list Z :=
  map (fun i => batch_indices batch_index_t i 0)
    (seq 0 (Z.to_nat (dim_size batch_index_t 0))).

(** [OutputBatch(context, done)]. *)
Definition OutputBatch (ctx : OpKernelContext) (done_ : DoneCallback)
    (s : State) (w : World) : Status * State * World :=
  let batch_index_t := input ctx 1 in
  match OutputBatch_collect (index_keys batch_index_t) (available_tensors_ s) [] with
  | (OK, available, tensors) =>
      let s := with_available_tensors s available in
      if TF_CALL_ALL_TYPES (dtype (nth 0 tensors (Scalar 0%nat 0))) then
        match TensorOps.Concat_T (dtype (nth 0 tensors (Scalar 0%nat 0))) ctx
                tensors with
        | (OK, concatenated_tensor) =>
            (OK, s, call_done done_ (set_output ctx 0 concatenated_tensor w))
        | (e, _) => (e, s, w)
        end
      else (Error InvalidArgument "Unsupported data type: ", s, w)
  | (e, available, _) => (e, with_available_tensors s available, w)
  end.

(** The loop of [Compute] that records which batch wants each missing
    tensor.  (The source walks an [unordered_set], in an order it leaves
    open; [Compute] below walks the set in the order of [elements].) *)
Fixpoint Compute_desire (missing : list Z) (batch_key : Z) (desired : gmap Z Z)
  : Status * gmap Z Z :=
  match missing with
  | [] => (OK, desired)
  | i :: rest =>
      match desired !! i with
      | Some _ =>
          (Error InvalidArgument "Missing tensor wanted by more than one batch.",
           desired)
      | None => Compute_desire rest batch_key (<[i := batch_key]> desired)
      end
  end.

(** The end of [Compute]: is the tensor of this run desired by a waiting
    batch? *)
Definition Compute_search (batch_key : Z) (s : State) (w : World)
  : Status * State * World :=
  match desired_tensor_to_batch_map_ s !! batch_key with
  | None => (OK, s, w)
  | Some wanted_by =>
      let s :=
        {| available_batches_ := available_batches_ s;
           available_tensors_ := available_tensors_ s;
           desired_tensor_to_batch_map_ :=
             delete batch_key (desired_tensor_to_batch_map_ s) |} in
      match available_batches_ s !! wanted_by with
      | None => (Error InvalidArgument "Batch no longer exists.", s, w)
      | Some batch =>
          let batch :=
            {| missing_tensors := missing_tensors batch ∖ {[batch_key]};
               context := context batch; done := done batch |} in
          let s :=
            {| available_batches_ := <[wanted_by := batch]> (available_batches_ s);
               available_tensors_ := available_tensors_ s;
               desired_tensor_to_batch_map_ := desired_tensor_to_batch_map_ s |} in
          if decide (missing_tensors batch = ∅) then
            match OutputBatch (context batch) (done batch) s w with
            | (OK, s, w) =>
                (OK,
                 {| available_batches_ := delete wanted_by (available_batches_ s);
                    available_tensors_ := available_tensors_ s;
                    desired_tensor_to_batch_map_ := desired_tensor_to_batch_map_ s |},
                 w)
            | r => r
            end
          else (OK, s, w)
      end
  end.

(** [UnbatchGradResource::Compute(context, done)]. *)
Definition Compute (ctx : OpKernelContext) (done_ : DoneCallback)
    (s : State) (w : World) : Status * State * World :=
  let data_t := input ctx 0 in
  let batch_index_t := input ctx 1 in
  let grad_t := input ctx 2 in
  let batch_key := scalar (input ctx 3) in
  match available_tensors_ s !! batch_key with
  | Some _ => (Error InvalidArgument "Two runs with the same batch key.", s, w)
  | None =>
      let s := with_available_tensors s (<[batch_key := grad_t]> (available_tensors_ s)) in
      if NumElements data_t >? 0 then
        if NumElements batch_index_t =? 0 then
          (Error InvalidArgument "batch_index is empty while the tensor isn't.",
           s, w)
        else
          let missing_tensors : gset Z :=
            list_to_set
              (filter (fun k => available_tensors_ s !! k = None)
                 (index_keys batch_index_t)) in
          if decide (missing_tensors = ∅) then OutputBatch ctx done_ s w
          else
            match available_batches_ s !! batch_key with
            | Some _ =>
                (Error InvalidArgument "Batch key with valid batch used twice.",
                 s, w)
            | None =>
                let s :=
                  {| available_batches_ :=
                       <[batch_key := {| missing_tensors := missing_tensors;
                                         context := ctx; done := done_ |}]>
                         (available_batches_ s);
                     available_tensors_ := available_tensors_ s;
                     desired_tensor_to_batch_map_ :=
                       desired_tensor_to_batch_map_ s |} in
                match Compute_desire (elements missing_tensors) batch_key
                        (desired_tensor_to_batch_map_ s) with
                | (OK, desired) =>
                    Compute_search batch_key
                      {| available_batches_ := available_batches_ s;
                         available_tensors_ := available_tensors_ s;
                         desired_tensor_to_batch_map_ := desired |} w
                | (e, desired) =>
                    (e,
                     {| available_batches_ := available_batches_ s;
                        available_tensors_ := available_tensors_ s;
                        desired_tensor_to_batch_map_ := desired |}, w)
                end
            end
      else
        match ctx_allocate ctx with
        | OK =>
            Compute_search batch_key s
              (call_done done_
                 (set_output ctx 0 (Rows (dtype grad_t) (tensor_inner grad_t) []) w))
        | e => (e, s, w)
        end
  end.

End WithResource.
End UnbatchGradResource.

(** ** Concrete inputs

    The batch of the third scenario of the specification: two callers, keys
    11 and 12, with two rows and one row of two columns each; the allowed
    sizes are 2 and 4. *)

Module Examples.

Definition all_types (_ : DataType) : bool := true.
Definition aligned (_ : Tensor) : bool := true.

Definition ctx (id : nat) : OpKernelContext :=
  {| ctx_id := id; ctx_inputs := []; num_outputs := 1; ctx_allocate := OK |}.

Definition task (key : Z) (id : nat) (partial : bool) (rows : list Row)
  : BatchResource.BatchTask :=
  {| BatchResource.guid := key;
     BatchResource.inputs := [Rows 1%nat [2] rows];
     BatchResource.captured_inputs := [];
     BatchResource.context := ctx id;
     BatchResource.done_callback := id;
     BatchResource.split_index := 0;
     BatchResource.output := id;
     BatchResource.status := id;
     BatchResource.is_partial := partial;
     BatchResource.start_time := 0 |}.

Definition batch : BatchResource.Batch :=
  [task 11 1 false [[1; 2]; [3; 4]]; task 12 2 true [[5; 6]]].



Definition world : World :=
  {| ctx_status := ∅; ctx_output := ∅; shared_status := ∅;
     shared_output := ∅; done_log := [] |}.

(** A compute function that fails and a tensor splitter that is never
    reached. *)
Definition failing_run (_ : list Tensor) : Status * list Tensor :=
  (Error Internal "compute function failed", []).

Definition no_split (_ : Tensor) (_ : list Z) : Status * list Tensor :=
  (OK, []).

(** A call of UnbatchGrad with one row of data, an index without rows, a
    gradient of one row and the key 11. *)
Definition grad_ctx : OpKernelContext :=
  {| ctx_id := 3;
     ctx_inputs := [Rows 1%nat [2] [[1; 2]]; Rows 9%nat [3] [];
                    Rows 1%nat [2] [[7; 8]]; Scalar 9%nat 11];
     num_outputs := 1;
     ctx_allocate := OK |}.

(** A call of UnbatchGrad by the caller of key 11 with two rows of data, the
    index of the keys 11 and 12 and a gradient of one row. *)
Definition grad_batch_ctx : OpKernelContext :=
  {| ctx_id := 3;
     ctx_inputs := [Rows 1%nat [2] [[1; 2]; [3; 4]];
                    Rows 9%nat [3] [[11; 0; 1]; [12; 1; 2]];
                    Rows 1%nat [2] [[7; 8]]; Scalar 9%nat 11];
     num_outputs := 1;
     ctx_allocate := OK |}.

(** The caller of key 11 has brought the batch and waits for the gradient
    of key 12. *)
Definition grad_waiting : UnbatchGradResource.State :=
  let '(_, s, _) :=
    UnbatchGradResource.Compute all_types grad_batch_ctx 103%nat
      UnbatchGradResource.init world in
  s.

(** A call of UnbatchGrad by the caller of key 12, without data, with a
    gradient of one row. *)
Definition grad_caller_ctx : OpKernelContext :=
  {| ctx_id := 4;
     ctx_inputs := [Rows 1%nat [2] []; Rows 9%nat [3] [];
                    Rows 1%nat [2] [[9; 10]]; Scalar 9%nat 12];
     num_outputs := 1;
     ctx_allocate := OK |}.

(** The gradients of the keys 11 and 12 are at hand. *)
Definition grad_available : UnbatchGradResource.State :=
  UnbatchGradResource.with_available_tensors UnbatchGradResource.init
    (<[11 := Rows 1%nat [2] [[7; 8]]]>
       (<[12 := Rows 1%nat [2] [[9; 10]]]> ∅)).

(** A call of Unbatch with its data, its index and its key. *)
Definition unbatch_ctx (id : nat) (data index : list Row) (key : Z)
  : OpKernelContext :=
  {| ctx_id := id;
     ctx_inputs := [Rows 1%nat [2] data; Rows 9%nat [3] index; Scalar 9%nat key];
     num_outputs := 1;
     ctx_allocate := OK |}.

(** The caller of key 12 has arrived, without data, and waits. *)
Definition unbatch_waiting : UnbatchResource.State * World :=
  let '(_, s, w) :=
    UnbatchResource.Compute all_types aligned 1000
      (unbatch_ctx 1 [] [] 12) 101%nat 0 UnbatchResource.init world in
  (s, w).

(** The caller of key 13 has brought one row for the key 12, which waits. *)
Definition unbatch_stored : UnbatchResource.State :=
  let '(_, s, _) :=
    UnbatchResource.Compute all_types aligned 1000
      (unbatch_ctx 5 [[1; 2]] [[12; 0; 1]] 13) 105%nat 0
      UnbatchResource.init world in
  s.

(** A compute function that returns its arguments. *)
Definition identity_run (args : list Tensor) : Status * list Tensor :=
  (OK, args).

(** A tensor splitter that cuts its input into consecutive slices. *)
Definition slices (t : Tensor) (sizes : list Z) : Status * list Tensor :=
  (OK, TensorOps.Split_slices t 0 sizes).

(** The split at position [j] of the call of key 11 on context 1, holding
    [rows]. *)
Definition split_task (j : nat) (rows : list Row) : BatchResource.BatchTask :=
  {| BatchResource.guid := 11;
     BatchResource.inputs := [Rows 1%nat [2] rows];
     BatchResource.captured_inputs := [];
     BatchResource.context := ctx 1;
     BatchResource.done_callback := j;
     BatchResource.split_index := Z.of_nat j;
     BatchResource.output := 1%nat;
     BatchResource.status := 1%nat;
     BatchResource.is_partial := true;
     BatchResource.start_time := 0 |}.

End Examples.

(** ** Predicates and functions for further properties *)

(** The first status of a list that is an error, OK when there is none. *)
Fixpoint first_error (l : list Status) : Status :=
  match l with
  | [] => OK
  | OK :: rest => first_error rest
  | e :: _ => e
  end.

(** [input] has the rank of [first] and its dimensions 1 and up. *)
Definition same_row_shape (first input : Tensor) : Prop :=
  dims input = dims first
  /\ forall j, (1 <= j < Z.to_nat (dims first))%nat ->
       dim_size input j = dim_size first j.

(** An [int64] value: the entries of the [sizes] of [Split] are such. *)
Definition int64_value (x : Z) : Prop := - 2 ^ 63 <= x <= INT64_MAX.

(** [input] can be read with element type [T]: [Concat<T>] asks it of the
    inputs that have elements. *)
Definition typed_as (T : DataType) (input : Tensor) : Prop :=
  0 < NumElements input -> dtype input = T.

(** [t] is the split at position [j] of [input_task]: it carries the fields
    of the call, the token [j] of the barrier and the index [j]. *)
Definition split_of (barrier_Inc : nat -> DoneCallback)
    (input_task : BatchResource.BatchTask) (j : nat)
    (t : BatchResource.BatchTask) : Prop :=
  BatchResource.guid t = BatchResource.guid input_task
  /\ BatchResource.captured_inputs t = BatchResource.captured_inputs input_task
  /\ BatchResource.context t = BatchResource.context input_task
  /\ BatchResource.done_callback t = barrier_Inc j
  /\ BatchResource.split_index t = Z.of_nat j
  /\ BatchResource.output t = BatchResource.output input_task
  /\ BatchResource.status t = BatchResource.status input_task
  /\ BatchResource.is_partial t = true
  /\ BatchResource.start_time t = BatchResource.start_time input_task.

(** Two tasks that differ in their inputs at most. *)
Definition same_fields (t t' : BatchResource.BatchTask) : Prop :=
  BatchResource.guid t' = BatchResource.guid t
  /\ BatchResource.captured_inputs t' = BatchResource.captured_inputs t
  /\ BatchResource.context t' = BatchResource.context t
  /\ BatchResource.done_callback t' = BatchResource.done_callback t
  /\ BatchResource.split_index t' = BatchResource.split_index t
  /\ BatchResource.output t' = BatchResource.output t
  /\ BatchResource.status t' = BatchResource.status t
  /\ BatchResource.is_partial t' = BatchResource.is_partial t
  /\ BatchResource.start_time t' = BatchResource.start_time t.

(** Every input of the task has as many rows as the task's size: what
    [RegisterInput] checks and [SplitInputTask] keeps. *)
Definition uniform_dim0 (t : BatchResource.BatchTask) : Prop :=
  Forall (fun x => dim_size x 0 = BatchResource.size t) (BatchResource.inputs t).

(** * Properties

    The predicates the theorems are stated with. *)

Section BatchProperties.

Import BatchResource.

(** [r] is the smallest entry of [allowed] that is at least [n]. *)
Definition smallest_allowed_at_least (allowed : list Z) (n r : Z) : Prop :=
  In r allowed /\ n <= r /\ forall a, In a allowed -> n <= a -> r <= a.


(** What one entry of [concatenated_tensors] holds for the edge [i]: the
    rows of the tasks in order, then [pad] copies of the first row of the
    first task's tensor when [pad] is positive. *)
Definition edge_concatenated (b : Batch) (pad : Z) (i : nat) (t : Tensor)
  : Prop :=
  exists to_concatenate,
    edge_inputs b i = Some to_concatenate
    /\ if pad >? 0 then
         exists first rest,
           tensor_rows (nth i (inputs (task b 0)) (Scalar 0%nat 0))
           = first :: rest
           /\ tensor_rows t
              = concat (map tensor_rows to_concatenate)
                  ++ replicate (Z.to_nat pad) first
       else tensor_rows t = concat (map tensor_rows to_concatenate).

(** [Split] can cut [n] rows off [x]: the element type is supported, [x]
    has rank at least one and at least [n] rows, and is aligned or can be
    copied into tensors that [context] allocates. *)
Definition splittable (TF_CALL_ALL_TYPES : DataType -> bool)
    (IsInnerDimsSizeAligned : Tensor -> bool) (context : OpKernelContext)
    (n : Z) (x : Tensor) : Prop :=
  TF_CALL_ALL_TYPES (dtype x) = true
  /\ 0 < dims x
  /\ n <= dim_size x 0
  /\ (IsInnerDimsSizeAligned x = true \/ ctx_allocate context = OK).

(** Every output task has a first input, whose dimension 0 is the size at
    the position of the task. *)
Definition sized (sizes : list Z) (tasks : list BatchTask) : Prop :=
  length tasks = length sizes
  /\ forall j t, tasks !! j = Some t ->
       exists x rest, inputs t = x :: rest /\ sizes !! j = Some (dim_size x 0).

(** The shape of [output_task_sizes]: the open slot when it is positive, [q]
    full pieces, one last piece. *)
Definition split_sizes (open_batch_remaining_slot max_batch_size : Z)
    (q : nat) (last : Z) : list Z :=
  (if open_batch_remaining_slot >? 0 then [open_batch_remaining_slot] else [])
    ++ replicate q max_batch_size ++ [last].

(** The rows of the index as the specification describes them: key, start
    offset, end offset, the offsets counted from [offset]. *)
Fixpoint index_rows (offset : Z) (tasks : list BatchTask) : list Row :=
  match tasks with
  | [] => []
  | t :: rest =>
      [guid t; offset; offset + size t] :: index_rows (offset + size t) rest
  end.

(** Two worlds with the same statuses and the same log of callbacks. *)
Definition same_statuses (w w' : World) : Prop :=
  ctx_status w' = ctx_status w
  /\ shared_status w' = shared_status w
  /\ done_log w' = done_log w.

Section ExitPaths.

Variable TF_CALL_ALL_TYPES : DataType -> bool.
Variable allowed : list Z.
Variable tensor_Split : Tensor -> list Z -> Status * list Tensor.
Variable flib_Run : list Tensor -> Status * list Tensor.

(** The ways out of [ProcessFuncBatch] on a non-empty batch: the status
    handed to [cleanup_fn] and the world it runs in. *)
Inductive exit_path (b : Batch) (w : World) : Status -> World -> Prop :=
| exit_validation c m :
    ValidateBatch b = Error c m ->
    exit_path b w (Error c m) w
| exit_concat c m outs :
    ValidateBatch b = OK ->
    ConcatInputTensors TF_CALL_ALL_TYPES allowed b (context (last_task b))
    = (Error c m, outs) ->
    exit_path b w (Error c m) w
| exit_compute concatenated c m outs :
    ValidateBatch b = OK ->
    ConcatInputTensors TF_CALL_ALL_TYPES allowed b (context (last_task b))
    = (OK, concatenated) ->
    flib_Run (concatenated ++ captured_inputs (last_task b)) = (Error c m, outs) ->
    exit_path b w (Error c m) w
| exit_split concatenated combined_outputs s w' :
    ValidateBatch b = OK ->
    ConcatInputTensors TF_CALL_ALL_TYPES allowed b (context (last_task b))
    = (OK, concatenated) ->
    flib_Run (concatenated ++ captured_inputs (last_task b))
    = (OK, combined_outputs) ->
    SplitOutputTensors allowed tensor_Split combined_outputs b w = (s, w') ->
    exit_path b w s w'.

End ExitPaths.

End BatchProperties.

Section UnbatchProperties.

Import UnbatchResource.

Variable TF_CALL_ALL_TYPES : DataType -> bool.
Variable IsInnerDimsSizeAligned : Tensor -> bool.
Variable timeout_micros_ : Z.


(** The key [k] is in neither map. *)
Definition in_neither (s : State) (k : Z) : Prop :=
  waiting_tensors_ s !! k = None /\ waiting_callbacks_ s !! k = None.

(** The key of the caller and the keys of the index it brings, as [Compute]
    reads them. *)
Definition batch_key_of (ctx : OpKernelContext) : Z := scalar (input ctx 2).

Definition batch_keys_of (ctx : OpKernelContext) : list Z :=
  if dim_size (input ctx 1) 0 >? 0 then
    map (fun i => batch_indices (input ctx 1) i 0)
      (seq 0 (Z.to_nat (dim_size (input ctx 1) 0)))
  else [].


End UnbatchProperties.

(** The sizes of the pieces, as [UnbatchResource::Compute] reads them from
    the index it is given. *)
Definition batch_sizes_of (ctx : OpKernelContext) : list Z :=
  if dim_size (input ctx 1) 0 >? 0 then
    map (fun i => to_int64 (batch_indices (input ctx 1) i 2
                            - batch_indices (input ctx 1) i 1))
      (seq 0 (Z.to_nat (dim_size (input ctx 1) 0)))
  else [].

(** What a step of [ProcessBatch] may do to the callbacks, [log] being the
    calls made before: go on after calling [finish], or return after failing
    the context of one task of the batch and calling the callback of that
    task and no other. *)
Definition flow_calls (log : list DoneCallback) (b : BatchResource.Batch)
    (finish : list DoneCallback) (f : BatchResource.Flow) : Prop :=
  match f with
  | BatchResource.Continue w' => done_log w' = log ++ finish
  | BatchResource.Return w' =>
      exists t,
        In t b
        /\ done_log w' = log ++ [BatchResource.done_callback t]
        /\ ok (status_of (ctx_status w') (ctx_id (BatchResource.context t)))
           = false
  end.

(** Where [SplitOutputTensors] puts output [i] of a task: entry
    [split_index][i] of the shared matrix for a partial task, output [i] of
    the context otherwise. *)
Definition delivered (t : BatchResource.BatchTask) (i : nat) (w : World)
  : option Tensor :=
  if BatchResource.is_partial t then
    match shared_output w !! BatchResource.output t with
    | Some m =>
        match m !! Z.to_nat (BatchResource.split_index t) with
        | Some tensor_vector => tensor_vector !! i
        | None => None
        end
    | None => None
    end
  else ctx_output w !! (ctx_id (BatchResource.context t), Z.of_nat i).

(** The place a task writes its outputs to: a row of a shared matrix, or a
    context. *)
Definition slot_of (t : BatchResource.BatchTask) : (nat * nat) + nat :=
  if BatchResource.is_partial t then
    inl (BatchResource.output t, Z.to_nat (BatchResource.split_index t))
  else inr (ctx_id (BatchResource.context t)).

Section UnbatchGradProperties.

Import UnbatchGradResource.

Variable TF_CALL_ALL_TYPES : DataType -> bool.

(** Every tensor that is recorded as desired names a batch that is still
    there and that misses this tensor. *)
Definition desired_by_waiting_batch (s : State) : Prop :=
  forall k kb,
    desired_tensor_to_batch_map_ s !! k = Some kb ->
    exists batch,
      available_batches_ s !! kb = Some batch /\ k ∈ missing_tensors batch.

(** The states of the resource: what calls of [Compute] lead to from the
    initial state. *)
Inductive grad_reachable : State -> Prop :=
| grad_reach_init : grad_reachable init
| grad_reach_Compute s ctx done_ w st s' w' :
    grad_reachable s ->
    Compute TF_CALL_ALL_TYPES ctx done_ s w = (st, s', w') ->
    grad_reachable s'.

End UnbatchGradProperties.

(** The shared matrix of a task in a world, and what
    [split_task_done_callback] concatenates for output [i] of it. *)
Definition task_matrix (input_task : BatchResource.BatchTask) (w : World)
  : TensorMatrix :=
  default [] (shared_output w !! BatchResource.output input_task).

Definition merged_output (TF_CALL_ALL_TYPES : DataType -> bool)
    (input_task : BatchResource.BatchTask) (m : TensorMatrix) (i : nat)
  : Status * Tensor :=
  TensorOps.Concat TF_CALL_ALL_TYPES (BatchResource.context input_task)
    (SplitCallback.column m i).

(** * Theorems *)

(** ** Machine integers *)

Lemma to_int_id (x : Z) : - 2 ^ 31 <= x <= INT_MAX -> to_int x = x.
Proof.
  unfold to_int, wrap_signed, INT_MAX. intros H.
  rewrite Z.mod_small; lia.
Qed.

Lemma to_int64_id (x : Z) : - 2 ^ 63 <= x <= INT64_MAX -> to_int64 x = x.
Proof.
  unfold to_int64, wrap_signed, INT64_MAX. intros H.
  rewrite Z.mod_small; lia.
Qed.

Lemma to_size_t_id (x : Z) : 0 <= x < 2 ^ 64 -> to_size_t x = x.
Proof. unfold to_size_t, wrap_unsigned. intros H. apply Z.mod_small; lia. Qed.

(** An [int] read from a multiple of [2 ^ 32] is zero. *)
Lemma to_int_multiple (m : Z) : to_int (2 ^ 32 * m) = 0.
Proof.
  unfold to_int, wrap_signed.
  replace (2 ^ 32 * m + 2 ^ (32 - 1)) with (2 ^ 31 + m * 2 ^ 32) by lia.
  rewrite Z_mod_plus_full, Z.mod_small; lia.
Qed.

(** Narrowing to [int] changes a value by a multiple of [2 ^ 32]. *)
Lemma to_int_congruent (x : Z) : exists q, to_int x = x + 2 ^ 32 * q.
Proof.
  unfold to_int, wrap_signed.
  exists (- ((x + 2 ^ (32 - 1)) / 2 ^ 32)).
  pose proof (Z.div_mod (x + 2 ^ (32 - 1)) (2 ^ 32)). lia.
Qed.

Lemma to_size_t_congruent (x : Z) : exists q, to_size_t x = x + 2 ^ 32 * q.
Proof.
  unfold to_size_t, wrap_unsigned.
  exists (- (2 ^ 32 * (x / 2 ^ 64))).
  pose proof (Z.div_mod x (2 ^ 64)). lia.
Qed.

(** ** RoundToLowestAllowedBatchSize *)

Section RoundToLowest.

Import BatchResource.

Lemma first_allowed_Some (sizes : list Z) (n a : Z) :
  first_allowed sizes n = Some a ->
  exists before after,
    sizes = before ++ a :: after /\ n <= a /\ Forall (fun x => x < n) before.
Proof.
  induction sizes as [|x sizes IH]; simpl; [discriminate|].
  destruct (Z.geb_spec x n) as [Hge|Hlt].
  - intros [= <-]. exists [], sizes. repeat split; [lia | constructor].
  - intros Hf. destruct (IH Hf) as (before & after & -> & Hn & Hall).
    exists (x :: before), after. repeat split; [lia | constructor; [lia | exact Hall]].
Qed.

Lemma first_allowed_None (sizes : list Z) (n : Z) :
  first_allowed sizes n = None <-> Forall (fun x => x < n) sizes.
Proof.
  induction sizes as [|x sizes IH]; simpl.
  - split; [constructor | reflexivity].
  - destruct (Z.geb_spec x n) as [Hge|Hlt].
    + split; [discriminate|]. intros H. inversion H; subst. lia.
    + rewrite IH. split; intros H.
      * constructor; [lia | exact H].
      * inversion H; assumption.
Qed.

(** The result is an entry at least [n], or [n] itself. *)
Lemma Round_cases (allowed : list Z) (n : Z) :
  (first_allowed allowed n = None /\ RoundToLowestAllowedBatchSize allowed n = n)
  \/ (exists a, first_allowed allowed n = Some a
                /\ RoundToLowestAllowedBatchSize allowed n = a).
Proof.
  unfold RoundToLowestAllowedBatchSize.
  destruct allowed as [|x l]; [left; split; reflexivity|].
  destruct (first_allowed (x :: l) n) as [a|] eqn:E; [right; eauto | left; auto].
Qed.

Lemma Sorted_le_app_inv (before after : list Z) (a : Z) :
  Sorted Z.le (before ++ a :: after) -> Forall (fun x => a <= x) after.
Proof.
  intros HS. apply Sorted_StronglySorted in HS; [|intros x y z; lia].
  induction before as [|b before IH]; simpl in HS.
  - apply StronglySorted_inv in HS. destruct HS as [_ H].
    eapply List.Forall_impl; [|exact H]. simpl. intros; lia.
  - apply StronglySorted_inv in HS. destruct HS as [HS _]. auto.
Qed.

Lemma Sorted_lt_le (l : list Z) : Sorted Z.lt l -> Sorted Z.le l.
Proof.
  induction 1 as [|x l HS IH Hd]; constructor; [assumption|].
  destruct Hd; constructor; lia.
Qed.

End RoundToLowest.

(** C3, as stated, fails: on the list [8; 4] and the batch size 3 the
    function answers 8, the first entry that is large enough, while the
    smallest such entry is 4. *)
Lemma Round_first_not_smallest :
  BatchResource.RoundToLowestAllowedBatchSize [8; 4] 3 = 8
  /\ ~ smallest_allowed_at_least [8; 4] 3
         (BatchResource.RoundToLowestAllowedBatchSize [8; 4] 3).
Proof.
  split; [reflexivity|].
  intros (_ & _ & Hmin). specialize (Hmin 4).
  change (BatchResource.RoundToLowestAllowedBatchSize [8; 4] 3) with 8 in Hmin.
  assert (8 <= 4); [apply Hmin; simpl; [tauto | lia] | lia].
Qed.

(** C3, amended: for every batch size [n] and every non-empty
    [allowed_batch_sizes] in increasing order (the order
    [ValidateAllowedBatchSizes] enforces), [RoundToLowestAllowedBatchSize n]
    is the smallest entry that is at least [n] when there is one, and [n]
    itself when [n] exceeds every entry. *)
Theorem Round_smallest_when_sorted (allowed : list Z) (n : Z) :
  allowed <> [] ->
  Sorted Z.le allowed ->
  ((exists a, In a allowed /\ n <= a) ->
   smallest_allowed_at_least allowed n
     (BatchResource.RoundToLowestAllowedBatchSize allowed n))
  /\ ((forall a, In a allowed -> a < n) ->
      BatchResource.RoundToLowestAllowedBatchSize allowed n = n).
Proof.
  intros _ HS. split.
  - intros (a & Ha & Hna).
    destruct (Round_cases allowed n) as [[HN _]|(r & HF & ->)].
    + apply first_allowed_None in HN.
      rewrite List.Forall_forall in HN. specialize (HN a Ha). lia.
    + destruct (first_allowed_Some _ _ _ HF) as (before & after & -> & Hr & Hb).
      split; [apply in_or_app; right; left; reflexivity|].
      split; [exact Hr|].
      intros x Hx Hnx. apply in_app_or in Hx. destruct Hx as [Hx|[->|Hx]].
      * rewrite List.Forall_forall in Hb. specialize (Hb x Hx). lia.
      * lia.
      * apply Sorted_le_app_inv in HS. rewrite List.Forall_forall in HS. auto.
  - intros Hall.
    destruct (Round_cases allowed n) as [[_ ->]|(r & HF & _)]; [reflexivity|].
    destruct (first_allowed_Some _ _ _ HF) as (before & after & -> & Hr & _).
    specialize (Hall r ltac:(apply in_or_app; right; left; reflexivity)). lia.
Qed.

Lemma Round_smallest_when_sorted_witness :
  smallest_allowed_at_least [2; 4; 8] 3
    (BatchResource.RoundToLowestAllowedBatchSize [2; 4; 8] 3)
  /\ BatchResource.RoundToLowestAllowedBatchSize [2; 4] 5 = 5.
Proof.
  split.
  - apply (Round_smallest_when_sorted [2; 4; 8] 3).
    + discriminate.
    + repeat constructor; lia.
    + exists 4. simpl. split; [tauto | lia].
  - apply (Round_smallest_when_sorted [2; 4] 5).
    + discriminate.
    + repeat constructor; lia.
    + simpl. intros a [<-|[<-|[]]]; lia.
Defined.

(** C8: on a strictly increasing [allowed_batch_sizes], a size that is an
    entry of the list is returned unchanged, and rounding twice is rounding
    once. *)
Theorem Round_idempotent (allowed : list Z) :
  Sorted Z.lt allowed ->
  (forall s, In s allowed ->
     BatchResource.RoundToLowestAllowedBatchSize allowed s = s)
  /\ (forall n,
        BatchResource.RoundToLowestAllowedBatchSize allowed
          (BatchResource.RoundToLowestAllowedBatchSize allowed n)
        = BatchResource.RoundToLowestAllowedBatchSize allowed n).
Proof.
  intros HS. apply Sorted_lt_le in HS.
  assert (Hfix : forall s, In s allowed ->
            BatchResource.RoundToLowestAllowedBatchSize allowed s = s).
  { intros s Hs.
    destruct (Round_cases allowed s) as [[_ ->]|(r & HF & ->)]; [reflexivity|].
    destruct (first_allowed_Some _ _ _ HF) as (before & after & E & Hr & Hb).
    subst allowed. apply in_app_or in Hs. destruct Hs as [Hs|[->|Hs]].
    - rewrite List.Forall_forall in Hb. specialize (Hb s Hs). lia.
    - reflexivity.
    - apply Sorted_le_app_inv in HS. rewrite List.Forall_forall in HS.
      specialize (HS s Hs). lia. }
  split; [exact Hfix|].
  intros n.
  destruct (Round_cases allowed n) as [[HN E]|(r & HF & E)].
  - rewrite E. exact E.
  - rewrite E. apply Hfix.
    destruct (first_allowed_Some _ _ _ HF) as (before & after & -> & _ & _).
    apply in_or_app; right; left; reflexivity.
Qed.

Lemma Round_idempotent_witness :
  BatchResource.RoundToLowestAllowedBatchSize [2; 4; 8] 4 = 4
  /\ BatchResource.RoundToLowestAllowedBatchSize [2; 4; 8]
       (BatchResource.RoundToLowestAllowedBatchSize [2; 4; 8] 3)
     = BatchResource.RoundToLowestAllowedBatchSize [2; 4; 8] 3.
Proof.
  assert (HS : Sorted Z.lt [2; 4; 8]) by (repeat constructor; lia).
  split.
  - apply (proj1 (Round_idempotent [2; 4; 8] HS)). simpl. tauto.
  - apply (proj2 (Round_idempotent [2; 4; 8] HS)).
Defined.

(** ** Concat and Split *)

Lemma to_int64_range (x : Z) : - 2 ^ 63 <= to_int64 x <= INT64_MAX.
Proof.
  unfold to_int64, wrap_signed, INT64_MAX.
  pose proof (Z.mod_pos_bound (x + 2 ^ (64 - 1)) (2 ^ 64)). lia.
Qed.

(** An [int64] sum of two [int64] values wraps at most once. *)
Lemma to_int64_cases (x : Z) :
  - 2 ^ 63 <= x < 2 ^ 64 + 2 ^ 63 ->
  (x <= INT64_MAX /\ to_int64 x = x)
  \/ (INT64_MAX < x /\ to_int64 x = x - 2 ^ 64).
Proof.
  intros H. destruct (Z.le_gt_cases x INT64_MAX) as [Hle|Hgt].
  - left. split; [exact Hle|]. apply to_int64_id. lia.
  - right. split; [exact Hgt|].
    unfold to_int64, wrap_signed, INT64_MAX in *.
    replace (x + 2 ^ (64 - 1)) with (x - 2 ^ 63 + 1 * 2 ^ 64) by lia.
    rewrite Z_mod_plus_full, Z.mod_small; lia.
Qed.

Lemma to_int64_add_l (a b : Z) : to_int64 (to_int64 a + b) = to_int64 (a + b).
Proof.
  unfold to_int64, wrap_signed. f_equal.
  replace ((a + 2 ^ (64 - 1)) mod 2 ^ 64 - 2 ^ (64 - 1) + b + 2 ^ (64 - 1))
    with ((a + 2 ^ (64 - 1)) mod 2 ^ 64 + b) by lia.
  rewrite Zplus_mod_idemp_l. f_equal. lia.
Qed.

Lemma sum_list_app (l k : list Z) : sum_list (l ++ k) = sum_list l + sum_list k.
Proof. induction l as [|x l IH]; simpl; lia. Qed.

Lemma sum_list_nonneg_of (l : list Z) :
  Forall (fun s => 0 <= s) l -> 0 <= sum_list l.
Proof. induction 1; simpl; lia. Qed.

(** [total_size] is the sum of the sizes read as an [int64]. *)
Lemma total_size_wrap (sizes : list Z) :
  TensorOps.total_size sizes = to_int64 (sum_list sizes).
Proof.
  unfold TensorOps.total_size.
  assert (H : forall acc,
            fold_left (fun total size => to_int64 (total + size)) sizes
              (to_int64 acc)
            = to_int64 (acc + sum_list sizes)).
  { induction sizes as [|s sizes IH]; intros acc; simpl.
    - rewrite Z.add_0_r. reflexivity.
    - rewrite to_int64_add_l, IH. f_equal. lia. }
  exact (H 0).
Qed.

Lemma int64_value_bounds (sizes : list Z) :
  Forall (fun s => 0 <= s) sizes ->
  Forall (fun s => s <= INT64_MAX) sizes ->
  Forall int64_value sizes.
Proof.
  intros H1 H2. apply List.Forall_forall. intros s Hs.
  rewrite List.Forall_forall in H1, H2. specialize (H1 s Hs).
  specialize (H2 s Hs). unfold int64_value. lia.
Qed.

Lemma int64_value_sum (sizes : list Z) :
  Forall (fun s => 0 <= s) sizes ->
  sum_list sizes <= INT64_MAX ->
  Forall int64_value sizes.
Proof.
  intros H. induction H as [|s sizes Hs Hall IH]; intros Hsum; constructor.
  - pose proof (sum_list_nonneg_of sizes Hall). simpl in Hsum.
    unfold int64_value. lia.
  - apply IH. simpl in Hsum. lia.
Qed.

Lemma dim0_rows (t : Tensor) : dim_size t 0 = Z.of_nat (length (tensor_rows t)).
Proof. destruct t; reflexivity. Qed.

Lemma sum_dim0_concat (l : list Tensor) :
  sum_list (map (fun x => dim_size x 0) l)
  = Z.of_nat (length (concat (map tensor_rows l))).
Proof.
  induction l as [|x l IH]; [reflexivity|].
  cbn [map concat]. rewrite length_app, Nat2Z.inj_add, <- IH, <- dim0_rows.
  reflexivity.
Qed.

Lemma same_row_shape_refl (t : Tensor) : same_row_shape t t.
Proof. split; auto. Qed.

Lemma Slice_shape (t : Tensor) (lo hi : Z) :
  dtype (Slice t lo hi) = dtype t
  /\ tensor_inner (Slice t lo hi) = tensor_inner t
  /\ dims (Slice t lo hi) = dims t
  /\ forall j, dim_size (Slice t lo hi) (S j) = dim_size t (S j).
Proof. destruct t; simpl; auto. Qed.

(** The slice of all rows is the tensor. *)
Lemma Slice_all (t : Tensor) : Slice t 0 (0 + dim_size t 0) = t.
Proof.
  destruct t as [dt v|dt inner rows]; [reflexivity|]. simpl.
  replace (0 + Z.of_nat (length rows) - 0) with (Z.of_nat (length rows)) by lia.
  rewrite Nat2Z.id. change (Z.to_nat 0) with 0%nat. rewrite drop_0, firstn_all.
  reflexivity.
Qed.

(** The dimension 0 of the slices is the size asked for, as long as the
    sizes fit in the rows that are left. *)
Lemma Split_slices_dim0 (t : Tensor) (sizes : list Z) (position : Z) :
  0 <= position ->
  Forall (fun s => 0 <= s) sizes ->
  position + sum_list sizes <= dim_size t 0 ->
  map (fun x => dim_size x 0) (TensorOps.Split_slices t position sizes) = sizes.
Proof.
  intros Hpos Hall. revert position Hpos.
  induction Hall as [|s sizes Hs Hall IH]; intros position Hpos Hfit;
    [reflexivity|].
  simpl in Hfit. pose proof (sum_list_nonneg_of sizes) as Hnn.
  cbn [TensorOps.Split_slices map]. rewrite IH; [|lia|].
  - f_equal. destruct t as [dt v|dt inner rows]; simpl in *.
    + assert (0 <= sum_list sizes) by (apply Hnn; exact Hall). lia.
    + assert (0 <= sum_list sizes) by (apply Hnn; exact Hall).
      rewrite length_take, length_drop. lia.
  - assert (0 <= sum_list sizes) by (apply Hnn; exact Hall). lia.
Qed.

Lemma Split_slices_rows (t : Tensor) (sizes : list Z) (position : Z) :
  0 <= position ->
  Forall (fun s => 0 <= s) sizes ->
  concat (map tensor_rows (TensorOps.Split_slices t position sizes))
  = take (Z.to_nat (sum_list sizes)) (drop (Z.to_nat position) (tensor_rows t)).
Proof.
  intros Hpos Hall. revert position Hpos.
  induction Hall as [|s sizes Hs Hall IH]; intros position Hpos; [reflexivity|].
  pose proof (sum_list_nonneg_of sizes Hall) as Hnn.
  cbn [TensorOps.Split_slices map concat].
  rewrite IH by lia.
  change (sum_list (s :: sizes)) with (s + sum_list sizes).
  rewrite (Z2Nat.inj_add s (sum_list sizes)) by lia.
  rewrite <- take_take_drop, drop_drop.
  rewrite (Z2Nat.inj_add position s) by lia. f_equal.
  destruct t as [dt v|dt inner rows]; cbn [Slice tensor_rows].
  - rewrite drop_nil, take_nil. reflexivity.
  - replace (position + s - position) with s by lia. reflexivity.
Qed.

Lemma Split_slices_shape (t : Tensor) (sizes : list Z) (position : Z) :
  Forall (fun p => dtype p = dtype t /\ tensor_inner p = tensor_inner t
                   /\ dims p = dims t
                   /\ forall j, dim_size p (S j) = dim_size t (S j))
    (TensorOps.Split_slices t position sizes).
Proof.
  revert position. induction sizes as [|s sizes IH]; intros position; simpl;
    constructor; [apply Slice_shape | apply IH].
Qed.

Section TensorOpsFacts.

Variable TF_CALL_ALL_TYPES : DataType -> bool.
Variable IsInnerDimsSizeAligned : Tensor -> bool.

(** *** Concat *)

Lemma Concat_check_ok (T : DataType) (first input : Tensor) :
  TensorOps.Concat_check T first input = OK
  <-> same_row_shape first input /\ typed_as T input.
Proof.
  unfold TensorOps.Concat_check, same_row_shape, typed_as, check_failed.
  destruct (Z.eqb_spec (dims input) (dims first)) as [Ed|Ed]; simpl.
  - destruct (forallb _ _) eqn:Ef; simpl.
    + assert (Hshape : forall j, (1 <= j < Z.to_nat (dims first))%nat ->
                dim_size input j = dim_size first j).
      { intros j Hj. rewrite forallb_forall in Ef.
        apply Z.eqb_eq, Ef, in_seq. lia. }
      destruct (Z.gtb_spec (NumElements input) 0) as [Hn|Hn]; simpl.
      * destruct (Nat.eqb_spec (dtype input) T) as [Et|Et]; simpl.
        -- split; [intros _; auto | reflexivity].
        -- split; [discriminate|]. intros [_ H]. exfalso. apply Et, H. lia.
      * split; [|reflexivity]. intros _. split; [auto|]. intros; lia.
    + split; [discriminate|]. intros [[_ H] _]. exfalso.
      assert (Hall : forallb (fun j => dim_size input j =? dim_size first j)
                       (seq 1 (Z.to_nat (dims first) - 1)) = true).
      { apply forallb_forall. intros j Hj. apply in_seq in Hj.
        apply Z.eqb_eq, H. lia. }
      congruence.
  - split; [discriminate|]. intros [[H _] _]. contradiction.
Qed.

(** The loop stops with InvalidArgument on a rank or a dimension that
    differs, and with a failed check only on an input with elements of
    another type. *)
Lemma Concat_check_code (T : DataType) (first input : Tensor) c m :
  TensorOps.Concat_check T first input = Error c m ->
  c = InvalidArgument \/ (c = Unknown /\ ~ typed_as T input).
Proof.
  unfold TensorOps.Concat_check, typed_as, check_failed.
  destruct (negb (dims input =? dims first)); [intros [= <- _]; auto|].
  destruct (negb (forallb _ _)); [intros [= <- _]; auto|].
  destruct (Z.gtb_spec (NumElements input) 0) as [Hn|Hn]; simpl;
    [|discriminate].
  destruct (Nat.eqb_spec (dtype input) T) as [Et|Et]; simpl; [discriminate|].
  intros [= <- _]. right. split; [reflexivity|]. intros H. apply Et, H. lia.
Qed.

Lemma Concat_loop_ok (T : DataType) (first : Tensor) (l : list Tensor) (d : Z) :
  fst (TensorOps.Concat_loop T first l d) = OK
  <-> Forall (fun x => same_row_shape first x /\ typed_as T x) l.
Proof.
  revert d. induction l as [|x l IH]; intros d; simpl.
  - split; [constructor | reflexivity].
  - destruct (TensorOps.Concat_check T first x) as [|c m] eqn:E.
    + rewrite IH. apply Concat_check_ok in E. split.
      * intros H. constructor; assumption.
      * intros H. inversion H; assumption.
    + simpl. split; [discriminate|]. intros H. inversion H as [|? ? Hx _]; subst.
      apply Concat_check_ok in Hx. congruence.
Qed.

Lemma Concat_loop_code (T : DataType) (first : Tensor) (l : list Tensor)
    (d d' : Z) c m :
  Forall (typed_as T) l ->
  TensorOps.Concat_loop T first l d = (Error c m, d') -> c = InvalidArgument.
Proof.
  intros Hall. revert d.
  induction Hall as [|x l Hx Hall IH]; simpl; intros d; [discriminate|].
  destruct (TensorOps.Concat_check T first x) as [|c' m'] eqn:E; [apply IH|].
  intros [= <- _ _]. destruct (Concat_check_code _ _ _ _ _ E) as [H|[_ H]];
    [exact H | contradiction].
Qed.

Lemma Concat_T_rows (T : DataType) (ctx : OpKernelContext) (l : list Tensor)
    (t : Tensor) :
  TensorOps.Concat_T T ctx l = (OK, t) ->
  tensor_rows t = concat (map tensor_rows l).
Proof.
  unfold TensorOps.Concat_T, check_failed.
  destruct l as [|x l]; [discriminate|].
  destruct (TensorOps.Concat_loop _ x (x :: l) 0) as [[|c m] d]; [|discriminate].
  destruct (dims x =? 0); [discriminate|].
  destruct (ctx_allocate ctx); [|discriminate].
  intros [= <-]. reflexivity.
Qed.

Lemma Concat_rows (ctx : OpKernelContext) (l : list Tensor) (t : Tensor) :
  TensorOps.Concat TF_CALL_ALL_TYPES ctx l = (OK, t) ->
  tensor_rows t = concat (map tensor_rows l).
Proof.
  unfold TensorOps.Concat, TensorOps.Concat_T, check_failed.
  destruct l as [|x l]; [discriminate|].
  destruct (TF_CALL_ALL_TYPES (dtype x)); [|discriminate].
  destruct (TensorOps.Concat_loop _ x (x :: l) 0) as [[|c m] d]; [|discriminate].
  destruct (dims x =? 0); [discriminate|].
  destruct (ctx_allocate ctx); [|discriminate].
  intros [= <-]. reflexivity.
Qed.

(** With a working allocator, inputs of one element type and a first input
    of rank at least one, every error of [Concat] is InvalidArgument. *)
Lemma Concat_code (ctx : OpKernelContext) (first : Tensor) (rest : list Tensor)
    (t : Tensor) c m :
  ctx_allocate ctx = OK ->
  0 < dims first ->
  Forall (typed_as (dtype first)) rest ->
  TensorOps.Concat TF_CALL_ALL_TYPES ctx (first :: rest) = (Error c m, t) ->
  c = InvalidArgument.
Proof.
  unfold TensorOps.Concat, TensorOps.Concat_T, check_failed.
  intros Halloc Hrank Htyped.
  destruct (TF_CALL_ALL_TYPES (dtype first)); [|intros [= <- _ _]; reflexivity].
  destruct (TensorOps.Concat_loop _ first (first :: rest) 0)
    as [[|c' m'] d] eqn:E.
  - destruct (Z.eqb_spec (dims first) 0); [lia|]. rewrite Halloc. discriminate.
  - intros [= <- _ _]. eapply Concat_loop_code; [|exact E].
    constructor; [intros _; reflexivity | exact Htyped].
Qed.

Lemma Concat_ok_intro (ctx : OpKernelContext) (first : Tensor)
    (rest : list Tensor) :
  TF_CALL_ALL_TYPES (dtype first) = true ->
  0 < dims first ->
  Forall (fun x => same_row_shape first x /\ typed_as (dtype first) x) rest ->
  ctx_allocate ctx = OK ->
  TensorOps.Concat TF_CALL_ALL_TYPES ctx (first :: rest)
  = (OK, Rows (dtype first) (tensor_inner first)
           (concat (map tensor_rows (first :: rest)))).
Proof.
  intros Ht Hrank Hall Ha. unfold TensorOps.Concat, TensorOps.Concat_T.
  rewrite Ht.
  assert (Hl : fst (TensorOps.Concat_loop (dtype first) first (first :: rest) 0)
               = OK).
  { apply Concat_loop_ok. constructor; [|exact Hall].
    split; [apply same_row_shape_refl | intros _; reflexivity]. }
  destruct (TensorOps.Concat_loop _ first (first :: rest) 0) as [st d].
  simpl in Hl. subst st.
  destruct (Z.eqb_spec (dims first) 0); [lia|]. rewrite Ha. reflexivity.
Qed.

Lemma Concat_ok_inv (ctx : OpKernelContext) (ts : list Tensor) (data : Tensor) :
  TensorOps.Concat TF_CALL_ALL_TYPES ctx ts = (OK, data) ->
  exists first rest,
    ts = first :: rest
    /\ TF_CALL_ALL_TYPES (dtype first) = true
    /\ ctx_allocate ctx = OK
    /\ 0 < dims first
    /\ Forall (fun x => same_row_shape first x /\ typed_as (dtype first) x) rest
    /\ data = Rows (dtype first) (tensor_inner first)
                (concat (map tensor_rows ts)).
Proof.
  unfold TensorOps.Concat, TensorOps.Concat_T, check_failed.
  destruct ts as [|first rest]; [discriminate|].
  destruct (TF_CALL_ALL_TYPES (dtype first)) eqn:Et; [|discriminate].
  pose proof (Concat_loop_ok (dtype first) first (first :: rest) 0) as Hloop.
  destruct (TensorOps.Concat_loop _ first (first :: rest) 0) as [[|c m] d];
    [|discriminate].
  destruct (Z.eqb_spec (dims first) 0) as [|Hrank]; [discriminate|].
  destruct (ctx_allocate ctx) eqn:Ea; [|discriminate].
  intros [= <-]. exists first, rest.
  assert (Hall : Forall (fun x => same_row_shape first x
                                  /\ typed_as (dtype first) x) (first :: rest))
    by (apply Hloop; reflexivity).
  inversion Hall; subst.
  assert (0 <= dims first) by (destruct first; simpl; lia).
  repeat split; auto; lia.
Qed.

(** *** Split *)

Lemma SplitEasyCases_loop_inv (input : Tensor) (sizes : list Z) :
  Forall int64_value sizes ->
  forall position pieces,
    - 2 ^ 63 <= position <= INT64_MAX ->
    TensorOps.SplitEasyCases_loop input position sizes = (OK, pieces) ->
    pieces = TensorOps.Split_slices input position sizes
    /\ Forall (fun s => 0 <= s) sizes
    /\ (sizes <> [] ->
        0 <= position
        /\ position + sum_list sizes <= dim_size input 0
        /\ 0 < dims input).
Proof.
  induction 1 as [|s sizes Hs Hall IH]; intros position pieces Hp;
    cbn [TensorOps.SplitEasyCases_loop TensorOps.Split_slices].
  - intros [= <-]. split; [reflexivity|]. split; [constructor | congruence].
  - unfold TensorOps.Slice_checks, check_failed.
    destruct (Z.leb_spec 1 (dims input)) as [Hd|]; [|discriminate].
    destruct (Z.leb_spec 0 position) as [H0|]; [|discriminate].
    destruct (Z.leb_spec position (to_int64 (position + s))) as [H1|];
      [|discriminate].
    destruct (Z.leb_spec (to_int64 (position + s)) (dim_size input 0)) as [H2|];
      [|discriminate].
    cbn [andb].
    assert (E : to_int64 (position + s) = position + s /\ 0 <= s).
    { unfold int64_value, INT64_MAX in *.
      destruct (to_int64_cases (position + s)) as [[_ E]|[_ E]];
        [lia | split; lia | lia]. }
    destruct E as [E Hs0].
    pose proof (to_int64_range (position + s)) as Hr. rewrite E in *.
    destruct (TensorOps.SplitEasyCases_loop input (position + s) sizes)
      as [[|c m] outputs] eqn:ER; [|discriminate].
    intros [= <-].
    destruct (IH (position + s) outputs Hr ER) as (-> & Hnn & Hrest).
    split; [reflexivity|]. split; [constructor; assumption|].
    intros _. split; [exact H0|]. split; [|lia].
    cbn [sum_list fold_right]. fold (sum_list sizes).
    destruct sizes as [|s' sizes']; [simpl; lia|].
    destruct Hrest as (_ & Hfit & _); [discriminate|]. lia.
Qed.

Lemma SplitEasyCases_loop_intro (input : Tensor) (sizes : list Z) :
  Forall (fun s => 0 <= s) sizes ->
  0 < dims input ->
  forall position,
    0 <= position ->
    position + sum_list sizes <= dim_size input 0 ->
    position + sum_list sizes <= INT64_MAX ->
    TensorOps.SplitEasyCases_loop input position sizes
    = (OK, TensorOps.Split_slices input position sizes).
Proof.
  intros Hall Hd. induction Hall as [|s sizes Hs Hall IH];
    intros position H0 Hfit Hmax;
    cbn [TensorOps.SplitEasyCases_loop TensorOps.Split_slices]; [reflexivity|].
  pose proof (sum_list_nonneg_of sizes Hall) as Hnn.
  cbn [sum_list fold_right] in Hfit, Hmax. fold (sum_list sizes) in Hfit, Hmax.
  rewrite to_int64_id by (unfold INT64_MAX in *; lia).
  unfold TensorOps.Slice_checks.
  destruct (Z.leb_spec 1 (dims input)); [|lia].
  destruct (Z.leb_spec 0 position); [|lia].
  destruct (Z.leb_spec position (position + s)); [|lia].
  destruct (Z.leb_spec (position + s) (dim_size input 0)); [|lia].
  cbn [andb]. rewrite IH by lia. reflexivity.
Qed.

Lemma SplitCPU_loop_inv (ctx : OpKernelContext) (input : Tensor)
    (sizes : list Z) :
  Forall int64_value sizes ->
  forall position pieces,
    - 2 ^ 63 <= position <= INT64_MAX ->
    TensorOps.SplitCPU_loop ctx input position sizes = (OK, pieces) ->
    pieces = TensorOps.Split_slices input position sizes
    /\ Forall (fun s => 0 <= s) sizes
    /\ (sizes <> [] ->
        0 <= position
        /\ position + sum_list sizes <= dim_size input 0
        /\ ctx_allocate ctx = OK).
Proof.
  induction 1 as [|s sizes Hs Hall IH]; intros position pieces Hp;
    cbn [TensorOps.SplitCPU_loop TensorOps.Split_slices].
  - intros [= <-]. split; [reflexivity|]. split; [constructor | congruence].
  - unfold check_failed.
    destruct (Z.ltb_spec s 0) as [|Hs0]; [discriminate|].
    destruct (ctx_allocate ctx) eqn:Ea; [|discriminate].
    destruct (Z.leb_spec 0 position) as [H0|]; [|discriminate].
    destruct (Z.leb_spec (position + s) (dim_size input 0)) as [H2|];
      [|discriminate].
    cbn [andb].
    destruct (TensorOps.SplitCPU_loop ctx input (to_int64 (position + s)) sizes)
      as [[|c m] outputs] eqn:ER; [|discriminate].
    intros [= <-].
    destruct (IH (to_int64 (position + s)) outputs
                (to_int64_range (position + s)) ER) as (-> & Hnn & Hrest).
    split; [|split; [constructor; assumption|]].
    + f_equal. destruct sizes as [|s' sizes']; [reflexivity|].
      destruct Hrest as (Hpos & _ & _); [discriminate|].
      f_equal. unfold int64_value, INT64_MAX in *.
      destruct (to_int64_cases (position + s)) as [[_ E]|[_ E]]; lia.
    + intros _. split; [exact H0|]. split; [|reflexivity].
      cbn [sum_list fold_right]. fold (sum_list sizes).
      destruct sizes as [|s' sizes']; [simpl; lia|].
      destruct Hrest as (Hpos & Hfit & _); [discriminate|].
      unfold int64_value, INT64_MAX in *.
      destruct (to_int64_cases (position + s)) as [[_ E]|[_ E]]; lia.
Qed.

Lemma SplitCPU_loop_intro (ctx : OpKernelContext) (input : Tensor)
    (sizes : list Z) :
  Forall (fun s => 0 <= s) sizes ->
  ctx_allocate ctx = OK ->
  forall position,
    0 <= position ->
    position + sum_list sizes <= dim_size input 0 ->
    position + sum_list sizes <= INT64_MAX ->
    TensorOps.SplitCPU_loop ctx input position sizes
    = (OK, TensorOps.Split_slices input position sizes).
Proof.
  intros Hall Ha. induction Hall as [|s sizes Hs Hall IH];
    intros position H0 Hfit Hmax;
    cbn [TensorOps.SplitCPU_loop TensorOps.Split_slices]; [reflexivity|].
  pose proof (sum_list_nonneg_of sizes Hall) as Hnn.
  cbn [sum_list fold_right] in Hfit, Hmax. fold (sum_list sizes) in Hfit, Hmax.
  rewrite to_int64_id by (unfold INT64_MAX in *; lia).
  destruct (Z.ltb_spec s 0); [lia|]. rewrite Ha.
  destruct (Z.leb_spec 0 position); [|lia].
  destruct (Z.leb_spec (position + s) (dim_size input 0)); [|lia].
  cbn [andb]. rewrite IH by lia. reflexivity.
Qed.

Lemma shaped_rows_check (t : Tensor) :
  (dim_size t 0 * product (tensor_inner t) =? NumElements t) = true
  <-> 0 < dims t.
Proof.
  destruct t as [dt v|dt inner rows]; simpl.
  - split; [discriminate | lia].
  - split; [lia|]. intros _. apply Z.eqb_eq. reflexivity.
Qed.

(** What a successful [Split] says of its arguments and its result. *)
Lemma Split_ok_inv (ctx : OpKernelContext) (t : Tensor) (sizes : list Z)
    (pieces : list Tensor) :
  Forall int64_value sizes ->
  TensorOps.Split TF_CALL_ALL_TYPES IsInnerDimsSizeAligned ctx t sizes
  = (OK, pieces) ->
  TF_CALL_ALL_TYPES (dtype t) = true
  /\ Forall (fun s => 0 <= s) sizes
  /\ sum_list sizes <= dim_size t 0
  /\ pieces = TensorOps.Split_slices t 0 sizes
  /\ (sizes = [dim_size t 0]
      \/ (sizes <> [dim_size t 0] /\ IsInnerDimsSizeAligned t = true
          /\ (sizes = [] \/ 0 < dims t))
      \/ (sizes <> [dim_size t 0] /\ IsInnerDimsSizeAligned t = false
          /\ 0 < dims t /\ (sizes = [] \/ ctx_allocate ctx = OK))).
Proof.
  intros Hty. unfold TensorOps.Split, TensorOps.Split_T, TensorOps.SplitEasyCases.
  destruct (TF_CALL_ALL_TYPES (dtype t)); [|discriminate].
  destruct (TensorOps.total_size sizes >? dim_size t 0); [discriminate|].
  assert (Hd0 : 0 <= dim_size t 0) by (rewrite dim0_rows; lia).
  destruct ((Z.of_nat (length sizes) =? 1) && (nth 0 sizes 0 =? dim_size t 0))
    eqn:E1.
  - apply andb_true_iff in E1. destruct E1 as [El En].
    apply Z.eqb_eq in El, En. intros [= <-].
    destruct sizes as [|s [|? ?]]; simpl in El; try lia.
    simpl in En. subst s. split; [reflexivity|].
    split; [repeat constructor; exact Hd0|].
    split; [simpl; lia|]. split; [|left; reflexivity].
    simpl. rewrite Slice_all. reflexivity.
  - assert (Hne : sizes <> [dim_size t 0]).
    { intros ->. simpl in E1. rewrite Z.eqb_refl in E1. discriminate. }
    destruct (IsInnerDimsSizeAligned t) eqn:Ea.
    + destruct (TensorOps.SplitEasyCases_loop t 0 sizes) as [[|c m] outputs] eqn:EL;
        [|discriminate].
      intros [= <-].
      destruct (SplitEasyCases_loop_inv t sizes Hty 0 outputs) as (-> & Hnn & H);
        [unfold INT64_MAX; lia | exact EL |].
      split; [reflexivity|]. split; [exact Hnn|].
      destruct sizes as [|s sizes'].
      * split; [simpl; lia|]. split; [reflexivity|]. right. left. auto.
      * destruct H as (_ & Hfit & Hrank); [discriminate|].
        split; [lia|]. split; [reflexivity|]. right. left. auto.
    + unfold TensorOps.SplitCPU, check_failed.
      destruct (dim_size t 0 * product (tensor_inner t) =? NumElements t) eqn:Es;
        cbn [negb]; [|discriminate].
      apply shaped_rows_check in Es.
      intros EL.
      destruct (SplitCPU_loop_inv ctx t sizes Hty 0 pieces) as (-> & Hnn & H);
        [unfold INT64_MAX; lia | exact EL |].
      split; [reflexivity|]. split; [exact Hnn|].
      destruct sizes as [|s sizes'].
      * split; [simpl; lia|]. split; [reflexivity|]. right. right. auto.
      * destruct H as (_ & Hfit & Hal); [discriminate|].
        split; [lia|]. split; [reflexivity|]. right. right. auto.
Qed.

(** [Split] succeeds on a tensor of rank at least one, of a supported type,
    for sizes that are not negative and fit in its rows. *)
Lemma Split_ok_intro (ctx : OpKernelContext) (t : Tensor) (sizes : list Z) :
  TF_CALL_ALL_TYPES (dtype t) = true ->
  0 < dims t ->
  Forall (fun s => 0 <= s) sizes ->
  sum_list sizes <= dim_size t 0 ->
  sum_list sizes <= INT64_MAX ->
  IsInnerDimsSizeAligned t = true \/ sizes = [] \/ ctx_allocate ctx = OK ->
  TensorOps.Split TF_CALL_ALL_TYPES IsInnerDimsSizeAligned ctx t sizes
  = (OK, TensorOps.Split_slices t 0 sizes).
Proof.
  intros Ht Hrank Hnn Hsum Hmax Ha.
  pose proof (sum_list_nonneg_of sizes Hnn) as H0.
  unfold TensorOps.Split, TensorOps.Split_T, TensorOps.SplitEasyCases.
  rewrite Ht, total_size_wrap, to_int64_id by (unfold INT64_MAX in *; lia).
  destruct (Z.gtb_spec (sum_list sizes) (dim_size t 0)) as [|_]; [lia|].
  destruct ((Z.of_nat (length sizes) =? 1) && (nth 0 sizes 0 =? dim_size t 0))
    eqn:E1.
  - apply andb_true_iff in E1. destruct E1 as [El En].
    apply Z.eqb_eq in El, En.
    destruct sizes as [|s [|? ?]]; simpl in El; try lia.
    simpl in En. subst s. simpl. rewrite Slice_all. reflexivity.
  - destruct (IsInnerDimsSizeAligned t) eqn:Ea.
    + rewrite SplitEasyCases_loop_intro by (auto; lia). reflexivity.
    + unfold TensorOps.SplitCPU.
      rewrite (proj2 (shaped_rows_check t) Hrank). cbn [negb].
      destruct Ha as [Ha|[->|Ha]]; [discriminate | reflexivity |].
      apply SplitCPU_loop_intro; auto; lia.
Qed.

Lemma Split_dim0 (ctx : OpKernelContext) (t : Tensor) (sizes : list Z)
    (split_tensors : list Tensor) :
  Forall int64_value sizes ->
  TensorOps.Split TF_CALL_ALL_TYPES IsInnerDimsSizeAligned ctx t sizes
  = (OK, split_tensors) ->
  map (fun x => dim_size x 0) split_tensors = sizes.
Proof.
  intros Hty H. destruct (Split_ok_inv _ _ _ _ Hty H) as (_ & Hnn & Hsum & -> & _).
  apply Split_slices_dim0; [lia | exact Hnn | lia].
Qed.

(** The pieces of a successful [Split], in order, are the first rows of the
    input. *)
Lemma Split_rows_take (ctx : OpKernelContext) (t : Tensor) (sizes : list Z)
    (pieces : list Tensor) :
  Forall int64_value sizes ->
  TensorOps.Split TF_CALL_ALL_TYPES IsInnerDimsSizeAligned ctx t sizes
  = (OK, pieces) ->
  concat (map tensor_rows pieces)
  = take (Z.to_nat (sum_list sizes)) (tensor_rows t).
Proof.
  intros Hty H. destruct (Split_ok_inv _ _ _ _ Hty H) as (_ & Hnn & Hsum & -> & _).
  rewrite Split_slices_rows by (auto; lia). rewrite drop_0. reflexivity.
Qed.

Lemma SplitEasyCases_loop_shape (t : Tensor) (sizes : list Z) :
  forall position pieces,
    TensorOps.SplitEasyCases_loop t position sizes = (OK, pieces) ->
    Forall (fun p => dtype p = dtype t /\ tensor_inner p = tensor_inner t
                     /\ dims p = dims t
                     /\ forall j, dim_size p (S j) = dim_size t (S j)) pieces.
Proof.
  induction sizes as [|s sizes IH]; intros position pieces;
    cbn [TensorOps.SplitEasyCases_loop].
  - intros [= <-]. constructor.
  - destruct (TensorOps.Slice_checks _ _ _); [|discriminate].
    destruct (TensorOps.SplitEasyCases_loop t _ sizes) as [[|c m] outputs] eqn:E;
      [|discriminate].
    intros [= <-]. constructor; [apply Slice_shape | eapply IH; exact E].
Qed.

Lemma SplitCPU_loop_shape (ctx : OpKernelContext) (t : Tensor) (sizes : list Z) :
  forall position pieces,
    TensorOps.SplitCPU_loop ctx t position sizes = (OK, pieces) ->
    Forall (fun p => dtype p = dtype t /\ tensor_inner p = tensor_inner t
                     /\ dims p = dims t
                     /\ forall j, dim_size p (S j) = dim_size t (S j)) pieces.
Proof.
  induction sizes as [|s sizes IH]; intros position pieces;
    cbn [TensorOps.SplitCPU_loop].
  - intros [= <-]. constructor.
  - destruct (s <? 0); [discriminate|].
    destruct (ctx_allocate ctx); [|discriminate].
    destruct (_ && _); [|discriminate].
    destruct (TensorOps.SplitCPU_loop ctx t _ sizes) as [[|c m] outputs] eqn:E;
      [|discriminate].
    intros [= <-]. constructor; [apply Slice_shape | eapply IH; exact E].
Qed.

(** Every piece [Split] hands out has the element type and the row shape of
    its input. *)
Lemma Split_pieces_shape (ctx : OpKernelContext) (t : Tensor) (sizes : list Z)
    (pieces : list Tensor) :
  TensorOps.Split TF_CALL_ALL_TYPES IsInnerDimsSizeAligned ctx t sizes
  = (OK, pieces) ->
  TF_CALL_ALL_TYPES (dtype t) = true
  /\ Forall (fun p => dtype p = dtype t /\ tensor_inner p = tensor_inner t
                      /\ dims p = dims t
                      /\ forall j, dim_size p (S j) = dim_size t (S j)) pieces.
Proof.
  unfold TensorOps.Split, TensorOps.Split_T, TensorOps.SplitEasyCases.
  destruct (TF_CALL_ALL_TYPES (dtype t)); [|discriminate].
  destruct (TensorOps.total_size sizes >? dim_size t 0); [discriminate|].
  destruct ((Z.of_nat (length sizes) =? 1) && _).
  - intros [= <-]. split; [reflexivity|]. repeat constructor.
  - destruct (IsInnerDimsSizeAligned t).
    + destruct (TensorOps.SplitEasyCases_loop t 0 sizes) as [[|c m] outputs] eqn:E;
        [|discriminate].
      intros [= <-]. split; [reflexivity|].
      eapply SplitEasyCases_loop_shape; exact E.
    + unfold TensorOps.SplitCPU. destruct (negb _); [discriminate|].
      intros E. split; [reflexivity|]. eapply SplitCPU_loop_shape; exact E.
Qed.

(** The errors of [Split]: InvalidArgument for a type that is not supported
    and for sizes whose [int64] sum exceeds dimension 0; every other error
    is a failed check of the tensor library or the error of the
    allocator. *)
Lemma Split_error (ctx : OpKernelContext) (t : Tensor) (sizes : list Z) c m
    (pieces : list Tensor) :
  TensorOps.Split TF_CALL_ALL_TYPES IsInnerDimsSizeAligned ctx t sizes
  = (Error c m, pieces) ->
  pieces = []
  /\ (c = InvalidArgument \/ c = Unknown \/ ctx_allocate ctx = Error c m).
Proof.
  unfold TensorOps.Split, TensorOps.Split_T, TensorOps.SplitEasyCases.
  destruct (TF_CALL_ALL_TYPES (dtype t)); [|intros [= <- _ <-]; auto].
  destruct (TensorOps.total_size sizes >? dim_size t 0);
    [intros [= <- _ <-]; auto|].
  destruct ((Z.of_nat (length sizes) =? 1) && _); [discriminate|].
  assert (HE : forall position st out,
            TensorOps.SplitEasyCases_loop t position sizes = (st, out) ->
            st = OK \/ (out = [] /\ exists m', st = Error Unknown m')).
  { induction sizes as [|s sizes IH]; intros position st out;
      cbn [TensorOps.SplitEasyCases_loop].
    - intros [= <- _]. auto.
    - destruct (TensorOps.Slice_checks _ _ _);
        [|intros [= <- <-]; right; unfold check_failed; eauto].
      destruct (TensorOps.SplitEasyCases_loop t _ sizes) as [st' out'] eqn:E.
      destruct (IH _ _ _ E) as [->|(_ & m' & ->)];
        [intros [= <- _]; auto | intros [= <- <-]; eauto]. }
  assert (HC : forall position st out,
            TensorOps.SplitCPU_loop ctx t position sizes = (st, out) ->
            st = OK
            \/ (out = [] /\ ((exists m', st = Error Unknown m')
                             \/ ctx_allocate ctx = st))).
  { clear HE. induction sizes as [|s sizes IH]; intros position st out;
      cbn [TensorOps.SplitCPU_loop].
    - intros [= <- _]. auto.
    - destruct (s <? 0); [intros [= <- <-]; right; unfold check_failed; eauto|].
      destruct (ctx_allocate ctx) as [|c' m'] eqn:Ea; [|intros [= <- <-]; auto].
      destruct (_ && _); [|intros [= <- <-]; right; unfold check_failed; eauto].
      destruct (TensorOps.SplitCPU_loop ctx t _ sizes) as [st' out'] eqn:E.
      destruct (IH _ _ _ E) as [->|(_ & H)];
        [intros [= <- _]; auto | ].
      destruct H as [(m'' & ->)|<-]; intros [= <- <-]; eauto. }
  destruct (IsInnerDimsSizeAligned t).
  - destruct (TensorOps.SplitEasyCases_loop t 0 sizes) as [st out] eqn:E.
    destruct (HE _ _ _ E) as [->|(_ & m' & ->)]; [discriminate|].
    intros [= <- _ <-]. auto.
  - unfold TensorOps.SplitCPU.
    destruct (negb _); [unfold check_failed; intros [= <- _ <-]; auto|].
    intros E. destruct (HC _ _ _ E) as [H|(-> & [(m' & H)|H])];
      [discriminate | injection H as <- _; auto | auto].
Qed.

End TensorOpsFacts.

(** ** ConcatInputTensors: padding *)

Section ConcatInput.

Import BatchResource.

Variable TF_CALL_ALL_TYPES : DataType -> bool.
Variable allowed : list Z.

Lemma size_nonneg (t : BatchTask) : 0 <= size t.
Proof.
  unfold size. destruct (nth 0 (inputs t) (Scalar 0%nat 0)); simpl; lia.
Qed.

Lemma sum_sizes_nonneg (b : Batch) : 0 <= sum_list (map size b).
Proof.
  induction b as [|t b IH]; simpl; [lia|]. pose proof (size_nonneg t). lia.
Qed.

(** Without allowed sizes the padding is zero whatever the batch size, also
    when it does not fit an [int]: the narrowing drops a multiple of
    [2 ^ 32], which the difference keeps and the second narrowing drops. *)
Lemma padding_amount_nil (b : Batch) : padding_amount [] b = 0.
Proof.
  unfold padding_amount, padded_batch_size, RoundToLowestAllowedBatchSize.
  destruct (to_int_congruent (batch_size b)) as [q ->].
  destruct (to_size_t_congruent (batch_size b + 2 ^ 32 * q - batch_size b))
    as [r ->].
  replace (batch_size b + 2 ^ 32 * q - batch_size b + 2 ^ 32 * r)
    with (2 ^ 32 * (q + r)) by lia.
  apply to_int_multiple.
Qed.

(** When the batch size and the allowed sizes are [int] values, the
    conversions change nothing: the padding is the difference between the
    padded size and the batch size. *)
Lemma padding_amount_exact (b : Batch) :
  sum_list (map size b) <= INT_MAX ->
  Forall (fun a => a <= INT_MAX) allowed ->
  batch_size b = sum_list (map size b)
  /\ batch_size b <= padded_batch_size allowed b
  /\ padding_amount allowed b = padded_batch_size allowed b - batch_size b.
Proof.
  intros Hs Ha. pose proof (sum_sizes_nonneg b) as H0.
  unfold INT_MAX in *.
  assert (E : batch_size b = sum_list (map size b)).
  { unfold batch_size. apply to_size_t_id. lia. }
  unfold padding_amount, padded_batch_size. rewrite E.
  rewrite (to_int_id (sum_list (map size b))) by (unfold INT_MAX; lia).
  assert (Hr : sum_list (map size b)
               <= RoundToLowestAllowedBatchSize allowed (sum_list (map size b))
               <= 2 ^ 31 - 1).
  { destruct (Round_cases allowed (sum_list (map size b)))
      as [[_ ->]|(r & HF & ->)]; [lia|].
    destruct (first_allowed_Some _ _ _ HF) as (before & after & -> & Hr & _).
    rewrite List.Forall_forall in Ha.
    specialize (Ha r ltac:(apply in_or_app; right; left; reflexivity)).
    simpl in Ha. lia. }
  split; [reflexivity|]. split; [lia|].
  rewrite to_size_t_id by lia. apply to_int_id. unfold INT_MAX. lia.
Qed.

(** The padding tensor is the first row of its source. *)
Lemma padding_of_rows (src : Tensor) :
  dim_size src 0 <> 0 ->
  exists first rest,
    tensor_rows src = first :: rest /\ tensor_rows (padding_of src) = [first].
Proof.
  unfold padding_of. destruct src as [dt v|dt inner rows]; [simpl; lia|].
  destruct rows as [|first rest]; [simpl; lia|]. intros _.
  exists first, rest. split; [reflexivity|].
  destruct (Z.eqb_spec (dim_size (Rows dt inner (first :: rest)) 0) 1) as [E|E].
  - destruct rest; [reflexivity | simpl in E; lia].
  - reflexivity.
Qed.

Lemma concat_replicate_singleton (n : nat) (p : Tensor) (first : Row) :
  tensor_rows p = [first] ->
  concat (map tensor_rows (replicate n p)) = replicate n first.
Proof.
  intros E. induction n as [|n IH]; simpl; [reflexivity|].
  rewrite E, IH. reflexivity.
Qed.

Lemma ConcatInputTensors_loop_ok (b : Batch) (ctx : OpKernelContext)
    (edges : list nat) (acc outs : list Tensor) :
  ConcatInputTensors_loop TF_CALL_ALL_TYPES allowed b ctx edges acc = (OK, outs) ->
  exists news,
    outs = acc ++ news
    /\ Forall2 (edge_concatenated b (padding_amount allowed b)) edges news.
Proof.
  revert acc. induction edges as [|i edges IH]; simpl; intros acc.
  - intros [= <-]. exists []. rewrite app_nil_r. split; [reflexivity | constructor].
  - destruct (edge_inputs b i) as [l|] eqn:El; [|discriminate].
    destruct (Z.gtb_spec (padding_amount allowed b) 0) as [Hp|Hp]; simpl.
    + destruct (Z.eqb_spec (dim_size (nth i (inputs (task b 0)) (Scalar 0%nat 0)) 0) 0)
        as [E0|E0]; [discriminate|].
      destruct (TensorOps.Concat _ _ _) as [[|c m] t] eqn:EC; [|discriminate].
      intros H. destruct (IH _ H) as (news & -> & HF).
      exists (t :: news). rewrite <- app_assoc. split; [reflexivity|].
      constructor; [|exact HF].
      exists l. split; [exact El|].
      destruct (Z.gtb_spec (padding_amount allowed b) 0) as [_|]; [|lia].
      destruct (padding_of_rows _ E0) as (first & rest & Esrc & Epad).
      exists first, rest. split; [exact Esrc|].
      rewrite (Concat_rows _ _ _ _ EC), map_app, concat_app.
      rewrite (concat_replicate_singleton _ _ _ Epad). reflexivity.
    + destruct (TensorOps.Concat _ _ _) as [[|c m] t] eqn:EC; [|discriminate].
      intros H. destruct (IH _ H) as (news & -> & HF).
      exists (t :: news). rewrite <- app_assoc. split; [reflexivity|].
      constructor; [|exact HF].
      exists l. split; [exact El|].
      destruct (Z.gtb_spec (padding_amount allowed b) 0) as [|_]; [lia|].
      apply (Concat_rows _ _ _ _ EC).
Qed.





End ConcatInput.

(** C9: when [allowed_batch_sizes_] is empty, rounding returns its argument,
    the padding computed by [ConcatInputTensors] and [SplitOutputTensors] is
    zero for every batch, the split vector has no padding entry, and every
    concatenated tensor holds the rows of the tasks and nothing more. *)
Theorem no_padding_without_allowed_sizes
    (TF_CALL_ALL_TYPES : DataType -> bool) (b : BatchResource.Batch)
    (ctx : OpKernelContext) :
  (forall n, BatchResource.RoundToLowestAllowedBatchSize [] n = n)
  /\ BatchResource.padding_amount [] b = 0
  /\ BatchResource.task_sizes_plus_optional_padding [] b
     = map BatchResource.size b
  /\ (forall outs,
        BatchResource.ConcatInputTensors TF_CALL_ALL_TYPES [] b ctx = (OK, outs) ->
        forall i t, outs !! i = Some t ->
          exists to_concatenate,
            BatchResource.edge_inputs b i = Some to_concatenate
            /\ tensor_rows t = concat (map tensor_rows to_concatenate)).
Proof.
  split; [reflexivity|]. split; [apply padding_amount_nil|].
  split.
  - unfold BatchResource.task_sizes_plus_optional_padding.
    rewrite padding_amount_nil. simpl. apply app_nil_r.
  - intros outs. unfold BatchResource.ConcatInputTensors.
    destruct (BatchResource.num_tasks b =? 0); [discriminate|].
    intros H. apply ConcatInputTensors_loop_ok in H.
    destruct H as (news & -> & HF). simpl. intros i t Hi.
    destruct (Forall2_lookup_r _ _ _ _ _ HF Hi) as (j & Hj & Hedge).
    apply lookup_seq in Hj. destruct Hj as [-> _]. simpl in Hedge.
    rewrite padding_amount_nil in Hedge.
    destruct Hedge as (l & El & Hrows). exists l. split; assumption.
Qed.




(** ** Validation of allowed_batch_sizes *)

Section Validate.

Import BatchFunctionKernel.

Variable allowed : list Z.
Variable max_batch_size : Z.
Variable enable : bool.

Lemma Sorted_lt_cons2 (x y : Z) (l : list Z) :
  Sorted Z.lt (x :: y :: l) <-> x < y /\ Sorted Z.lt (y :: l).
Proof.
  split.
  - intros H. inversion H as [|? ? HS Hd]; subst. inversion Hd; subst. auto.
  - intros [Hxy HS]. constructor; [exact HS | constructor; exact Hxy].
Qed.

(** The loop accepts the entries from index [i] on exactly when they
    increase strictly (from [last_size] on when [i > 0]) and, with splitting
    off, end in [max_batch_size]. *)
Lemma ValidateAllowedBatchSizes_loop_ok (sizes : list Z) (i : nat) (last_size : Z) :
  (i + length sizes = length allowed)%nat ->
  ValidateAllowedBatchSizes_loop allowed max_batch_size enable i sizes last_size = OK
  <-> Sorted Z.lt (if (0 <? i)%nat then last_size :: sizes else sizes)
      /\ (enable = false -> sizes <> [] -> List.last sizes 0 = max_batch_size).
Proof.
  revert i last_size. induction sizes as [|size rest IH]; intros i last_size Hlen.
  - simpl. split; [|reflexivity]. intros _.
    split; [destruct (0 <? i)%nat; repeat constructor | congruence].
  - cbn [ValidateAllowedBatchSizes_loop].
    assert (Hlast : (i =? length allowed - 1)%nat = true <-> rest = []).
    { rewrite Nat.eqb_eq. simpl in Hlen.
      destruct rest; simpl in *; split; intros; try congruence; lia. }
    assert (Hrec := IH (S i) size ltac:(simpl in *; lia)).
    change (0 <? S i)%nat with true in Hrec.
    destruct (0 <? i)%nat eqn:Ei; simpl.
    + destruct (Z.leb_spec size last_size) as [Hle|Hgt].
      * split; [discriminate|]. intros [HS _].
        apply Sorted_lt_cons2 in HS. lia.
      * destruct (negb enable && (i =? length allowed - 1)%nat
                  && negb (size =? max_batch_size)) eqn:E2.
        -- apply andb_true_iff in E2. destruct E2 as [E2 Hne].
           apply andb_true_iff in E2. destruct E2 as [Hen Hl].
           apply Hlast in Hl. subst rest.
           split; [discriminate|]. intros [_ HL].
           destruct enable; [discriminate|].
           specialize (HL eq_refl ltac:(discriminate)). simpl in HL.
           apply negb_true_iff, Z.eqb_neq in Hne. contradiction.
        -- rewrite Hrec, Sorted_lt_cons2.
           split; intros [HS HL].
           ++ split; [auto|]. intros He _. destruct rest as [|y rest'].
              ** simpl. rewrite He in E2. simpl in E2.
                 rewrite (proj2 Hlast eq_refl) in E2. simpl in E2.
                 apply negb_false_iff, Z.eqb_eq in E2. exact E2.
              ** apply (HL He). discriminate.
           ++ split; [tauto|]. intros He Hne. destruct rest as [|y rest']; [congruence|].
              apply (HL He). discriminate.
    + destruct (negb enable && (i =? length allowed - 1)%nat
                && negb (size =? max_batch_size)) eqn:E2.
      * apply andb_true_iff in E2. destruct E2 as [E2 Hne].
        apply andb_true_iff in E2. destruct E2 as [Hen Hl].
        apply Hlast in Hl. subst rest.
        split; [discriminate|]. intros [_ HL].
        destruct enable; [discriminate|].
        specialize (HL eq_refl ltac:(discriminate)). simpl in HL.
        apply negb_true_iff, Z.eqb_neq in Hne. contradiction.
      * rewrite Hrec.
        split; intros [HS HL].
        -- split; [auto|]. intros He _. destruct rest as [|y rest'].
           ++ simpl. rewrite He in E2. simpl in E2.
              rewrite (proj2 Hlast eq_refl) in E2. simpl in E2.
              apply negb_false_iff, Z.eqb_eq in E2. exact E2.
           ++ apply (HL He). discriminate.
        -- split; [tauto|]. intros He Hne. destruct rest as [|y rest']; [congruence|].
           apply (HL He). discriminate.
Qed.

Lemma ValidateAllowedBatchSizes_loop_code (sizes : list Z) (i : nat) (last_size : Z) :
  ValidateAllowedBatchSizes_loop allowed max_batch_size enable i sizes last_size = OK
  \/ code (ValidateAllowedBatchSizes_loop allowed max_batch_size enable i sizes last_size)
     = Some InvalidArgument.
Proof.
  revert i last_size. induction sizes as [|size rest IH]; intros i last_size;
    cbn [ValidateAllowedBatchSizes_loop]; [left; reflexivity|].
  destruct ((0 <? i)%nat && (size <=? last_size)); [right; reflexivity|].
  destruct (negb enable && _ && _); [right; reflexivity|]. apply IH.
Qed.

(** The lists [ValidateAllowedBatchSizes] accepts. *)
Lemma ValidateAllowedBatchSizes_ok :
  ValidateAllowedBatchSizes allowed max_batch_size enable = OK
  <-> allowed = []
      \/ (Sorted Z.lt allowed
          /\ (enable = false -> List.last allowed 0 = max_batch_size)).
Proof.
  unfold ValidateAllowedBatchSizes.
  destruct allowed as [|x l] eqn:E; [split; auto|]. rewrite <- E.
  rewrite (ValidateAllowedBatchSizes_loop_ok allowed 0 0 eq_refl).
  change (0 <? 0)%nat with false. cbn iota. subst allowed.
  split.
  - intros [HS HL]. right. split; [exact HS|]. intros He. apply HL; [exact He | discriminate].
  - intros [H|[HS HL]]; [discriminate|]. split; [exact HS|]. intros He _. exact (HL He).
Qed.

Lemma ValidateAllowedBatchSizes_code :
  ValidateAllowedBatchSizes allowed max_batch_size enable = OK
  \/ code (ValidateAllowedBatchSizes allowed max_batch_size enable)
     = Some InvalidArgument.
Proof.
  unfold ValidateAllowedBatchSizes.
  destruct allowed eqn:E; [left; reflexivity|]. rewrite <- E.
  apply ValidateAllowedBatchSizes_loop_code.
Qed.

End Validate.


(** ** SplitInputTask *)

Section SplitInput.

Import BatchResource.

Variable TF_CALL_ALL_TYPES : DataType -> bool.
Variable IsInnerDimsSizeAligned : Tensor -> bool.
Variable barrier_Inc : nat -> DoneCallback.

Lemma sum_list_replicate (q : nat) (x : Z) :
  sum_list (replicate q x) = Z.of_nat q * x.
Proof. induction q as [|q IH]; simpl replicate; simpl sum_list; lia. Qed.

(** With a positive [max_batch_size] the loop ends: [left_task_size]
    iterations are enough, and it produces full pieces followed by one last
    piece in (0, max_batch_size]. *)
Lemma SplitInputTask_loop_spec (max_batch_size : Z) (fuel : nat) :
  0 < max_batch_size <= INT_MAX ->
  forall left_task_size,
    0 < left_task_size <= INT_MAX ->
    left_task_size <= Z.of_nat fuel ->
    exists q last,
      SplitInputTask_loop fuel left_task_size max_batch_size
      = Some (replicate q max_batch_size ++ [last])
      /\ 0 < last <= max_batch_size
      /\ Z.of_nat q * max_batch_size + last = left_task_size.
Proof.
  intros Hmax. induction fuel as [|fuel IH]; intros left Hleft Hfuel; [lia|].
  cbn [SplitInputTask_loop].
  destruct (Z.gtb_spec left 0) as [_|]; [|lia].
  rewrite to_int_id by (unfold INT_MAX in *; lia).
  destruct (Z.le_gt_cases left max_batch_size) as [Hle|Hgt].
  - exists 0%nat, left. rewrite Z.min_l by lia.
    destruct fuel; cbn [SplitInputTask_loop];
      (destruct (Z.gtb_spec (left - max_batch_size) 0) as [|_]; [lia|]);
      simpl; repeat split; lia.
  - destruct (IH (left - max_batch_size)) as (q & last & E & Hlast & Hsum);
      [lia | lia |].
    exists (S q), last. rewrite E, Z.min_r by lia. simpl.
    repeat split; lia.
Qed.

Lemma lookup_map {A B} (f : A -> B) (l : list A) (i : nat) :
  map f l !! i = f <$> l !! i.
Proof. revert i. induction l as [|x l IH]; intros [|i]; simpl; auto. Qed.

Lemma sized_sizes (sizes : list Z) (tasks : list BatchTask) :
  sized sizes tasks -> map size tasks = sizes.
Proof.
  intros [Hlen H]. apply list_eq. intros j. rewrite lookup_map.
  destruct (tasks !! j) as [t|] eqn:E; simpl.
  - destruct (H j t E) as (x & rest & Ei & Es). rewrite Es.
    unfold size. rewrite Ei. reflexivity.
  - symmetry. apply lookup_ge_None. apply lookup_ge_None in E. lia.
Qed.

Lemma sized_push (sizes : list Z) (tasks : list BatchTask)
    (split_tensors : list Tensor) :
  sized sizes tasks ->
  sized sizes
    (imap (fun j t => match split_tensors !! j with
                      | Some x => push_input t x
                      | None => t
                      end) tasks).
Proof.
  intros [Hlen H]. split; [rewrite length_imap; exact Hlen|].
  intros j t'. rewrite list_lookup_imap.
  destruct (tasks !! j) as [t|] eqn:E; [|discriminate]. simpl. intros [= <-].
  destruct (H j t E) as (x & rest & Ei & Es).
  destruct (split_tensors !! j) as [y|]; [|eauto].
  exists x, (rest ++ [y]). simpl. rewrite Ei. auto.
Qed.

Lemma SplitInputTask_inputs_sized (input_task : BatchTask) (sizes : list Z)
    (tensors : list Tensor) (tasks out : list BatchTask) (st : Status) :
  sized sizes tasks ->
  SplitInputTask_inputs TF_CALL_ALL_TYPES IsInnerDimsSizeAligned input_task
    sizes tensors tasks = (st, out) ->
  sized sizes out.
Proof.
  revert tasks. induction tensors as [|x tensors IH]; simpl; intros tasks Hs.
  - intros [= _ <-]. exact Hs.
  - destruct (TensorOps.Split _ _ _ _ _) as [[|c m] split_tensors].
    + destruct (negb _); [intros [= _ <-]; exact Hs|].
      apply IH, sized_push, Hs.
    + intros [= _ <-]. exact Hs.
Qed.

Lemma SplitInputTask_inputs_first (input_task : BatchTask) (sizes : list Z)
    (tasks out : list BatchTask) :
  Forall int64_value sizes ->
  inputs input_task <> [] ->
  length tasks = length sizes ->
  Forall (fun t => inputs t = []) tasks ->
  SplitInputTask_inputs TF_CALL_ALL_TYPES IsInnerDimsSizeAligned input_task
    sizes (inputs input_task) tasks = (OK, out) ->
  sized sizes out.
Proof.
  intros Hall Hne Hlen Hempty.
  destruct (inputs input_task) as [|x tensors]; [congruence|]. simpl.
  destruct (TensorOps.Split _ _ _ _ _) as [[|c m] split_tensors] eqn:ES;
    [|discriminate].
  destruct (Nat.eqb_spec (length split_tensors) (length sizes)) as [El|];
    [simpl | discriminate].
  apply SplitInputTask_inputs_sized.
  pose proof (Split_dim0 _ _ _ _ _ _ Hall ES) as Hd.
  split; [rewrite length_imap; exact Hlen|].
  intros j t'. rewrite list_lookup_imap.
  destruct (tasks !! j) as [t|] eqn:E; [|discriminate]. simpl. intros [= <-].
  assert (Hj : (j < length split_tensors)%nat).
  { rewrite El, <- Hlen. eapply lookup_lt_Some; exact E. }
  destruct (lookup_lt_is_Some_2 _ _ Hj) as [y Ey]. rewrite Ey.
  exists y, []. split.
  - simpl. rewrite List.Forall_forall in Hempty.
    rewrite (Hempty t); [reflexivity|].
    apply list_elem_of_In. eapply list_elem_of_lookup_2; exact E.
  - rewrite <- Hd, lookup_map, Ey. reflexivity.
Qed.

Lemma Split_slices_length (t : Tensor) (sizes : list Z) (position : Z) :
  length (TensorOps.Split_slices t position sizes) = length sizes.
Proof.
  revert position. induction sizes as [|x sizes IH]; intros position; simpl;
    [reflexivity | rewrite IH; reflexivity].
Qed.

(** When every input tensor can be split, the last loop of [SplitInputTask]
    ends with OK. *)
Lemma SplitInputTask_inputs_splittable (input_task : BatchTask)
    (sizes : list Z) (tensors : list Tensor) :
  Forall (fun s => 0 <= s) sizes ->
  sum_list sizes <= INT64_MAX ->
  Forall (splittable TF_CALL_ALL_TYPES IsInnerDimsSizeAligned
            (context input_task) (sum_list sizes)) tensors ->
  forall tasks,
    exists out,
      SplitInputTask_inputs TF_CALL_ALL_TYPES IsInnerDimsSizeAligned input_task
        sizes tensors tasks = (OK, out).
Proof.
  intros Hnn Hmax. induction 1 as [|x tensors (Ht & Hrank & Hrows & Ha) _ IH];
    intros tasks; cbn [SplitInputTask_inputs]; [eauto|].
  rewrite (Split_ok_intro TF_CALL_ALL_TYPES IsInnerDimsSizeAligned
             (context input_task) x sizes Ht Hrank Hnn Hrows Hmax)
    by (destruct Ha; auto).
  rewrite Split_slices_length, Nat.eqb_refl. cbn [negb]. apply IH.
Qed.

End SplitInput.

(** C4, as stated, fails: the claim asks only that the task be larger than
    the open slot.  With an open slot of -1, a task of two rows and
    [max_batch_size = 2] the sizes are [2; 1]: they add up to three rows,
    [Split] refuses them, and [SplitInputTask] returns an Internal error. *)
Lemma SplitInputTask_negative_slot :
  BatchResource.size (Examples.task 11 1 false [[1; 2]; [3; 4]]) = 2
  /\ BatchResource.output_task_sizes 3
       (to_int64 (BatchResource.size (Examples.task 11 1 false [[1; 2]; [3; 4]])))
       (-1) 2
     = Some [2; 1]
  /\ sum_list [2; 1]
     <> BatchResource.size (Examples.task 11 1 false [[1; 2]; [3; 4]])
  /\ exists output_tasks w',
       BatchResource.SplitInputTask Examples.all_types Examples.aligned
         (fun i => i) 3 (Examples.task 11 1 false [[1; 2]; [3; 4]]) (-1) 2
         Examples.world
       = Some (Error Internal
                 "When splitting input, Tensor split operation failed: ",
               output_tasks, w').
Proof.
  split; [reflexivity|]. split; [reflexivity|]. split; [discriminate|].
  eexists _, _. vm_compute. reflexivity.
Qed.

(** C4, amended: for a task larger than the open slot, with a slot that is
    not negative, a positive [max_batch_size] (all of them [int] values) and
    input tensors that [Split] can cut, [SplitInputTask] returns OK; the
    sizes it computes are the open slot (left out when zero), then pieces of
    [max_batch_size], then a last piece in (0, max_batch_size]; they add up to
    the size of the task, and the output tasks have these sizes, in this
    order. *)
Theorem SplitInputTask_sizes
    (TF_CALL_ALL_TYPES : DataType -> bool)
    (IsInnerDimsSizeAligned : Tensor -> bool)
    (barrier_Inc : nat -> DoneCallback)
    (input_task : BatchResource.BatchTask)
    (open_batch_remaining_slot max_batch_size : Z) (w : World) :
  0 <= open_batch_remaining_slot ->
  open_batch_remaining_slot < BatchResource.size input_task ->
  BatchResource.size input_task <= INT_MAX ->
  0 < max_batch_size ->
  max_batch_size <= INT_MAX ->
  Forall (splittable TF_CALL_ALL_TYPES IsInnerDimsSizeAligned
            (BatchResource.context input_task) (BatchResource.size input_task))
    (BatchResource.inputs input_task) ->
  exists fuel q last output_tasks w',
    BatchResource.output_task_sizes fuel
      (to_int64 (BatchResource.size input_task))
      open_batch_remaining_slot max_batch_size
    = Some (split_sizes open_batch_remaining_slot max_batch_size q last)
    /\ 0 < last <= max_batch_size
    /\ sum_list (split_sizes open_batch_remaining_slot max_batch_size q last)
       = BatchResource.size input_task
    /\ BatchResource.SplitInputTask TF_CALL_ALL_TYPES IsInnerDimsSizeAligned
         barrier_Inc fuel input_task open_batch_remaining_slot max_batch_size w
       = Some (OK, output_tasks, w')
    /\ map BatchResource.size output_tasks
       = split_sizes open_batch_remaining_slot max_batch_size q last.
Proof.
  intros Hslot Hsize Hint Hmax Hmaxint Hsplit.
  set (n := BatchResource.size input_task) in *.
  set (slot := open_batch_remaining_slot) in *.
  assert (En : to_int64 n = n)
    by (apply to_int64_id; unfold INT_MAX, INT64_MAX in *; lia).
  assert (El : to_int (n - slot) = n - slot)
    by (apply to_int_id; unfold INT_MAX in *; lia).
  destruct (SplitInputTask_loop_spec max_batch_size (Z.to_nat (n - slot))
              (conj Hmax Hmaxint) (n - slot)) as (q & last & E & Hlast & Hsum);
    [lia | lia |].
  assert (Esizes : BatchResource.output_task_sizes (Z.to_nat (n - slot))
                     (to_int64 n) slot max_batch_size
                   = Some (split_sizes slot max_batch_size q last)).
  { unfold BatchResource.output_task_sizes. rewrite En, El, E. reflexivity. }
  assert (Hall : Forall (fun s => 0 <= s) (split_sizes slot max_batch_size q last)).
  { unfold split_sizes. apply Forall_app. split.
    - destruct (slot >? 0); repeat constructor; lia.
    - apply Forall_app. split; [|repeat constructor; lia].
      apply Forall_replicate. lia. }
  assert (Esum : sum_list (split_sizes slot max_batch_size q last) = n).
  { unfold split_sizes. rewrite !sum_list_app, sum_list_replicate.
    destruct (Z.gtb_spec slot 0); simpl; lia. }
  assert (Hlen : Z.of_nat (length (split_sizes slot max_batch_size q last))
                 <= INT_MAX).
  { unfold split_sizes. rewrite !length_app, length_replicate.
    destruct (Z.gtb_spec slot 0); simpl length; nia. }
  assert (H64 : sum_list (split_sizes slot max_batch_size q last) <= INT64_MAX)
    by (rewrite Esum; unfold INT_MAX, INT64_MAX in *; lia).
  rewrite <- Esum in Hsplit.
  destruct (SplitInputTask_inputs_splittable TF_CALL_ALL_TYPES
              IsInnerDimsSizeAligned input_task
              (split_sizes slot max_batch_size q last)
              (BatchResource.inputs input_task) Hall H64 Hsplit
              (BatchResource.SplitInputTask_tasks barrier_Inc input_task
                 (to_int (Z.of_nat (length (split_sizes slot max_batch_size q last))))))
    as [out EI].
  exists (Z.to_nat (n - slot)), q, last, out.
  eexists. split; [exact Esizes|]. split; [exact Hlast|]. split; [exact Esum|].
  split.
  { unfold BatchResource.SplitInputTask. fold n. rewrite Esizes, EI. reflexivity. }
  apply sized_sizes.
  eapply SplitInputTask_inputs_first;
    [apply int64_value_sum; [exact Hall | exact H64] | | | | exact EI].
  - intros Hnil. unfold n, BatchResource.size in Hsize.
    rewrite Hnil in Hsize. simpl in Hsize. lia.
  - unfold BatchResource.SplitInputTask_tasks.
    rewrite length_map, length_seq, to_int_id, Nat2Z.id;
      [reflexivity | unfold INT_MAX in *; lia].
  - unfold BatchResource.SplitInputTask_tasks.
    apply List.Forall_forall. intros t Ht. apply in_map_iff in Ht.
    destruct Ht as (i & <- & _). reflexivity.
Qed.

Lemma SplitInputTask_sizes_witness :
  exists fuel q last output_tasks w',
    BatchResource.output_task_sizes fuel
      (to_int64 (BatchResource.size
                   (Examples.task 11 1 false [[1; 2]; [3; 4]; [5; 6]; [7; 8]; [9; 0]])))
      1 2
    = Some (split_sizes 1 2 q last)
    /\ 0 < last <= 2
    /\ sum_list (split_sizes 1 2 q last)
       = BatchResource.size
           (Examples.task 11 1 false [[1; 2]; [3; 4]; [5; 6]; [7; 8]; [9; 0]])
    /\ BatchResource.SplitInputTask Examples.all_types Examples.aligned
         (fun i => i) fuel
         (Examples.task 11 1 false [[1; 2]; [3; 4]; [5; 6]; [7; 8]; [9; 0]])
         1 2 Examples.world
       = Some (OK, output_tasks, w')
    /\ map BatchResource.size output_tasks = split_sizes 1 2 q last.
Proof.
  apply (SplitInputTask_sizes Examples.all_types Examples.aligned (fun i => i)
           (Examples.task 11 1 false [[1; 2]; [3; 4]; [5; 6]; [7; 8]; [9; 0]])
           1 2 Examples.world).
  - lia.
  - vm_compute. reflexivity.
  - vm_compute. discriminate.
  - lia.
  - vm_compute. discriminate.
  - repeat constructor; vm_compute; discriminate.
Defined.

(** ** EmitIndexTensor *)

Section EmitIndex.

Import BatchResource.

Lemma index_write_row (pre post : list Row) (a b c g o e : Z) :
  index_write
    (index_write
       (index_write (pre ++ [a; b; c] :: post) (length pre) 0 g)
       (length pre) 1 o)
    (length pre) 2 e
  = pre ++ [g; o; e] :: post.
Proof.
  unfold index_write.
  replace (length pre) with (length pre + 0)%nat by lia.
  rewrite !alter_app_r. reflexivity.
Qed.

(** The loop fills the rows of its tasks and leaves the others alone. *)
Lemma EmitIndexTensor_loop_spec (tasks : list BatchTask) :
  forall (pre post : list Row) (offset : Z),
    0 <= offset ->
    offset + sum_list (map size tasks) <= INT64_MAX ->
    EmitIndexTensor_loop tasks (length pre) offset
      (pre ++ replicate (length tasks) [0; 0; 0] ++ post)
    = pre ++ index_rows offset tasks ++ post.
Proof.
  induction tasks as [|t tasks IH]; intros pre post offset H0 Hmax;
    [reflexivity|].
  pose proof (size_nonneg t) as Ht.
  pose proof (sum_sizes_nonneg tasks) as Hs.
  cbn [EmitIndexTensor_loop length replicate app index_rows].
  change (sum_list (map size (t :: tasks)))
    with (size t + sum_list (map size tasks)) in Hmax.
  unfold INT64_MAX in *.
  rewrite index_write_row.
  rewrite (to_int64_id offset) by (unfold INT64_MAX; lia).
  rewrite (to_size_t_id (offset + size t)) by lia.
  rewrite (to_int64_id (offset + size t)) by (unfold INT64_MAX; lia).
  replace (S (length pre))
    with (length (pre ++ [[guid t; offset; offset + size t]]))
    by (rewrite length_app; simpl; lia).
  change (pre ++ [guid t; offset; offset + size t]
            :: replicate (length tasks) [0; 0; 0] ++ post)
    with (pre ++ [[guid t; offset; offset + size t]]
            ++ replicate (length tasks) [0; 0; 0] ++ post).
  rewrite app_assoc, IH by lia. rewrite <- app_assoc. reflexivity.
Qed.

Lemma index_rows_lookup (tasks : list BatchTask) :
  forall (offset : Z) (i : nat) (t : BatchTask),
    tasks !! i = Some t ->
    index_rows offset tasks !! i
    = Some [guid t;
            offset + sum_list (map size (take i tasks));
            offset + sum_list (map size (take i tasks)) + size t].
Proof.
  induction tasks as [|x tasks IH]; intros offset i t H;
    [destruct i; discriminate|].
  destruct i as [|i].
  - injection H as ->.
    transitivity (Some [guid t; offset; offset + size t]); [reflexivity|].
    replace (sum_list (map size (take 0 (t :: tasks)))) with 0 by reflexivity.
    rewrite Z.add_0_r. reflexivity.
  - transitivity (index_rows (offset + size x) tasks !! i); [reflexivity|].
    rewrite (IH _ _ _ H).
    replace (sum_list (map size (take (S i) (x :: tasks))))
      with (size x + sum_list (map size (take i tasks))) by reflexivity.
    rewrite !Z.add_assoc. reflexivity.
Qed.

Lemma index_rows_length (tasks : list BatchTask) (offset : Z) :
  length (index_rows offset tasks) = length tasks.
Proof.
  revert offset. induction tasks as [|t tasks IH]; intros offset; simpl; auto.
Qed.

End EmitIndex.

(** C1: when the output can be allocated and the batch size is an [int64],
    [EmitIndexTensor] sets an index tensor of shape (num_tasks, 3) whose row
    [i] is the key of task [i], the sum of the sizes of the tasks before it,
    and that sum plus the size of task [i]. *)
Theorem EmitIndexTensor_rows (ctx : OpKernelContext)
    (b : BatchResource.Batch) (output_index : Z) (w : World) :
  ctx_allocate ctx = OK ->
  sum_list (map BatchResource.size b) <= INT64_MAX ->
  exists index,
    BatchResource.EmitIndexTensor ctx b output_index w
    = (OK, set_output ctx output_index index w)
    /\ dims index = 2
    /\ dim_size index 0 = BatchResource.num_tasks b
    /\ dim_size index 1 = 3
    /\ forall i t, b !! i = Some t ->
         tensor_rows index !! i
         = Some [BatchResource.guid t;
                 sum_list (map BatchResource.size (take i b));
                 sum_list (map BatchResource.size (take i b))
                 + BatchResource.size t].
Proof.
  intros Halloc Hsum. unfold BatchResource.EmitIndexTensor. rewrite Halloc.
  assert (E : tensor_rows (allocated BatchResource.DT_INT64
                             (BatchResource.num_tasks b) [3])
              = [] ++ replicate (length b) [0; 0; 0] ++ []).
  { unfold allocated, BatchResource.num_tasks. rewrite Nat2Z.id, app_nil_r.
    reflexivity. }
  rewrite E.
  change 0%nat with (length (@nil Row)) at 1.
  rewrite EmitIndexTensor_loop_spec by lia.
  rewrite app_nil_r. cbn [app].
  eexists. split; [reflexivity|]. split; [reflexivity|].
  split; [simpl; rewrite index_rows_length; reflexivity|].
  split; [reflexivity|].
  intros i t Hi. cbn [tensor_rows].
  rewrite (index_rows_lookup b 0 i t Hi), !Z.add_0_l. reflexivity.
Qed.

Lemma EmitIndexTensor_rows_witness :
  exists index,
    BatchResource.EmitIndexTensor (Examples.ctx 2) Examples.batch 1 Examples.world
    = (OK, set_output (Examples.ctx 2) 1 index Examples.world)
    /\ dims index = 2
    /\ dim_size index 0 = BatchResource.num_tasks Examples.batch
    /\ dim_size index 1 = 3
    /\ forall i t, Examples.batch !! i = Some t ->
         tensor_rows index !! i
         = Some [BatchResource.guid t;
                 sum_list (map BatchResource.size (take i Examples.batch));
                 sum_list (map BatchResource.size (take i Examples.batch))
                 + BatchResource.size t].
Proof.
  apply (EmitIndexTensor_rows (Examples.ctx 2) Examples.batch 1 Examples.world).
  - reflexivity.
  - vm_compute. discriminate.
Defined.

(** ** ProcessFuncBatch *)

Section ProcessFunc.

Import BatchResource.

Variable TF_CALL_ALL_TYPES : DataType -> bool.
Variable allowed : list Z.
Variable tensor_Split : Tensor -> list Z -> Status * list Tensor.
Variable flib_Run : list Tensor -> Status * list Tensor.

Lemma Status_Update_OK (old : Status) : Status_Update old OK = old.
Proof. destruct old; reflexivity. Qed.

Lemma Status_Update_twice (old s : Status) :
  Status_Update (Status_Update old s) s = Status_Update old s.
Proof. destruct old, s; reflexivity. Qed.

Lemma status_of_insert (m : gmap nat Status) (r r' : nat) (v : Status) :
  status_of (<[r := v]> m) r' = if decide (r = r') then v else status_of m r'.
Proof.
  unfold status_of. destruct (decide (r = r')) as [->|Hne].
  - rewrite lookup_insert_eq. reflexivity.
  - rewrite lookup_insert_ne by exact Hne. reflexivity.
Qed.

(** [cleanup_fn] calls the callback of every task, in order. *)
Lemma cleanup_done_log (s : Status) (b : Batch) (w : World) :
  done_log (foldl (cleanup_task s) w b) = done_log w ++ map done_callback b.
Proof.
  revert w. induction b as [|t b IH]; intros w; simpl; [symmetry; apply app_nil_r|].
  rewrite IH. unfold cleanup_task, ThreadSafeStatus_Update.
  destruct (is_partial t); [destruct (ok s)|]; simpl;
    rewrite <- app_assoc; reflexivity.
Qed.

(** The shared cell [r] after [cleanup_fn]: updated with [s] when a partial
    task of the batch refers to it, untouched otherwise. *)
Lemma cleanup_shared_status (s : Status) (b : Batch) (w : World) (r : nat) :
  status_of (shared_status (foldl (cleanup_task s) w b)) r
  = if existsb (fun t => is_partial t && (status t =? r)%nat) b
    then Status_Update (status_of (shared_status w) r) s
    else status_of (shared_status w) r.
Proof.
  revert w. induction b as [|t b IH]; intros w; [reflexivity|].
  cbn [foldl existsb]. rewrite IH.
  assert (E : status_of (shared_status (cleanup_task s w t)) r
              = if is_partial t && (status t =? r)%nat
                then Status_Update (status_of (shared_status w) r) s
                else status_of (shared_status w) r).
  { unfold cleanup_task, ThreadSafeStatus_Update.
    destruct (is_partial t); simpl; [|reflexivity].
    destruct (ok s) eqn:Es; simpl.
    - destruct s; [|discriminate]. rewrite Status_Update_OK.
      destruct (status t =? r)%nat; reflexivity.
    - rewrite status_of_insert.
      destruct (Nat.eqb_spec (status t) r) as [->|Hne];
        [rewrite decide_True by reflexivity | rewrite decide_False by exact Hne];
        reflexivity. }
  rewrite E.
  destruct (is_partial t && (status t =? r)%nat); simpl.
  - rewrite Status_Update_twice. destruct (existsb _ b); reflexivity.
  - reflexivity.
Qed.

(** The status of the context [c] after [cleanup_fn]. *)
Lemma cleanup_ctx_status (s : Status) (b : Batch) (w : World) (c : nat) :
  status_of (ctx_status (foldl (cleanup_task s) w b)) c
  = if existsb (fun t => negb (is_partial t) && (ctx_id (context t) =? c)%nat) b
    then Status_Update (status_of (ctx_status w) c) s
    else status_of (ctx_status w) c.
Proof.
  revert w. induction b as [|t b IH]; intros w; [reflexivity|].
  cbn [foldl existsb]. rewrite IH.
  assert (E : status_of (ctx_status (cleanup_task s w t)) c
              = if negb (is_partial t) && (ctx_id (context t) =? c)%nat
                then Status_Update (status_of (ctx_status w) c) s
                else status_of (ctx_status w) c).
  { unfold cleanup_task, ThreadSafeStatus_Update.
    destruct (is_partial t); simpl; [destruct (ok s); reflexivity|].
    rewrite status_of_insert.
    destruct (Nat.eqb_spec (ctx_id (context t)) c) as [->|Hne];
      [rewrite decide_True by reflexivity | rewrite decide_False by exact Hne];
      reflexivity. }
  rewrite E.
  destruct (negb (is_partial t) && (ctx_id (context t) =? c)%nat); simpl.
  - rewrite Status_Update_twice. destruct (existsb _ b); reflexivity.
  - reflexivity.
Qed.

Lemma same_statuses_refl (w : World) : same_statuses w w.
Proof. repeat split. Qed.

Lemma scatter_output_statuses (i : nat) (split_tensor : list Tensor)
    (b : Batch) (w : World) :
  same_statuses w (scatter_output i split_tensor b w).
Proof.
  unfold scatter_output. generalize (imap (fun j t => (j, t)) b). intros l.
  assert (H : forall w', same_statuses w w' ->
            same_statuses w
              (foldl (fun w0 jt =>
                        let x := nth (fst jt) split_tensor (Scalar 0%nat 0) in
                        if is_partial (snd jt)
                        then assign_shared_output (snd jt) i x w0
                        else set_output (context (snd jt)) (Z.of_nat i) x w0)
                 w' l)).
  { induction l as [|jt l IH]; intros w' Hw'; [exact Hw'|].
    cbn [foldl]. apply IH. destruct Hw' as (H1 & H2 & H3).
    destruct (is_partial (snd jt)); repeat split; assumption. }
  apply H, same_statuses_refl.
Qed.

(** [SplitOutputTensors] writes outputs only. *)
Lemma SplitOutputTensors_statuses (combined_outputs : list Tensor) (b : Batch)
    (w : World) :
  same_statuses w
    (snd (SplitOutputTensors allowed tensor_Split combined_outputs b w)).
Proof.
  unfold SplitOutputTensors.
  destruct (num_tasks b <? 1); [apply same_statuses_refl|].
  destruct (negb _); [apply same_statuses_refl|].
  generalize 0%nat. intros i.
  assert (H : forall w', same_statuses w w' ->
            same_statuses w
              (snd (SplitOutputTensors_loop allowed tensor_Split b i
                      combined_outputs w'))).
  { revert i. induction combined_outputs as [|x l IH]; intros i w' Hw';
      [exact Hw'|].
    cbn [SplitOutputTensors_loop].
    destruct (dims x =? 0); [exact Hw'|].
    destruct (negb _); [exact Hw'|].
    destruct (tensor_Split x _) as [[|c m] split_tensor]; [|exact Hw'].
    destruct (negb _); [exact Hw'|].
    apply IH. destruct Hw' as (H1 & H2 & H3).
    destruct (scatter_output_statuses i split_tensor b w') as (G1 & G2 & G3).
    repeat split; congruence. }
  apply H, same_statuses_refl.
Qed.

Lemma ProcessFuncBatch_exit (b : Batch) (w : World) :
  b <> [] ->
  exists s w',
    exit_path TF_CALL_ALL_TYPES allowed tensor_Split flib_Run b w s w'
    /\ same_statuses w w'
    /\ ProcessFuncBatch TF_CALL_ALL_TYPES allowed tensor_Split flib_Run b w
       = foldl (cleanup_task s) w' b.
Proof.
  intros Hb. unfold ProcessFuncBatch.
  destruct b as [|t0 b0] eqn:Eb; [congruence|]. rewrite <- Eb.
  replace (length b =? 0)%nat with false by (rewrite Eb; reflexivity).
  destruct (ValidateBatch b) as [|c m] eqn:EV; simpl.
  - destruct (ConcatInputTensors _ _ _ _) as [[|c m] concatenated] eqn:EC.
    + destruct (flib_Run _) as [[|c m] combined_outputs] eqn:ER; simpl.
      * destruct (SplitOutputTensors _ _ _ _ _) as [s w'] eqn:ES. simpl.
        exists s, w'. split; [eapply exit_split; eassumption|].
        split; [|reflexivity].
        pose proof (SplitOutputTensors_statuses combined_outputs b w) as H.
        rewrite ES in H. exact H.
      * exists (Error c m), w. split; [eapply exit_compute; eassumption|].
        split; [apply same_statuses_refl | reflexivity].
    + exists (Error c m), w. split; [eapply exit_concat; eassumption|].
      split; [apply same_statuses_refl | reflexivity].
  - exists (Error c m), w. split; [apply exit_validation; exact EV|].
    split; [apply same_statuses_refl | reflexivity].
Qed.

End ProcessFunc.

(** C2: on a non-empty batch, whichever way [ProcessFuncBatch] ends
    (validation failure, concat failure, error of the compute function,
    result of the output split), the callbacks called are those of the tasks,
    each once and in order, and the status of that exit is what every shared
    status cell of a partial task and every context of another task is
    updated with ([Status::Update]: an error is recorded unless an earlier
    error is already there). *)
Theorem ProcessFuncBatch_done_once
    (TF_CALL_ALL_TYPES : DataType -> bool) (allowed : list Z)
    (tensor_Split : Tensor -> list Z -> Status * list Tensor)
    (flib_Run : list Tensor -> Status * list Tensor)
    (b : BatchResource.Batch) (w : World) :
  b <> [] ->
  exists s w',
    exit_path TF_CALL_ALL_TYPES allowed tensor_Split flib_Run b w s w'
    /\ done_log (BatchResource.ProcessFuncBatch TF_CALL_ALL_TYPES allowed
                   tensor_Split flib_Run b w)
       = done_log w ++ map BatchResource.done_callback b
    /\ (forall t, In t b -> BatchResource.is_partial t = true ->
          status_of
            (shared_status (BatchResource.ProcessFuncBatch TF_CALL_ALL_TYPES
                              allowed tensor_Split flib_Run b w))
            (BatchResource.status t)
          = Status_Update (status_of (shared_status w) (BatchResource.status t)) s)
    /\ (forall t, In t b -> BatchResource.is_partial t = false ->
          status_of
            (ctx_status (BatchResource.ProcessFuncBatch TF_CALL_ALL_TYPES
                           allowed tensor_Split flib_Run b w))
            (ctx_id (BatchResource.context t))
          = Status_Update
              (status_of (ctx_status w) (ctx_id (BatchResource.context t))) s).
Proof.
  intros Hb.
  destruct (ProcessFuncBatch_exit TF_CALL_ALL_TYPES allowed tensor_Split
              flib_Run b w Hb) as (s & w' & Hexit & (Hc & Hs & Hd) & ->).
  exists s, w'. split; [exact Hexit|].
  split; [rewrite cleanup_done_log, Hd; reflexivity|].
  split.
  - intros t Ht Hp. rewrite cleanup_shared_status, Hs.
    replace (existsb _ b) with true; [reflexivity|].
    symmetry. apply existsb_exists. exists t. split; [exact Ht|].
    rewrite Hp, Nat.eqb_refl. reflexivity.
  - intros t Ht Hp. rewrite cleanup_ctx_status, Hc.
    replace (existsb _ b) with true; [reflexivity|].
    symmetry. apply existsb_exists. exists t. split; [exact Ht|].
    rewrite Hp, Nat.eqb_refl. reflexivity.
Qed.

Lemma ProcessFuncBatch_done_once_witness :
  exists s w',
    exit_path Examples.all_types [2; 4] Examples.no_split Examples.failing_run
      Examples.batch Examples.world s w'
    /\ done_log (BatchResource.ProcessFuncBatch Examples.all_types [2; 4]
                   Examples.no_split Examples.failing_run Examples.batch
                   Examples.world)
       = done_log Examples.world
           ++ map BatchResource.done_callback Examples.batch
    /\ (forall t, In t Examples.batch -> BatchResource.is_partial t = true ->
          status_of
            (shared_status (BatchResource.ProcessFuncBatch Examples.all_types
                              [2; 4] Examples.no_split Examples.failing_run
                              Examples.batch Examples.world))
            (BatchResource.status t)
          = Status_Update
              (status_of (shared_status Examples.world) (BatchResource.status t))
              s)
    /\ (forall t, In t Examples.batch -> BatchResource.is_partial t = false ->
          status_of
            (ctx_status (BatchResource.ProcessFuncBatch Examples.all_types
                           [2; 4] Examples.no_split Examples.failing_run
                           Examples.batch Examples.world))
            (ctx_id (BatchResource.context t))
          = Status_Update
              (status_of (ctx_status Examples.world)
                 (ctx_id (BatchResource.context t)))
              s).
Proof.
  apply (ProcessFuncBatch_done_once Examples.all_types [2; 4] Examples.no_split
           Examples.failing_run Examples.batch Examples.world).
  discriminate.
Defined.

(** ** UnbatchResource: the two maps *)

Section Unbatch.

Import UnbatchResource.

Variable TF_CALL_ALL_TYPES : DataType -> bool.
Variable IsInnerDimsSizeAligned : Tensor -> bool.
Variable timeout_micros_ : Z.













End Unbatch.



(** ** UnbatchGradResource: an empty index with data *)

(** C10: when [data] has elements and [batch_index] has none, [Compute]
    returns InvalidArgument and calls nothing; with a fresh batch key the
    error is the one about the empty index and the gradient of the caller
    stays recorded under its key in [available_tensors_]; with a key already
    there the error is the one about the repeated key and the state is
    unchanged. *)
Theorem UnbatchGrad_empty_index (TF_CALL_ALL_TYPES : DataType -> bool)
    (ctx : OpKernelContext) (done_ : DoneCallback)
    (s : UnbatchGradResource.State) (w : World) :
  NumElements (input ctx 0) > 0 ->
  NumElements (input ctx 1) = 0 ->
  exists msg s',
    UnbatchGradResource.Compute TF_CALL_ALL_TYPES ctx done_ s w
    = (Error InvalidArgument msg, s', w)
    /\ (UnbatchGradResource.available_tensors_ s !! scalar (input ctx 3) = None ->
        msg = "batch_index is empty while the tensor isn't."%string
        /\ s' = UnbatchGradResource.with_available_tensors s
                  (<[scalar (input ctx 3) := input ctx 2]>
                     (UnbatchGradResource.available_tensors_ s))
        /\ UnbatchGradResource.available_tensors_ s' !! scalar (input ctx 3)
           = Some (input ctx 2))
    /\ (is_Some (UnbatchGradResource.available_tensors_ s !! scalar (input ctx 3)) ->
        msg = "Two runs with the same batch key."%string /\ s' = s).
Proof.
  intros Hdata Hindex. unfold UnbatchGradResource.Compute.
  destruct (UnbatchGradResource.available_tensors_ s !! scalar (input ctx 3))
    as [x|] eqn:E.
  - eexists _, _. split; [reflexivity|]. split; [discriminate|]. auto.
  - destruct (Z.gtb_spec (NumElements (input ctx 0)) 0) as [_|]; [|lia].
    rewrite Hindex. cbn [Z.eqb].
    eexists _, _. split; [reflexivity|]. split.
    + intros _. split; [reflexivity|]. split; [reflexivity|].
      simpl. apply lookup_insert_eq.
    + intros [y Hy]. discriminate.
Qed.

Lemma UnbatchGrad_empty_index_witness :
  exists msg s',
    UnbatchGradResource.Compute Examples.all_types Examples.grad_ctx 5%nat
      UnbatchGradResource.init Examples.world
    = (Error InvalidArgument msg, s', Examples.world)
    /\ (UnbatchGradResource.available_tensors_ UnbatchGradResource.init
          !! scalar (input Examples.grad_ctx 3) = None ->
        msg = "batch_index is empty while the tensor isn't."%string
        /\ s' = UnbatchGradResource.with_available_tensors
                  UnbatchGradResource.init
                  (<[scalar (input Examples.grad_ctx 3) := input Examples.grad_ctx 2]>
                     (UnbatchGradResource.available_tensors_
                        UnbatchGradResource.init))
        /\ UnbatchGradResource.available_tensors_ s'
             !! scalar (input Examples.grad_ctx 3)
           = Some (input Examples.grad_ctx 2))
    /\ (is_Some (UnbatchGradResource.available_tensors_ UnbatchGradResource.init
                   !! scalar (input Examples.grad_ctx 3)) ->
        msg = "Two runs with the same batch key."%string
        /\ s' = UnbatchGradResource.init).
Proof.
  apply (UnbatchGrad_empty_index Examples.all_types Examples.grad_ctx 5%nat
           UnbatchGradResource.init Examples.world).
  - vm_compute. reflexivity.
  - vm_compute. reflexivity.
Defined.

(** ** Behaviour at the boundaries *)

(** With [max_batch_size = 0] the loop of [SplitInputTask] makes no
    progress: no number of iterations ends it. *)
Lemma SplitInputTask_loop_no_progress (fuel : nat) (left_task_size : Z) :
  0 < left_task_size <= INT_MAX ->
  BatchResource.SplitInputTask_loop fuel left_task_size 0 = None.
Proof.
  intros H. induction fuel as [|fuel IH]; cbn [BatchResource.SplitInputTask_loop];
    (destruct (Z.gtb_spec left_task_size 0); [|lia]); [reflexivity|].
  rewrite Z.sub_0_r, to_int_id by (unfold INT_MAX in *; lia).
  rewrite IH. reflexivity.
Qed.

(** With a negative open slot the sizes add up to more than the task. *)
Lemma output_task_sizes_negative_slot :
  BatchResource.output_task_sizes 5 1 (-1) 4 = Some [2].
Proof. reflexivity. Qed.

(** The fifth scenario of the specification: the caller of key 12 waits; the
    batched tensor arrives with the index rows of keys 11 and 12; both
    callers get their rows and both maps are empty. *)
Lemma unbatch_rendezvous_scenario :
  let '(s, w) := Examples.unbatch_waiting in
  let '(st, s', w') :=
    UnbatchResource.Compute Examples.all_types Examples.aligned 1000
      (Examples.unbatch_ctx 2 [[1; 2]; [3; 4]; [5; 6]] [[11; 0; 2]; [12; 2; 3]] 11)
      102%nat 5 s w in
  is_Some (UnbatchResource.waiting_callbacks_ s !! 12)
  /\ st = OK
  /\ map_to_list (UnbatchResource.waiting_tensors_ s') = []
  /\ map_to_list (UnbatchResource.waiting_callbacks_ s') = []
  /\ ctx_output w' !! (1%nat, 0) = Some (Rows 1%nat [2] [[5; 6]])
  /\ ctx_output w' !! (2%nat, 0) = Some (Rows 1%nat [2] [[1; 2]; [3; 4]])
  /\ done_log w' = [102%nat; 101%nat].
Proof. vm_compute. repeat split; eauto. Qed.

(** ** ProcessBatch: where the index tensor is emitted *)

Section ProcessBatchProofs.

Import BatchResource.

Variable TF_CALL_ALL_TYPES : DataType -> bool.
Variable allowed : list Z.

Lemma for_each_continue {A} (l : list A) (body : A -> World -> Flow) (w : World) :
  (forall x w0, In x l ->
     exists w1, body x w0 = Continue w1 /\ done_log w1 = done_log w0) ->
  exists w', for_each l body w = Continue w' /\ done_log w' = done_log w.
Proof.
  revert w. induction l as [|x l IH]; intros w H; simpl; [eauto|].
  destruct (H x w (or_introl eq_refl)) as (w1 & -> & E1). simpl.
  destruct (IH w1) as (w' & E & E'); [intros y w0 Hy; apply H; right; exact Hy|].
  exists w'. split; [exact E | congruence].
Qed.

Lemma allocate_output_continue (t : BatchTask) (i : Z) (x : Tensor) (w : World) :
  ctx_allocate (context t) = OK ->
  exists w1,
    (let '(st, w0) := allocate_output (context t) i x w in
     OP_REQUIRES_OK_ASYNC (context t) st (done_callback t) w0) = Continue w1
    /\ done_log w1 = done_log w.
Proof.
  intros H. unfold allocate_output. rewrite H. simpl. eauto.
Qed.

Lemma last_task_In (b : Batch) : b <> [] -> In (last_task b) b.
Proof.
  intros Hb. unfold last_task, task. apply nth_In.
  destruct b; [congruence | simpl; lia].
Qed.

Lemma but_last_In (b : Batch) (t : BatchTask) : In t (but_last b) -> In t b.
Proof.
  unfold but_last. intros H. apply list_elem_of_In in H.
  apply list_elem_of_In. eapply subseteq_take; exact H.
Qed.

(** On a batch that is valid, concatenates and whose contexts can allocate,
    [ProcessBatch] ends with [EmitIndexTensor] on the context of the last
    task, at the output after the input edges, and then calls the callback of
    every task. *)
Lemma ProcessBatch_success (b : Batch) (w : World) :
  b <> [] ->
  ValidateBatch b = OK ->
  fst (ConcatInputTensors TF_CALL_ALL_TYPES allowed b (context (last_task b))) = OK ->
  Forall (fun t => ctx_allocate (context t) = OK) b ->
  exists w',
    done_log w' = done_log w
    /\ fst (EmitIndexTensor (context (last_task b)) b
              (to_int (Z.of_nat (length (inputs (task b 0))))) w') = OK
    /\ ProcessBatch TF_CALL_ALL_TYPES allowed b w
       = foldl (fun w0 t => call_done (done_callback t) w0)
           (snd (EmitIndexTensor (context (last_task b)) b
                   (to_int (Z.of_nat (length (inputs (task b 0))))) w'))
           b.
Proof.
  intros Hb Hvalid Hconcat Halloc. rewrite List.Forall_forall in Halloc.
  unfold ProcessBatch.
  replace (length b =? 0)%nat with false
    by (destruct b; [congruence | reflexivity]).
  rewrite Hvalid. cbn [OP_REQUIRES_OK_ASYNC ok and_then].
  destruct (ConcatInputTensors _ _ _ _) as [concat_status concatenated_tensors].
  simpl in Hconcat. subst concat_status. cbn [OP_REQUIRES_OK_ASYNC ok and_then].
  match goal with
  | |- context [and_then (for_each ?l ?body w) _] =>
      destruct (for_each_continue l body w) as (w1 & -> & E1)
  end.
  { intros i w0 _.
    match goal with
    | |- exists _, for_each ?l ?body ?w0' = _ /\ _ =>
        destruct (for_each_continue l body w0') as (w1 & E & El)
    end.
    - intros t w2 Ht. apply allocate_output_continue, Halloc, but_last_In, Ht.
    - exists w1. split; [exact E | exact El]. }
  cbn [and_then].
  match goal with
  | |- context [and_then (for_each ?l ?body w1) _] =>
      destruct (for_each_continue l body w1) as (w2 & -> & E2)
  end.
  { intros t w0 Ht. apply allocate_output_continue, Halloc, but_last_In, Ht. }
  cbn [and_then].
  match goal with
  | |- context [and_then (for_each ?l ?body w2) _] =>
      destruct (for_each_continue l body w2) as (w3 & -> & E3)
  end.
  { intros t w0 Ht. apply allocate_output_continue, Halloc, Ht. }
  cbn [and_then].
  exists w3. split; [congruence|].
  unfold EmitIndexTensor. rewrite (Halloc _ (last_task_In b Hb)).
  split; reflexivity.
Qed.

End ProcessBatchProofs.

(** ** BatchKernel: the same validation *)

Lemma BatchKernel_loop_code (allowed sizes : list Z) (max_batch_size : Z)
    (i : nat) (last_size : Z) :
  code (BatchKernel.ValidateAllowedBatchSizes_loop allowed max_batch_size
          i sizes last_size)
  = code (BatchFunctionKernel.ValidateAllowedBatchSizes_loop allowed
            max_batch_size false i sizes last_size).
Proof.
  revert i last_size. induction sizes as [|size rest IH]; intros i last_size;
    [reflexivity|].
  cbn [BatchKernel.ValidateAllowedBatchSizes_loop
         BatchFunctionKernel.ValidateAllowedBatchSizes_loop negb andb].
  destruct ((0 <? i)%nat && (size <=? last_size)); [reflexivity|].
  destruct ((i =? length allowed - 1)%nat && negb (size =? max_batch_size));
    [reflexivity|].
  apply IH.
Qed.

(** [BatchKernel] validates as [BatchFunctionKernel] does with splitting off
    (the messages differ, the codes do not). *)
Lemma BatchKernel_ValidateAllowedBatchSizes_code (allowed : list Z)
    (max_batch_size : Z) :
  code (BatchKernel.ValidateAllowedBatchSizes allowed max_batch_size)
  = code (BatchFunctionKernel.ValidateAllowedBatchSizes allowed max_batch_size
            false).
Proof.
  unfold BatchKernel.ValidateAllowedBatchSizes,
    BatchFunctionKernel.ValidateAllowedBatchSizes.
  destruct allowed as [|x l]; [reflexivity|]. apply BatchKernel_loop_code.
Qed.

(** * Further properties of the code *)

(** ** Rounding never goes down *)

(** X1: whatever the list (ordered or not), the rounded size is at least the
    batch size, and it is an entry of the list or the batch size itself. *)
Theorem Round_never_below (allowed : list Z) (n : Z) :
  n <= BatchResource.RoundToLowestAllowedBatchSize allowed n
  /\ (In (BatchResource.RoundToLowestAllowedBatchSize allowed n) allowed
      \/ BatchResource.RoundToLowestAllowedBatchSize allowed n = n).
Proof.
  destruct (Round_cases allowed n) as [[_ ->]|(r & HF & ->)].
  - split; [lia | right; reflexivity].
  - destruct (first_allowed_Some _ _ _ HF) as (before & after & -> & Hr & _).
    split; [exact Hr|]. left. apply in_or_app. right. left. reflexivity.
Qed.

Lemma Sorted_le_last (l : list Z) (a : Z) :
  Sorted Z.le l -> In a l -> a <= List.last l 0.
Proof.
  intros HS. apply Sorted_StronglySorted in HS; [|intros x y z; lia].
  revert a. induction HS as [|x l HS IH Hall]; intros a Ha; [destruct Ha|].
  destruct l as [|y l'].
  - destruct Ha as [->|[]]. simpl. lia.
  - change (List.last (x :: y :: l') 0) with (List.last (y :: l') 0).
    destruct Ha as [->|Ha]; [|apply IH; exact Ha].
    rewrite List.Forall_forall in Hall.
    assert (Hy : a <= y) by (apply Hall; left; reflexivity).
    specialize (IH y (or_introl eq_refl)). lia.
Qed.

(** X2: after the validation of the kernel, a batch no larger than
    [max_execution_batch_size_] is rounded to an entry of the list, between
    the batch size and [max_execution_batch_size_]: the branch that ignores
    the allowed sizes is not taken. *)
Theorem Round_after_validation (allowed : list Z) (max_batch_size : Z)
    (enable : bool) (n : Z) :
  BatchFunctionKernel.ValidateAllowedBatchSizes allowed max_batch_size enable = OK ->
  allowed <> [] ->
  n <= BatchFunctionKernel.max_execution_batch_size_ allowed max_batch_size enable ->
  In (BatchResource.RoundToLowestAllowedBatchSize allowed n) allowed
  /\ n <= BatchResource.RoundToLowestAllowedBatchSize allowed n
     <= BatchFunctionKernel.max_execution_batch_size_ allowed max_batch_size enable.
Proof.
  intros Hv Hne Hn. apply ValidateAllowedBatchSizes_ok in Hv.
  destruct Hv as [->|[HS HL]]; [congruence|].
  assert (Emax : BatchFunctionKernel.max_execution_batch_size_ allowed
                   max_batch_size enable = List.last allowed 0).
  { unfold BatchFunctionKernel.max_execution_batch_size_.
    destruct enable; simpl.
    - destruct allowed; [congruence | reflexivity].
    - symmetry. apply HL. reflexivity. }
  rewrite Emax in *. apply Sorted_lt_le in HS.
  assert (Hlast : In (List.last allowed 0) allowed).
  { destruct allowed as [|x l] using rev_ind; [congruence|].
    rewrite List.last_last. apply in_or_app. right. left. reflexivity. }
  destruct (Round_cases allowed n) as [[HN _]|(r & HF & ->)].
  - apply first_allowed_None in HN. rewrite List.Forall_forall in HN.
    specialize (HN _ Hlast). simpl in HN. lia.
  - destruct (first_allowed_Some _ _ _ HF) as (before & after & E & Hr & _).
    assert (Hin : In r allowed)
      by (rewrite E; apply in_or_app; right; left; reflexivity).
    split; [exact Hin|]. split; [exact Hr|]. apply Sorted_le_last; assumption.
Qed.

Lemma Round_after_validation_witness :
  In (BatchResource.RoundToLowestAllowedBatchSize [2; 4] 3) [2; 4]
  /\ 3 <= BatchResource.RoundToLowestAllowedBatchSize [2; 4] 3
     <= BatchFunctionKernel.max_execution_batch_size_ [2; 4] 4 false.
Proof.
  apply (Round_after_validation [2; 4] 4 false 3).
  - reflexivity.
  - discriminate.
  - vm_compute. discriminate.
Defined.

(** ** The validation of BatchKernel *)

Lemma code_None (s : Status) : code s = None <-> s = OK.
Proof. destruct s; simpl; split; congruence. Qed.

(** X3: [BatchKernel::ValidateAllowedBatchSizes] accepts the empty list and
    the strictly increasing lists that end in [max_batch_size], nothing else,
    and every rejection is InvalidArgument. *)
Theorem BatchKernel_ValidateAllowedBatchSizes_spec (allowed : list Z)
    (max_batch_size : Z) :
  (BatchKernel.ValidateAllowedBatchSizes allowed max_batch_size = OK
   <-> allowed = []
       \/ (Sorted Z.lt allowed /\ List.last allowed 0 = max_batch_size))
  /\ (BatchKernel.ValidateAllowedBatchSizes allowed max_batch_size = OK
      \/ code (BatchKernel.ValidateAllowedBatchSizes allowed max_batch_size)
         = Some InvalidArgument).
Proof.
  pose proof (BatchKernel_ValidateAllowedBatchSizes_code allowed max_batch_size)
    as Ec.
  pose proof (ValidateAllowedBatchSizes_ok allowed max_batch_size false) as Hok.
  pose proof (ValidateAllowedBatchSizes_code allowed max_batch_size false) as Hc.
  split.
  - rewrite <- code_None, Ec, code_None, Hok.
    split; (intros [H|[HS HL]]; [left; exact H | right; split; auto]).
  - destruct Hc as [E|E].
    + left. apply code_None. rewrite Ec, E. reflexivity.
    + right. rewrite Ec. exact E.
Qed.

(** ** Concat and Split *)

Section ConcatSplit.

Variable TF_CALL_ALL_TYPES : DataType -> bool.
Variable IsInnerDimsSizeAligned : Tensor -> bool.

(** X4: [Concat] returns OK exactly when the element type of [inputs[0]] is
    supported, [inputs[0]] has rank at least one, every other input has the
    rank and the dimensions 1 and up of [inputs[0]] and, when it has
    elements, the element type of [inputs[0]], and the allocation succeeds.
    The result then has the element type and row shape of [inputs[0]], the
    rows of all inputs in order, and the sum of their dimensions 0 as its
    dimension 0.  A type that is not supported gives InvalidArgument; so does
    every failure when the allocator works, [inputs[0]] has rank at least
    one and the inputs with elements have its element type. *)
Theorem Concat_spec (ctx : OpKernelContext) (first : Tensor) (rest : list Tensor) :
  ((exists out, TensorOps.Concat TF_CALL_ALL_TYPES ctx (first :: rest) = (OK, out))
   <-> TF_CALL_ALL_TYPES (dtype first) = true
       /\ 0 < dims first
       /\ Forall (fun x => same_row_shape first x /\ typed_as (dtype first) x)
            rest
       /\ ctx_allocate ctx = OK)
  /\ (forall out,
        TensorOps.Concat TF_CALL_ALL_TYPES ctx (first :: rest) = (OK, out) ->
        dtype out = dtype first
        /\ tensor_inner out = tensor_inner first
        /\ tensor_rows out = concat (map tensor_rows (first :: rest))
        /\ dim_size out 0
           = sum_list (map (fun x => dim_size x 0) (first :: rest)))
  /\ (TF_CALL_ALL_TYPES (dtype first) = false ->
      TensorOps.Concat TF_CALL_ALL_TYPES ctx (first :: rest)
      = (Error InvalidArgument "Unsupported data type: ", Scalar 0%nat 0))
  /\ (ctx_allocate ctx = OK ->
      0 < dims first ->
      Forall (typed_as (dtype first)) rest ->
      forall c m out,
        TensorOps.Concat TF_CALL_ALL_TYPES ctx (first :: rest) = (Error c m, out) ->
        c = InvalidArgument).
Proof.
  split; [split|split; [|split]].
  - intros [out H].
    destruct (Concat_ok_inv _ _ _ _ H) as (f & r & E & Ht & Ha & Hrank & Hall & _).
    injection E as <- <-. auto.
  - intros (Ht & Hrank & Hall & Ha). eexists.
    apply Concat_ok_intro; assumption.
  - intros out H.
    destruct (Concat_ok_inv _ _ _ _ H) as (f & r & E & _ & _ & _ & _ & ->).
    injection E as <- <-. repeat split.
    cbn [dim_size]. rewrite sum_dim0_concat. reflexivity.
  - intros Ht. unfold TensorOps.Concat. rewrite Ht. reflexivity.
  - intros Ha Hrank Hty c m out H. eapply Concat_code; eassumption.
Qed.

(** X5: for [int64] sizes and a tensor of rank at least one, [Split] returns
    OK exactly when the element type is supported, no size is negative, the
    sizes add up to at most dimension 0, and the tensor is aligned or the
    allocation succeeds (or there is nothing to copy: one size that is the
    whole tensor, or no size at all).  It then returns one piece per size;
    piece [i] has the element type and the row shape of the input and
    [sizes[i]] rows, and the pieces in order are the first rows of the
    input.  A type that is not supported and sizes that add up to more than
    dimension 0 give InvalidArgument. *)
Theorem Split_spec (ctx : OpKernelContext) (t : Tensor) (sizes : list Z) :
  Forall int64_value sizes ->
  0 < dims t ->
  dim_size t 0 <= INT64_MAX ->
  ((exists pieces,
      TensorOps.Split TF_CALL_ALL_TYPES IsInnerDimsSizeAligned ctx t sizes
      = (OK, pieces))
   <-> TF_CALL_ALL_TYPES (dtype t) = true
       /\ Forall (fun s => 0 <= s) sizes
       /\ sum_list sizes <= dim_size t 0
       /\ (sizes = [dim_size t 0] \/ sizes = []
           \/ IsInnerDimsSizeAligned t = true \/ ctx_allocate ctx = OK))
  /\ (forall pieces,
        TensorOps.Split TF_CALL_ALL_TYPES IsInnerDimsSizeAligned ctx t sizes
        = (OK, pieces) ->
        Forall2 (fun p s => dtype p = dtype t
                            /\ tensor_inner p = tensor_inner t
                            /\ dim_size p 0 = s) pieces sizes
        /\ concat (map tensor_rows pieces)
           = take (Z.to_nat (sum_list sizes)) (tensor_rows t))
  /\ (TF_CALL_ALL_TYPES (dtype t) = false ->
      TensorOps.Split TF_CALL_ALL_TYPES IsInnerDimsSizeAligned ctx t sizes
      = (Error InvalidArgument "Unsupported data type: ", []))
  /\ (TF_CALL_ALL_TYPES (dtype t) = true ->
      int64_value (sum_list sizes) ->
      dim_size t 0 < sum_list sizes ->
      TensorOps.Split TF_CALL_ALL_TYPES IsInnerDimsSizeAligned ctx t sizes
      = (Error InvalidArgument
           "Sum of split sizes must not exceed dim0-size of input tensor", [])).
Proof.
  intros Hty Hrank Hd0. split; [split|split; [|split]].
  - intros [pieces H].
    destruct (Split_ok_inv _ _ _ _ _ _ Hty H) as (Ht & Hnn & Hsum & _ & Hcase).
    split; [exact Ht|]. split; [exact Hnn|]. split; [exact Hsum|].
    destruct Hcase as [E|[(_ & E & _)|(_ & _ & _ & [E|E])]]; auto.
  - intros (Ht & Hnn & Hsum & Hcase).
    destruct Hcase as [E|Hcase].
    + exists [t]. unfold TensorOps.Split, TensorOps.Split_T,
        TensorOps.SplitEasyCases.
      rewrite Ht, total_size_wrap, E. cbn [sum_list fold_right].
      rewrite Z.add_0_r, to_int64_id
        by (assert (0 <= dim_size t 0) by (rewrite dim0_rows; lia);
            unfold INT64_MAX in *; lia).
      destruct (Z.gtb_spec (dim_size t 0) (dim_size t 0)) as [|_]; [lia|].
      cbn [length nth]. rewrite (Z.eqb_refl (dim_size t 0)). reflexivity.
    + eexists. apply Split_ok_intro; try assumption; [lia|].
      destruct Hcase as [E|[E|E]]; auto.
  - intros pieces H.
    pose proof (Split_dim0 _ _ _ _ _ _ Hty H) as Hd.
    pose proof (Split_rows_take _ _ _ _ _ _ Hty H) as Hr.
    destruct (Split_pieces_shape _ _ _ _ _ _ H) as [_ Hshape].
    split; [|exact Hr]. clear -Hd Hshape.
    revert sizes Hd. induction Hshape as [|p pieces (E1 & E2 & _) _ IH];
      intros [|s sizes] Hd; try discriminate; constructor.
    + injection Hd as Hs _. auto.
    + apply IH. injection Hd as _ Hd. exact Hd.
  - intros Ht. unfold TensorOps.Split. rewrite Ht. reflexivity.
  - intros Ht Hs Hlt. unfold TensorOps.Split, TensorOps.Split_T,
      TensorOps.SplitEasyCases.
    rewrite Ht, total_size_wrap, to_int64_id by exact Hs.
    destruct (Z.gtb_spec (sum_list sizes) (dim_size t 0)) as [_|]; [|lia].
    reflexivity.
Qed.

End ConcatSplit.

Lemma Split_spec_witness :
  ((exists pieces,
      TensorOps.Split Examples.all_types Examples.aligned (Examples.ctx 1)
        (Rows 1%nat [2] [[1; 2]; [3; 4]; [5; 6]]) [1; 2]
      = (OK, pieces))
   <-> Examples.all_types (dtype (Rows 1%nat [2] [[1; 2]; [3; 4]; [5; 6]])) = true
       /\ Forall (fun s => 0 <= s) [1; 2]
       /\ sum_list [1; 2] <= dim_size (Rows 1%nat [2] [[1; 2]; [3; 4]; [5; 6]]) 0
       /\ ([1; 2] = [dim_size (Rows 1%nat [2] [[1; 2]; [3; 4]; [5; 6]]) 0]
           \/ [1; 2] = []
           \/ Examples.aligned (Rows 1%nat [2] [[1; 2]; [3; 4]; [5; 6]]) = true
           \/ ctx_allocate (Examples.ctx 1) = OK))
  /\ (forall pieces,
        TensorOps.Split Examples.all_types Examples.aligned (Examples.ctx 1)
          (Rows 1%nat [2] [[1; 2]; [3; 4]; [5; 6]]) [1; 2]
        = (OK, pieces) ->
        Forall2 (fun p s => dtype p = dtype (Rows 1%nat [2] [[1; 2]; [3; 4]; [5; 6]])
                            /\ tensor_inner p
                               = tensor_inner (Rows 1%nat [2] [[1; 2]; [3; 4]; [5; 6]])
                            /\ dim_size p 0 = s) pieces [1; 2]
        /\ concat (map tensor_rows pieces)
           = take (Z.to_nat (sum_list [1; 2]))
               (tensor_rows (Rows 1%nat [2] [[1; 2]; [3; 4]; [5; 6]])))
  /\ (Examples.all_types (dtype (Rows 1%nat [2] [[1; 2]; [3; 4]; [5; 6]])) = false ->
      TensorOps.Split Examples.all_types Examples.aligned (Examples.ctx 1)
        (Rows 1%nat [2] [[1; 2]; [3; 4]; [5; 6]]) [1; 2]
      = (Error InvalidArgument "Unsupported data type: ", []))
  /\ (Examples.all_types (dtype (Rows 1%nat [2] [[1; 2]; [3; 4]; [5; 6]])) = true ->
      int64_value (sum_list [1; 2]) ->
      dim_size (Rows 1%nat [2] [[1; 2]; [3; 4]; [5; 6]]) 0 < sum_list [1; 2] ->
      TensorOps.Split Examples.all_types Examples.aligned (Examples.ctx 1)
        (Rows 1%nat [2] [[1; 2]; [3; 4]; [5; 6]]) [1; 2]
      = (Error InvalidArgument
           "Sum of split sizes must not exceed dim0-size of input tensor", [])).
Proof.
  apply (Split_spec Examples.all_types Examples.aligned (Examples.ctx 1)
           (Rows 1%nat [2] [[1; 2]; [3; 4]; [5; 6]]) [1; 2]).
  - repeat constructor; vm_compute; discriminate.
  - reflexivity.
  - vm_compute. discriminate.
Defined.

Section RoundTrips.

Variable TF_CALL_ALL_TYPES : DataType -> bool.
Variable IsInnerDimsSizeAligned : Tensor -> bool.

(** X6: splitting a tensor of rank at least one by [int64] sizes that add up
    to its dimension 0 and concatenating the pieces gives back a tensor with
    the same element type, the same row shape and the same rows. *)
Theorem Split_then_Concat (ctx : OpKernelContext) (t : Tensor)
    (sizes : list Z) (pieces : list Tensor) :
  0 < dims t ->
  Forall (fun s => 0 <= s) sizes ->
  Forall (fun s => s <= INT64_MAX) sizes ->
  sum_list sizes = dim_size t 0 ->
  sizes <> [] ->
  ctx_allocate ctx = OK ->
  TensorOps.Split TF_CALL_ALL_TYPES IsInnerDimsSizeAligned ctx t sizes
  = (OK, pieces) ->
  exists out,
    TensorOps.Concat TF_CALL_ALL_TYPES ctx pieces = (OK, out)
    /\ dtype out = dtype t
    /\ tensor_inner out = tensor_inner t
    /\ tensor_rows out = tensor_rows t.
Proof.
  intros Hrank Hall Hmax Hsum Hne Halloc H.
  pose proof (int64_value_bounds sizes Hall Hmax) as Hty.
  destruct (Split_pieces_shape _ _ _ _ _ _ H) as [Ht Hshape].
  assert (Hrows : concat (map tensor_rows pieces) = tensor_rows t).
  { rewrite (Split_rows_take _ _ _ _ _ _ Hty H), Hsum, dim0_rows, Nat2Z.id.
    apply firstn_all. }
  assert (Hlen : length pieces = length sizes).
  { pose proof (Split_dim0 _ _ _ _ _ _ Hty H) as Hd.
    apply (f_equal (@length Z)) in Hd. rewrite length_map in Hd. exact Hd. }
  destruct pieces as [|p pieces]; [destruct sizes; [congruence | discriminate]|].
  inversion Hshape as [|? ? (Ep1 & Ep2 & Ep3 & Ep4) Hrest]; subst.
  eexists. split.
  - apply Concat_ok_intro; [rewrite Ep1; exact Ht | lia | | exact Halloc].
    eapply List.Forall_impl; [|exact Hrest].
    intros q (Eq1 & Eq2 & Eq3 & Eq4). split; [|intros _; congruence].
    split; [congruence|].
    intros [|j] Hj; [lia|]. rewrite Eq4, Ep4. reflexivity.
  - simpl. auto.
Qed.

Lemma Split_slices_of_concat (dt : DataType) (inner : list Z)
    (rs : list (list Row)) :
  forall pre : list Row,
    map tensor_rows
      (TensorOps.Split_slices (Rows dt inner (pre ++ concat rs))
         (Z.of_nat (length pre))
         (map (fun r => Z.of_nat (length r)) rs))
    = rs.
Proof.
  induction rs as [|r rs IH]; intros pre; [reflexivity|].
  cbn [map TensorOps.Split_slices concat]. f_equal.
  - cbn [Slice tensor_rows].
    replace (Z.of_nat (length pre) + Z.of_nat (length r) - Z.of_nat (length pre))
      with (Z.of_nat (length r)) by lia.
    rewrite !Nat2Z.id, drop_app_length, take_app_length. reflexivity.
  - rewrite <- Nat2Z.inj_add, <- length_app, app_assoc. apply IH.
Qed.

(** A tensor with the rank and the dimensions 1 and up of a tensor of rank
    at least one has its row shape. *)
Lemma same_row_shape_inner (first x : Tensor) :
  0 < dims first ->
  same_row_shape first x ->
  tensor_inner x = tensor_inner first
  /\ x = Rows (dtype x) (tensor_inner x) (tensor_rows x).
Proof.
  intros Hrank [Hd Hj].
  destruct first as [dt v|dt inner rows]; [simpl in Hrank; lia|].
  destruct x as [dt' v'|dt' inner' rows']; [simpl in Hd; lia|].
  split; [|reflexivity]. simpl in *.
  apply nth_ext with (d := 0) (d' := 0); [lia|].
  intros n Hn. apply (Hj (S n)). lia.
Qed.

(** X7: concatenating tensors and splitting the result by their dimensions 0
    gives back, piece by piece, the rank, the row shape and the rows of each
    tensor, with the element type of the result; when the tensors have this
    element type the pieces are the tensors. *)
Theorem Concat_then_Split (ctx : OpKernelContext) (ts : list Tensor)
    (data : Tensor) :
  dim_size data 0 <= INT64_MAX ->
  TensorOps.Concat TF_CALL_ALL_TYPES ctx ts = (OK, data) ->
  exists pieces,
    TensorOps.Split TF_CALL_ALL_TYPES IsInnerDimsSizeAligned ctx data
      (map (fun x => dim_size x 0) ts) = (OK, pieces)
    /\ Forall2 (fun p x => dtype p = dtype data
                           /\ dims p = dims x
                           /\ tensor_inner p = tensor_inner x
                           /\ tensor_rows p = tensor_rows x) pieces ts
    /\ (Forall (fun x => dtype x = dtype data) ts -> pieces = ts).
Proof.
  intros Hmax H.
  destruct (Concat_ok_inv _ _ _ _ H)
    as (first & rest & E & Ht & Ha & Hrank & Hall & ->).
  assert (Hshape : Forall (same_row_shape first) ts).
  { rewrite E. constructor; [apply same_row_shape_refl|].
    eapply List.Forall_impl; [|exact Hall]. intros x [Hx _]. exact Hx. }
  set (data := Rows (dtype first) (tensor_inner first)
                 (concat (map tensor_rows ts))) in *.
  assert (Hsum : sum_list (map (fun x => dim_size x 0) ts) = dim_size data 0).
  { rewrite sum_dim0_concat. reflexivity. }
  assert (Hnn : Forall (fun s => 0 <= s) (map (fun x => dim_size x 0) ts)).
  { apply List.Forall_forall. intros s Hs. apply in_map_iff in Hs.
    destruct Hs as (x & <- & _). rewrite dim0_rows. lia. }
  exists (TensorOps.Split_slices data 0 (map (fun x => dim_size x 0) ts)).
  split.
  { apply Split_ok_intro;
      [exact Ht | unfold data; simpl; lia | exact Hnn | lia | lia | auto]. }
  assert (Hrows : map tensor_rows
                    (TensorOps.Split_slices data 0
                       (map (fun x => dim_size x 0) ts))
                  = map tensor_rows ts).
  { replace (map (fun x => dim_size x 0) ts)
      with (map (fun r => Z.of_nat (length r)) (map tensor_rows ts)).
    - apply (Split_slices_of_concat _ _ (map tensor_rows ts) []).
    - rewrite map_map. apply map_ext. intros x. symmetry. apply dim0_rows. }
  pose proof (Split_slices_shape data (map (fun x => dim_size x 0) ts) 0)
    as Hpieces.
  assert (G : forall ps xs,
            map tensor_rows ps = map tensor_rows xs ->
            Forall (fun p => dtype p = dtype data
                             /\ tensor_inner p = tensor_inner data
                             /\ dims p = dims data
                             /\ forall j, dim_size p (S j) = dim_size data (S j))
              ps ->
            Forall (same_row_shape first) xs ->
            Forall2 (fun p x => dtype p = dtype data
                                /\ dims p = dims x
                                /\ tensor_inner p = tensor_inner x
                                /\ tensor_rows p = tensor_rows x) ps xs
            /\ (Forall (fun x => dtype x = dtype data) xs -> ps = xs)).
  { intros ps xs. revert ps.
    induction xs as [|x xs IH]; intros [|p ps] Hr Hp Hs; try discriminate.
    - split; [constructor | reflexivity].
    - inversion Hp as [|? ? (E1 & E2 & E3 & _) Hp']; subst.
      inversion Hs as [|? ? Sx Hs']; subst.
      injection Hr as Hr1 Hr.
      destruct (IH ps Hr Hp' Hs') as [HF Heq].
      destruct (same_row_shape_inner first x Hrank Sx) as [Ei Ex].
      assert (Ed : dims p = dims x).
      { rewrite E3. destruct Sx as [Sd _]. rewrite Sd.
        unfold data. destruct first; [simpl in Hrank; lia | reflexivity]. }
      split.
      + constructor; [|exact HF]. repeat split; try assumption.
        rewrite E2, Ei. reflexivity.
      + intros Hd. inversion Hd as [|? ? Hx Hd']; subst.
        f_equal; [|apply Heq; exact Hd'].
        rewrite Ex, Hx, <- E1, Ei, <- Hr1.
        change (tensor_inner first) with (tensor_inner data).
        rewrite <- E2.
        destruct p as [dt v|dt inner rows]; [|reflexivity].
        exfalso. rewrite Ex in Ed. simpl in Ed. lia. }
  exact (G _ _ Hrows Hpieces Hshape).
Qed.

End RoundTrips.

Lemma Split_then_Concat_witness :
  exists out,
    TensorOps.Concat Examples.all_types (Examples.ctx 1)
      [Rows 1%nat [2] [[1; 2]]; Rows 1%nat [2] [[3; 4]; [5; 6]]] = (OK, out)
    /\ dtype out = dtype (Rows 1%nat [2] [[1; 2]; [3; 4]; [5; 6]])
    /\ tensor_inner out = tensor_inner (Rows 1%nat [2] [[1; 2]; [3; 4]; [5; 6]])
    /\ tensor_rows out = tensor_rows (Rows 1%nat [2] [[1; 2]; [3; 4]; [5; 6]]).
Proof.
  apply (Split_then_Concat Examples.all_types Examples.aligned (Examples.ctx 1)
           (Rows 1%nat [2] [[1; 2]; [3; 4]; [5; 6]]) [1; 2]).
  - reflexivity.
  - repeat constructor; lia.
  - repeat constructor; vm_compute; discriminate.
  - reflexivity.
  - discriminate.
  - reflexivity.
  - reflexivity.
Defined.

Lemma Concat_then_Split_witness :
  exists pieces,
    TensorOps.Split Examples.all_types Examples.aligned (Examples.ctx 1)
      (Rows 1%nat [2] [[1; 2]; [3; 4]; [5; 6]])
      (map (fun x => dim_size x 0)
         [Rows 1%nat [2] [[1; 2]]; Rows 1%nat [2] [[3; 4]; [5; 6]]])
    = (OK, pieces)
    /\ Forall2 (fun p x => dtype p = dtype (Rows 1%nat [2] [[1; 2]; [3; 4]; [5; 6]])
                           /\ dims p = dims x
                           /\ tensor_inner p = tensor_inner x
                           /\ tensor_rows p = tensor_rows x)
         pieces [Rows 1%nat [2] [[1; 2]]; Rows 1%nat [2] [[3; 4]; [5; 6]]]
    /\ (Forall (fun x => dtype x = dtype (Rows 1%nat [2] [[1; 2]; [3; 4]; [5; 6]]))
          [Rows 1%nat [2] [[1; 2]]; Rows 1%nat [2] [[3; 4]; [5; 6]]] ->
        pieces = [Rows 1%nat [2] [[1; 2]]; Rows 1%nat [2] [[3; 4]; [5; 6]]]).
Proof.
  apply (Concat_then_Split Examples.all_types Examples.aligned (Examples.ctx 1)
           [Rows 1%nat [2] [[1; 2]]; Rows 1%nat [2] [[3; 4]; [5; 6]]]).
  - vm_compute. discriminate.
  - reflexivity.
Defined.

(** ** ThreadSafeStatus *)

(** X8: after any number of updates a [ThreadSafeStatus] cell that was OK
    holds the first error it was given (and stays OK when it was given none);
    a cell that already held an error keeps it; the other cells are not
    touched. *)
Theorem ThreadSafeStatus_first_error (r : nat) (updates : list Status) (w : World) :
  status_of
    (shared_status
       (foldl (fun w0 s => ThreadSafeStatus_Update r s w0) w updates)) r
  = Status_Update (status_of (shared_status w) r) (first_error updates)
  /\ forall r', r' <> r ->
       status_of
         (shared_status
            (foldl (fun w0 s => ThreadSafeStatus_Update r s w0) w updates)) r'
       = status_of (shared_status w) r'.
Proof.
  revert w. induction updates as [|s updates IH]; intros w.
  - split; [symmetry; apply Status_Update_OK | reflexivity].
  - cbn [foldl]. destruct (IH (ThreadSafeStatus_Update r s w)) as [E1 E2].
    rewrite E1. split.
    + unfold ThreadSafeStatus_Update. destruct s as [|c m]; [reflexivity|].
      cbn [ok first_error shared_status]. rewrite status_of_insert.
      rewrite decide_True by reflexivity.
      destruct (status_of (shared_status w) r), (first_error updates); reflexivity.
    + intros r' Hr. rewrite (E2 r' Hr).
      unfold ThreadSafeStatus_Update. destruct s as [|c m]; [reflexivity|].
      cbn [ok shared_status]. rewrite status_of_insert.
      rewrite decide_False by congruence. reflexivity.
Qed.

(** ** SplitInputTask: what the output tasks carry *)

Section SplitInputMore.

Import BatchResource.

Variable TF_CALL_ALL_TYPES : DataType -> bool.
Variable IsInnerDimsSizeAligned : Tensor -> bool.
Variable barrier_Inc : nat -> DoneCallback.

(** Whatever fuel lets the loop end, the pieces are positive and add up to
    what was left. *)
Lemma SplitInputTask_loop_sum (max_batch_size : Z) (fuel : nat) :
  0 < max_batch_size <= INT_MAX ->
  forall left_task_size l,
    left_task_size <= INT_MAX ->
    SplitInputTask_loop fuel left_task_size max_batch_size = Some l ->
    Forall (fun s => 0 < s) l /\ sum_list l = Z.max 0 left_task_size.
Proof.
  intros Hmax. induction fuel as [|fuel IH]; intros left l Hleft;
    cbn [SplitInputTask_loop];
    destruct (Z.gtb_spec left 0) as [Hpos|Hneg]; try discriminate;
    try (intros [= <-]; split; [constructor | simpl; lia]).
  rewrite to_int_id by (unfold INT_MAX in *; lia).
  destruct (SplitInputTask_loop fuel (left - max_batch_size) max_batch_size)
    as [l'|] eqn:E; [|discriminate].
  simpl. intros [= <-].
  destruct (IH (left - max_batch_size) l' ltac:(lia) E) as [Hall Hsum].
  split; [constructor; [lia | exact Hall]|].
  change (sum_list (Z.min left max_batch_size :: l'))
    with (Z.min left max_batch_size + sum_list l').
  lia.
Qed.

Lemma output_task_sizes_sum (fuel : nat) (n slot max_batch_size : Z)
    (sizes : list Z) :
  0 <= slot -> slot < n -> n <= INT_MAX -> 0 < max_batch_size <= INT_MAX ->
  output_task_sizes fuel n slot max_batch_size = Some sizes ->
  Forall (fun s => 0 < s) sizes /\ sum_list sizes = n.
Proof.
  intros Hslot Hn Hint Hmax. unfold output_task_sizes.
  rewrite to_int_id by (unfold INT_MAX in *; lia).
  destruct (SplitInputTask_loop fuel (n - slot) max_batch_size) as [l|] eqn:E;
    [|discriminate].
  simpl. intros [= <-].
  destruct (SplitInputTask_loop_sum _ _ Hmax (n - slot) l ltac:(lia) E)
    as [Hall Hsum].
  destruct (Z.gtb_spec slot 0).
  - split; [constructor; [lia | exact Hall]|].
    change (sum_list ([slot] ++ l)) with (slot + sum_list l). lia.
  - split; [exact Hall|]. simpl app. lia.
Qed.

(** The last loop of [SplitInputTask], when it succeeds, appends to the
    inputs of task [j] piece [j] of every input tensor, in order, and
    changes nothing else. *)
Lemma SplitInputTask_inputs_ok (input_task : BatchTask) (sizes : list Z)
    (tensors : list Tensor) :
  forall tasks out,
    length tasks = length sizes ->
    SplitInputTask_inputs TF_CALL_ALL_TYPES IsInnerDimsSizeAligned input_task
      sizes tensors tasks = (OK, out) ->
    length out = length tasks
    /\ forall j t, tasks !! j = Some t ->
         exists t' news,
           out !! j = Some t'
           /\ same_fields t t'
           /\ inputs t' = inputs t ++ news
           /\ Forall2
                (fun x p =>
                   exists pieces,
                     TensorOps.Split TF_CALL_ALL_TYPES IsInnerDimsSizeAligned
                       (context input_task) x sizes = (OK, pieces)
                     /\ pieces !! j = Some p)
                tensors news.
Proof.
  induction tensors as [|x tensors IH]; intros tasks out Hlen;
    cbn [SplitInputTask_inputs].
  - intros [= <-]. split; [reflexivity|]. intros j t Ht.
    exists t, []. rewrite app_nil_r. repeat split; auto.
  - destruct (TensorOps.Split _ _ _ _ _) as [[|c m] pieces] eqn:ES;
      [|discriminate].
    destruct (Nat.eqb_spec (length pieces) (length sizes)) as [El|];
      [cbn [negb] | discriminate].
    intros H. apply IH in H; [|rewrite length_imap; exact Hlen].
    destruct H as [Hl H]. rewrite length_imap in Hl. split; [exact Hl|].
    intros j t Ht.
    assert (Hj : (j < length pieces)%nat).
    { rewrite El, <- Hlen. eapply lookup_lt_Some; exact Ht. }
    destruct (lookup_lt_is_Some_2 _ _ Hj) as [p Ep].
    destruct (H j (push_input t p)) as (t' & news & Eo & Hf & Ei & HF).
    { rewrite list_lookup_imap, Ht. simpl. rewrite Ep. reflexivity. }
    exists t', (p :: news). split; [exact Eo|]. split; [exact Hf|].
    split; [rewrite Ei; simpl; rewrite <- app_assoc; reflexivity|].
    constructor; [|exact HF]. exists pieces. auto.
Qed.

Lemma SplitInputTask_tasks_lookup (input_task : BatchTask) (n : Z) (j : nat)
    (t : BatchTask) :
  SplitInputTask_tasks barrier_Inc input_task n !! j = Some t ->
  split_of barrier_Inc input_task j t /\ inputs t = [].
Proof.
  unfold SplitInputTask_tasks. rewrite lookup_map.
  destruct (seq 0 (Z.to_nat n) !! j) as [i|] eqn:E; [|discriminate].
  apply lookup_seq in E. destruct E as [-> _]. simpl. intros [= <-].
  unfold split_of. simpl. repeat split.
Qed.

End SplitInputMore.

(** X9: when [SplitInputTask] returns OK there is one output task per size;
    the task at position [j] carries the key, the captured inputs, the
    context, the start time, the shared status and the shared output matrix
    of the call, is marked partial, has split index [j] and the token [j] of
    the barrier as its callback, and has as many inputs as the call. *)
Theorem SplitInputTask_tasks_fields
    (TF_CALL_ALL_TYPES : DataType -> bool)
    (IsInnerDimsSizeAligned : Tensor -> bool)
    (barrier_Inc : nat -> DoneCallback)
    (fuel : nat) (input_task : BatchResource.BatchTask)
    (open_batch_remaining_slot max_batch_size : Z) (w w' : World)
    (output_tasks : list BatchResource.BatchTask) :
  0 <= open_batch_remaining_slot ->
  open_batch_remaining_slot < BatchResource.size input_task ->
  BatchResource.size input_task <= INT_MAX ->
  0 < max_batch_size <= INT_MAX ->
  BatchResource.SplitInputTask TF_CALL_ALL_TYPES IsInnerDimsSizeAligned
    barrier_Inc fuel input_task open_batch_remaining_slot max_batch_size w
  = Some (OK, output_tasks, w') ->
  exists sizes,
    BatchResource.output_task_sizes fuel
      (to_int64 (BatchResource.size input_task))
      open_batch_remaining_slot max_batch_size = Some sizes
    /\ length output_tasks = length sizes
    /\ forall j t, output_tasks !! j = Some t ->
         split_of barrier_Inc input_task j t
         /\ length (BatchResource.inputs t)
            = length (BatchResource.inputs input_task).
Proof.
  intros Hslot Hsize Hint Hmax. unfold BatchResource.SplitInputTask.
  assert (En : to_int64 (BatchResource.size input_task)
               = BatchResource.size input_task)
    by (apply to_int64_id; unfold INT_MAX, INT64_MAX in *; lia).
  destruct (BatchResource.output_task_sizes _ _ _ _) as [sizes|] eqn:Es;
    [|discriminate].
  rewrite En in Es.
  destruct (output_task_sizes_sum _ _ _ _ _ Hslot Hsize Hint Hmax Es)
    as [Hpos Hsum].
  assert (Hlen : Z.of_nat (length sizes) <= INT_MAX).
  { assert (Z.of_nat (length sizes) <= sum_list sizes); [|lia].
    clear -Hpos. induction Hpos as [|s l Hs _ IH]; simpl length; simpl sum_list;
      [reflexivity | lia]. }
  destruct (BatchResource.SplitInputTask_inputs _ _ _ _ _ _) as [st out] eqn:EI.
  intros [= -> <- _]. exists sizes. split; [reflexivity|].
  assert (Hn : length (BatchResource.SplitInputTask_tasks barrier_Inc input_task
                         (to_int (Z.of_nat (length sizes)))) = length sizes).
  { unfold BatchResource.SplitInputTask_tasks.
    rewrite length_map, length_seq, to_int_id, Nat2Z.id;
      [reflexivity | unfold INT_MAX in *; lia]. }
  destruct (SplitInputTask_inputs_ok _ _ _ _ _ _ _ Hn EI) as [Hl H].
  split; [congruence|].
  intros j t Ht.
  assert (Hj : (j < length (BatchResource.SplitInputTask_tasks barrier_Inc
                              input_task (to_int (Z.of_nat (length sizes)))))%nat).
  { rewrite <- Hl. eapply lookup_lt_Some; exact Ht. }
  destruct (lookup_lt_is_Some_2 _ _ Hj) as [t0 E0].
  destruct (H j t0 E0) as (t' & news & Eo & Hf & Ei & HF).
  rewrite Ht in Eo. injection Eo as <-.
  destruct (SplitInputTask_tasks_lookup _ _ _ _ _ E0) as [Hs0 Hi0].
  split.
  - destruct Hf as (F1 & F2 & F3 & F4 & F5 & F6 & F7 & F8 & F9).
    destruct Hs0 as (G1 & G2 & G3 & G4 & G5 & G6 & G7 & G8 & G9).
    unfold split_of. repeat split; congruence.
  - rewrite Ei, Hi0. simpl. symmetry. eapply Forall2_length; exact HF.
Qed.

Lemma SplitInputTask_tasks_fields_witness :
  exists sizes,
    BatchResource.output_task_sizes 10
      (to_int64 (BatchResource.size
                   (Examples.task 11 1 false [[1; 2]; [3; 4]; [5; 6]])))
      1 2 = Some sizes
    /\ length [Examples.split_task 0 [[1; 2]];
               Examples.split_task 1 [[3; 4]; [5; 6]]]
       = length sizes
    /\ forall j t,
         [Examples.split_task 0 [[1; 2]];
          Examples.split_task 1 [[3; 4]; [5; 6]]] !! j = Some t ->
         split_of (fun i => i) (Examples.task 11 1 false [[1; 2]; [3; 4]; [5; 6]]) j t
         /\ length (BatchResource.inputs t)
            = length (BatchResource.inputs
                        (Examples.task 11 1 false [[1; 2]; [3; 4]; [5; 6]])).
Proof.
  apply (SplitInputTask_tasks_fields Examples.all_types Examples.aligned
           (fun i => i) 10 (Examples.task 11 1 false [[1; 2]; [3; 4]; [5; 6]])
           1 2 Examples.world
           (BatchResource.set_shared_output 1
              [[Scalar 0%nat 0]; [Scalar 0%nat 0]] Examples.world)).
  - lia.
  - vm_compute. reflexivity.
  - vm_compute. discriminate.
  - vm_compute. split; [reflexivity | discriminate].
  - vm_compute. reflexivity.
Defined.

Section SplitInputData.

Import BatchResource.

Variable TF_CALL_ALL_TYPES : DataType -> bool.
Variable IsInnerDimsSizeAligned : Tensor -> bool.
Variable barrier_Inc : nat -> DoneCallback.

(** The last loop of [SplitInputTask] returns OK only when every input was
    split into one piece per size. *)
Lemma SplitInputTask_inputs_split_ok (input_task : BatchTask) (sizes : list Z)
    (tensors : list Tensor) :
  forall tasks out x,
    SplitInputTask_inputs TF_CALL_ALL_TYPES IsInnerDimsSizeAligned input_task
      sizes tensors tasks = (OK, out) ->
    In x tensors ->
    exists pieces,
      TensorOps.Split TF_CALL_ALL_TYPES IsInnerDimsSizeAligned
        (context input_task) x sizes = (OK, pieces)
      /\ length pieces = length sizes.
Proof.
  induction tensors as [|y tensors IH]; intros tasks out x H Hin;
    [destruct Hin|].
  cbn [SplitInputTask_inputs] in H.
  destruct (TensorOps.Split TF_CALL_ALL_TYPES IsInnerDimsSizeAligned
              (context input_task) y sizes) as [[|c m] pieces] eqn:ES;
    [|discriminate].
  destruct (length pieces =? length sizes)%nat eqn:El; cbn [negb] in H;
    [|discriminate].
  destruct Hin as [->|Hin].
  - exists pieces. split; [exact ES|]. apply Nat.eqb_eq. exact El.
  - eapply IH; eassumption.
Qed.

(** After the last loop of [SplitInputTask], the inputs of edge [i] of the
    output tasks, in order, are the pieces of input [i] of the call. *)
Lemma SplitInputTask_inputs_edge (input_task : BatchTask) (sizes : list Z)
    (tasks out : list BatchTask) (i : nat) (x : Tensor) :
  length tasks = length sizes ->
  Forall (fun t => inputs t = []) tasks ->
  SplitInputTask_inputs TF_CALL_ALL_TYPES IsInnerDimsSizeAligned input_task
    sizes (inputs input_task) tasks = (OK, out) ->
  inputs input_task !! i = Some x ->
  TensorOps.Split TF_CALL_ALL_TYPES IsInnerDimsSizeAligned (context input_task)
    x sizes
  = (OK, map (fun t => nth i (inputs t) (Scalar 0%nat 0)) out).
Proof.
  intros Hlen Hempty H Hi.
  destruct (SplitInputTask_inputs_ok _ _ _ _ _ _ _ Hlen H) as [Hl Hout].
  destruct (SplitInputTask_inputs_split_ok _ _ _ _ _ x H) as (pieces & ES & Hp).
  { apply list_elem_of_In. eapply list_elem_of_lookup_2; exact Hi. }
  rewrite ES. f_equal. apply list_eq. intros j. rewrite list_lookup_fmap.
  destruct (out !! j) as [t'|] eqn:Ej; simpl.
  - assert (Hj : (j < length tasks)%nat)
      by (rewrite <- Hl; eapply lookup_lt_Some; exact Ej).
    destruct (lookup_lt_is_Some_2 _ _ Hj) as [t0 E0].
    destruct (Hout j t0 E0) as (t1 & news & Eo & _ & Ei & HF).
    rewrite Ej in Eo. injection Eo as <-.
    destruct (Forall2_lookup_l _ _ _ _ _ HF Hi) as (p & Ep & pieces' & ES' & Epj).
    rewrite ES in ES'. injection ES' as <-.
    rewrite List.Forall_forall in Hempty.
    rewrite Ei, (Hempty t0), app_nil_l;
      [|apply list_elem_of_In; eapply list_elem_of_lookup_2; exact E0].
    rewrite (nth_lookup_Some _ _ _ _ Ep). exact Epj.
  - apply lookup_ge_None. apply lookup_ge_None in Ej. lia.
Qed.

End SplitInputData.

(** X10: when [SplitInputTask] returns OK, the output tasks partition every
    input of the call: for each input edge [i], the rows of input [i] of the
    output tasks, taken in task order, are the first [size] rows of input
    [i] of the call, and input [i] of output task [j] has as many rows as
    the size of task [j]. *)
Theorem SplitInputTask_partitions_inputs
    (TF_CALL_ALL_TYPES : DataType -> bool)
    (IsInnerDimsSizeAligned : Tensor -> bool)
    (barrier_Inc : nat -> DoneCallback)
    (fuel : nat) (input_task : BatchResource.BatchTask)
    (open_batch_remaining_slot max_batch_size : Z) (w w' : World)
    (output_tasks : list BatchResource.BatchTask) (i : nat) (x : Tensor) :
  0 <= open_batch_remaining_slot ->
  open_batch_remaining_slot < BatchResource.size input_task ->
  BatchResource.size input_task <= INT_MAX ->
  0 < max_batch_size <= INT_MAX ->
  BatchResource.SplitInputTask TF_CALL_ALL_TYPES IsInnerDimsSizeAligned
    barrier_Inc fuel input_task open_batch_remaining_slot max_batch_size w
  = Some (OK, output_tasks, w') ->
  BatchResource.inputs input_task !! i = Some x ->
  concat (map (fun t => tensor_rows (nth i (BatchResource.inputs t)
                                       (Scalar 0%nat 0)))
            output_tasks)
  = take (Z.to_nat (BatchResource.size input_task)) (tensor_rows x)
  /\ BatchResource.output_task_sizes fuel
       (to_int64 (BatchResource.size input_task))
       open_batch_remaining_slot max_batch_size
     = Some (map (fun t => dim_size (nth i (BatchResource.inputs t)
                                       (Scalar 0%nat 0)) 0)
               output_tasks).
Proof.
  intros Hslot Hsize Hint Hmax. unfold BatchResource.SplitInputTask.
  assert (En : to_int64 (BatchResource.size input_task)
               = BatchResource.size input_task)
    by (apply to_int64_id; unfold INT_MAX, INT64_MAX in *; lia).
  destruct (BatchResource.output_task_sizes _ _ _ _) as [sizes|] eqn:Es;
    [|discriminate].
  rewrite En in Es.
  destruct (output_task_sizes_sum _ _ _ _ _ Hslot Hsize Hint Hmax Es)
    as [Hpos Hsum].
  assert (Hnn : Forall (fun s => 0 <= s) sizes)
    by (eapply List.Forall_impl; [|exact Hpos]; simpl; intros; lia).
  assert (Hlen : Z.of_nat (length sizes) <= INT_MAX).
  { assert (Z.of_nat (length sizes) <= sum_list sizes); [|lia].
    clear -Hpos. induction Hpos as [|s l Hs _ IH]; simpl length; simpl sum_list;
      [reflexivity | lia]. }
  destruct (BatchResource.SplitInputTask_inputs _ _ _ _ _ _) as [st out] eqn:EI.
  intros [= -> <- _] Hi.
  assert (Hn : length (BatchResource.SplitInputTask_tasks barrier_Inc input_task
                         (to_int (Z.of_nat (length sizes)))) = length sizes).
  { unfold BatchResource.SplitInputTask_tasks.
    rewrite length_map, length_seq, to_int_id, Nat2Z.id;
      [reflexivity | unfold INT_MAX in *; lia]. }
  assert (Hempty : Forall (fun t => BatchResource.inputs t = [])
                     (BatchResource.SplitInputTask_tasks barrier_Inc input_task
                        (to_int (Z.of_nat (length sizes))))).
  { apply List.Forall_forall. intros t Ht.
    apply list_elem_of_In, list_elem_of_lookup_1 in Ht. destruct Ht as [j Ht].
    eapply SplitInputTask_tasks_lookup; exact Ht. }
  pose proof (SplitInputTask_inputs_edge _ _ _ _ _ _ _ _ Hn Hempty EI Hi) as ES.
  assert (Hty : Forall int64_value sizes).
  { apply int64_value_sum; [exact Hnn|].
    rewrite Hsum. unfold INT_MAX, INT64_MAX in *. lia. }
  split.
  - rewrite <- Hsum.
    rewrite <- (Split_rows_take _ _ _ _ _ _ Hty ES).
    rewrite map_map. reflexivity.
  - f_equal. rewrite <- (Split_dim0 _ _ _ _ _ _ Hty ES).
    rewrite map_map. reflexivity.
Qed.

Lemma SplitInputTask_partitions_inputs_witness :
  concat (map (fun t => tensor_rows (nth 0 (BatchResource.inputs t)
                                       (Scalar 0%nat 0)))
            [Examples.split_task 0 [[1; 2]];
             Examples.split_task 1 [[3; 4]; [5; 6]]])
  = take (Z.to_nat (BatchResource.size
                      (Examples.task 11 1 false [[1; 2]; [3; 4]; [5; 6]])))
      (tensor_rows (Rows 1%nat [2] [[1; 2]; [3; 4]; [5; 6]]))
  /\ BatchResource.output_task_sizes 10
       (to_int64 (BatchResource.size
                    (Examples.task 11 1 false [[1; 2]; [3; 4]; [5; 6]])))
       1 2
     = Some (map (fun t => dim_size (nth 0 (BatchResource.inputs t)
                                       (Scalar 0%nat 0)) 0)
               [Examples.split_task 0 [[1; 2]];
                Examples.split_task 1 [[3; 4]; [5; 6]]]).
Proof.
  apply (SplitInputTask_partitions_inputs Examples.all_types Examples.aligned
           (fun i => i) 10 (Examples.task 11 1 false [[1; 2]; [3; 4]; [5; 6]])
           1 2 Examples.world
           (BatchResource.set_shared_output 1
              [[Scalar 0%nat 0]; [Scalar 0%nat 0]] Examples.world)).
  - lia.
  - vm_compute. reflexivity.
  - vm_compute. discriminate.
  - vm_compute. split; [reflexivity | discriminate].
  - vm_compute. reflexivity.
  - vm_compute. reflexivity.
Defined.

Section ConcatInputShape.

Import BatchResource.

Variable TF_CALL_ALL_TYPES : DataType -> bool.
Variable allowed : list Z.

(** On tasks whose inputs all have the task's size, the tensors of one edge
    have the sizes of the tasks as their first dimensions. *)
Lemma edge_inputs_dim0 (b : Batch) (i : nat) (l : list Tensor) :
  Forall uniform_dim0 b ->
  edge_inputs b i = Some l ->
  map (fun x => dim_size x 0) l = map size b.
Proof.
  unfold edge_inputs. intros Hu H. apply mapM_Some in H.
  induction H as [|t x b l Hx _ IH]; [reflexivity|].
  apply Forall_cons in Hu. destruct Hu as [Ht Hu].
  cbn [map]. f_equal; [|exact (IH Hu)].
  unfold uniform_dim0 in Ht. rewrite List.Forall_forall in Ht.
  apply Ht. apply list_elem_of_In. eapply list_elem_of_lookup_2; exact Hx.
Qed.

Lemma edge_concatenated_dim0 (b : Batch) (i : nat) (t : Tensor) :
  Forall uniform_dim0 b ->
  0 <= padding_amount allowed b ->
  edge_concatenated b (padding_amount allowed b) i t ->
  dim_size t 0 = sum_list (map size b) + padding_amount allowed b.
Proof.
  intros Hu Hpad (l & El & H).
  rewrite dim0_rows, <- (edge_inputs_dim0 b i l Hu El), sum_dim0_concat.
  destruct (Z.gtb_spec (padding_amount allowed b) 0) as [Hp|Hp].
  - destruct H as (first & rest & _ & ->).
    rewrite length_app, length_replicate. lia.
  - rewrite H. lia.
Qed.

End ConcatInputShape.

(** X11: on a batch whose tasks have inputs of the task's size, every tensor
    [ConcatInputTensors] produces has the padded batch size as its first
    dimension, and there is one per input edge; this is the first dimension
    [SplitOutputTensors] asks of every output of the batched function. *)
Theorem ConcatInputTensors_dim0
    (TF_CALL_ALL_TYPES : DataType -> bool) (allowed : list Z)
    (b : BatchResource.Batch) (ctx : OpKernelContext) (outs : list Tensor) :
  sum_list (map BatchResource.size b) <= INT_MAX ->
  Forall (fun a => a <= INT_MAX) allowed ->
  Z.of_nat (length (BatchResource.inputs (BatchResource.task b 0))) <= INT_MAX ->
  Forall uniform_dim0 b ->
  BatchResource.ConcatInputTensors TF_CALL_ALL_TYPES allowed b ctx = (OK, outs) ->
  length outs = length (BatchResource.inputs (BatchResource.task b 0))
  /\ Forall (fun t =>
               dim_size t 0 = BatchResource.padded_batch_size allowed b
               /\ dim_size t 0
                  = to_int64 (to_size_t (BatchResource.batch_size b
                                         + BatchResource.padding_amount allowed b)))
       outs.
Proof.
  intros Hsum Hallowed Hedges Hu.
  destruct (padding_amount_exact allowed b Hsum Hallowed) as (Eb & Hle & Epad).
  pose proof (sum_sizes_nonneg b) as H0.
  unfold BatchResource.ConcatInputTensors.
  destruct (BatchResource.num_tasks b =? 0); [discriminate|].
  rewrite to_int_id by (unfold INT_MAX in *; lia). rewrite Nat2Z.id.
  intros H. apply ConcatInputTensors_loop_ok in H.
  destruct H as (news & -> & HF). rewrite app_nil_l.
  split; [rewrite <- (Forall2_length _ _ _ HF); apply length_seq|].
  assert (Hp : BatchResource.padded_batch_size allowed b <= INT_MAX).
  { unfold BatchResource.padded_batch_size.
    rewrite Eb in Hle. unfold BatchResource.padded_batch_size in Hle.
    destruct (Round_cases allowed (to_int (BatchResource.batch_size b)))
      as [[_ E]|(a & Ea & E)]; rewrite E.
    - rewrite Eb. rewrite to_int_id by (unfold INT_MAX in *; lia). exact Hsum.
    - rewrite List.Forall_forall in Hallowed. apply Hallowed.
      apply first_allowed_Some in Ea. destruct Ea as (before & after & -> & _).
      apply in_or_app. right. left. reflexivity. }
  apply List.Forall_forall. intros t Ht.
  apply list_elem_of_In, list_elem_of_lookup_1 in Ht. destruct Ht as [j Hj].
  destruct (Forall2_lookup_r _ _ _ _ _ HF Hj) as (i & _ & Hi).
  rewrite (edge_concatenated_dim0 allowed b i t Hu ltac:(lia) Hi).
  split; [lia|].
  rewrite to_size_t_id, to_int64_id; unfold INT_MAX, INT64_MAX in *; lia.
Qed.

Lemma ConcatInputTensors_dim0_witness :
  length [Rows 1%nat [2] [[1; 2]; [3; 4]; [5; 6]; [1; 2]]]
  = length (BatchResource.inputs (BatchResource.task Examples.batch 0))
  /\ Forall (fun t =>
               dim_size t 0 = BatchResource.padded_batch_size [2; 4] Examples.batch
               /\ dim_size t 0
                  = to_int64 (to_size_t (BatchResource.batch_size Examples.batch
                                         + BatchResource.padding_amount [2; 4]
                                             Examples.batch)))
       [Rows 1%nat [2] [[1; 2]; [3; 4]; [5; 6]; [1; 2]]].
Proof.
  apply (ConcatInputTensors_dim0 Examples.all_types [2; 4] Examples.batch
           (Examples.ctx 2)).
  - vm_compute. discriminate.
  - repeat constructor; vm_compute; discriminate.
  - vm_compute. discriminate.
  - repeat constructor.
  - vm_compute. reflexivity.
Defined.

(** ** Unbatch: what the callers receive *)

Section UnbatchDelivery.

Import UnbatchResource.

Variable TF_CALL_ALL_TYPES : DataType -> bool.
Variable IsInnerDimsSizeAligned : Tensor -> bool.
Variable timeout_micros_ : Z.

(** The loop over the rows of the index, when none of its keys has a tensor
    waiting and none but the caller's own has a kernel waiting: the piece of
    every other key is stored under that key, and the caller's own piece, if
    the index has one, is set on its context and its callback collected. *)
Lemma Compute_rows_delivery (deadline own : Z) (runs : WaitingCallback)
    (split_inputs : list Tensor) :
  forall batch_keys i s w cbs,
    NoDup batch_keys ->
    (forall k, In k batch_keys -> waiting_tensors_ s !! k = None) ->
    (forall k, In k batch_keys -> k <> own -> waiting_callbacks_ s !! k = None) ->
    (In own batch_keys -> waiting_callbacks_ s !! own = Some runs) ->
    exists s' w' cbs',
      Compute_rows deadline i batch_keys split_inputs (s, w, cbs)
      = (OK, (s', w', cbs'))
      /\ (forall j k, batch_keys !! j = Some k -> k <> own ->
            waiting_tensors_ s' !! k
            = Some {| wt_deadline_micros := deadline;
                      tensor := nth (i + j) split_inputs (Scalar 0%nat 0) |})
      /\ (forall k, ~ In k batch_keys \/ k = own ->
            waiting_tensors_ s' !! k = waiting_tensors_ s !! k)
      /\ (forall j, batch_keys !! j = Some own ->
            w' = set_output (context runs) 0
                   (nth (i + j) split_inputs (Scalar 0%nat 0)) w
            /\ cbs' = cbs ++ [done runs]
            /\ waiting_callbacks_ s' = delete own (waiting_callbacks_ s))
      /\ (~ In own batch_keys ->
            w' = w /\ cbs' = cbs /\ waiting_callbacks_ s' = waiting_callbacks_ s).
Proof.
  induction batch_keys as [|key rest IH]; intros i s w cbs Hnd Ht Hc Hown.
  - exists s, w, cbs. split; [reflexivity|].
    split; [intros j k Hj; discriminate|].
    split; [reflexivity|].
    split; [intros j Hj; discriminate | auto].
  - apply NoDup_cons in Hnd. destruct Hnd as [Hnot Hnd].
    rewrite list_elem_of_In in Hnot.
    cbn [Compute_rows]. unfold Compute_row.
    destruct (decide (key = own)) as [->|Hne].
    + rewrite (Hown (or_introl eq_refl)).
      destruct (IH (S i)
                  {| waiting_tensors_ := waiting_tensors_ s;
                     waiting_callbacks_ := delete own (waiting_callbacks_ s) |}
                  (set_output (context runs) 0
                     (nth i split_inputs (Scalar 0%nat 0)) w)
                  (cbs ++ [done runs]) Hnd)
        as (s' & w' & cbs' & E & H1 & H2 & H3 & H4).
      * intros k Hk. simpl. apply Ht. right. exact Hk.
      * intros k Hk Hko. simpl. rewrite lookup_delete_ne by congruence.
        apply Hc; [right; exact Hk | exact Hko].
      * intros Hin. contradiction.
      * exists s', w', cbs'. split; [exact E|].
        split.
        { intros [|j] k Hj Hk; simpl in Hj; [congruence|].
          replace (i + S j)%nat with (S i + j)%nat by lia. exact (H1 j k Hj Hk). }
        split.
        { intros k Hk. rewrite H2; [reflexivity|].
          destruct Hk as [Hk| ->]; [left; intros Hin; apply Hk; right; exact Hin
                                   | right; reflexivity]. }
        split.
        { intros [|j] Hj; simpl in Hj.
          - rewrite Nat.add_0_r. exact (H4 Hnot).
          - exfalso. apply Hnot. apply list_elem_of_In.
            eapply list_elem_of_lookup_2; exact Hj. }
        intros Hn. exfalso. apply Hn. left. reflexivity.
    + rewrite (Hc key (or_introl eq_refl) Hne), (Ht key (or_introl eq_refl)).
      destruct (IH (S i)
                  {| waiting_tensors_ :=
                       <[key := {| wt_deadline_micros := deadline;
                                   tensor := nth i split_inputs (Scalar 0%nat 0) |}]>
                         (waiting_tensors_ s);
                     waiting_callbacks_ := waiting_callbacks_ s |}
                  w cbs Hnd)
        as (s' & w' & cbs' & E & H1 & H2 & H3 & H4).
      * intros k Hk. simpl. rewrite lookup_insert_ne by congruence.
        apply Ht. right. exact Hk.
      * intros k Hk Hko. simpl. apply Hc; [right; exact Hk | exact Hko].
      * intros Hin. simpl. apply Hown. right. exact Hin.
      * exists s', w', cbs'. split; [exact E|].
        split.
        { intros [|j] k Hj Hk; simpl in Hj.
          - injection Hj as <-. rewrite H2 by (left; exact Hnot). simpl.
            rewrite lookup_insert_eq, Nat.add_0_r. reflexivity.
          - replace (i + S j)%nat with (S i + j)%nat by lia. exact (H1 j k Hj Hk). }
        split.
        { intros k Hk. rewrite H2.
          - simpl. apply lookup_insert_ne.
            destruct Hk as [Hk| ->]; [intros ->; apply Hk; left; reflexivity
                                     | exact Hne].
          - destruct Hk as [Hk| ->]; [left; intros Hin; apply Hk; right; exact Hin
                                     | right; reflexivity]. }
        split.
        { intros [|j] Hj; simpl in Hj; [congruence|].
          replace (i + S j)%nat with (S i + j)%nat by lia. exact (H3 j Hj). }
        intros Hn. apply H4. intros Hin. apply Hn. right. exact Hin.
Qed.

(** A caller that brings the batched tensor and an index with distinct keys,
    none of them waiting in either map: the piece of every other key waits
    under that key; the caller's own piece, if the index has one, is its
    output and its callback is called. *)
Lemma Compute_first_arrival ctx done_ now s w pieces :
  dim_size (input ctx 1) 0 <= dim_size (input ctx 0) 0 ->
  dim_size (input ctx 1) 1 = 3 ->
  0 < dim_size (input ctx 1) 0 ->
  TensorOps.Split TF_CALL_ALL_TYPES IsInnerDimsSizeAligned ctx (input ctx 0)
    (batch_sizes_of ctx) = (OK, pieces) ->
  NoDup (batch_keys_of ctx) ->
  (forall k, In k (batch_keys_of ctx) -> in_neither s k) ->
  in_neither s (batch_key_of ctx) ->
  exists s' w',
    Compute TF_CALL_ALL_TYPES IsInnerDimsSizeAligned timeout_micros_
      ctx done_ now s w = (OK, s', w')
    /\ (forall j k, batch_keys_of ctx !! j = Some k -> k <> batch_key_of ctx ->
          waiting_tensors_ s' !! k
          = Some {| wt_deadline_micros := to_size_t (now + timeout_micros_);
                    tensor := nth j pieces (Scalar 0%nat 0) |})
    /\ (forall j, batch_keys_of ctx !! j = Some (batch_key_of ctx) ->
          w' = call_done done_
                 (set_output ctx 0 (nth j pieces (Scalar 0%nat 0)) w)
          /\ in_neither s' (batch_key_of ctx))
    /\ (~ In (batch_key_of ctx) (batch_keys_of ctx) ->
          w' = w
          /\ waiting_callbacks_ s' !! batch_key_of ctx
             = Some {| wc_deadline_micros := to_size_t (now + timeout_micros_);
                       context := ctx; done := done_ |})
    /\ (forall k, k <> batch_key_of ctx ->
          waiting_callbacks_ s' !! k = waiting_callbacks_ s !! k).
Proof.
  intros Hd0 Hd1 Hpos HS Hnd Hkeys [Hown_t Hown_c].
  assert (Eg : (dim_size (input ctx 1) 0 >? 0) = true) by (apply Z.gtb_lt; lia).
  unfold batch_sizes_of in HS. unfold batch_keys_of in Hnd, Hkeys |- *.
  rewrite Eg in HS, Hnd, Hkeys |- *.
  unfold Compute.
  destruct (Z.gtb_spec (dim_size (input ctx 1) 0) (dim_size (input ctx 0) 0))
    as [|_]; [lia|].
  rewrite Hd1, Eg. cbn [Z.eqb Pos.eqb negb]. cbv zeta. rewrite HS. cbn [ok negb].
  unfold Compute_critical. fold (batch_key_of ctx). rewrite Hown_t, Hown_c.
  destruct (Compute_rows_delivery (to_size_t (now + timeout_micros_))
              (batch_key_of ctx)
              {| wc_deadline_micros := to_size_t (now + timeout_micros_);
                 context := ctx; done := done_ |}
              pieces _ 0%nat
              {| waiting_tensors_ := waiting_tensors_ s;
                 waiting_callbacks_ :=
                   <[batch_key_of ctx :=
                       {| wc_deadline_micros := to_size_t (now + timeout_micros_);
                          context := ctx; done := done_ |}]>
                     (waiting_callbacks_ s) |}
              w [] Hnd)
    as (s' & w' & cbs' & E & H1 & H2 & H3 & H4).
  - intros k Hk. simpl. apply (Hkeys k Hk).
  - intros k Hk Hne. simpl. rewrite lookup_insert_ne by congruence.
    apply (Hkeys k Hk).
  - intros _. simpl. apply lookup_insert_eq.
  - rewrite E. eexists _, _. split; [reflexivity|].
    split; [exact H1|].
    split.
    { intros j Hj. destruct (H3 j Hj) as (-> & -> & Ewc). simpl. split; [reflexivity|].
      split.
      - rewrite H2 by (right; reflexivity). exact Hown_t.
      - rewrite Ewc. simpl. apply lookup_delete_eq. }
    split.
    { intros Hn. destruct (H4 Hn) as (-> & -> & Ewc). simpl. split; [reflexivity|].
      rewrite Ewc. simpl. apply lookup_insert_eq. }
    intros k Hk.
    match type of Hnd with
    | NoDup ?l => destruct (in_dec Z.eq_dec (batch_key_of ctx) l) as [Hin|Hn]
    end.
    + apply list_elem_of_In, list_elem_of_lookup_1 in Hin. destruct Hin as [j Hj].
      destruct (H3 j Hj) as (_ & _ & Ewc). rewrite Ewc. simpl.
      rewrite lookup_delete_ne, lookup_insert_ne by congruence. reflexivity.
    + destruct (H4 Hn) as (_ & _ & Ewc). rewrite Ewc. simpl.
      apply lookup_insert_ne. congruence.
Qed.

(** A caller with an empty index whose tensor waits takes it: the tensor is
    its output, its callback is called and the entry is erased. *)
Lemma Compute_takes_waiting ctx done_ now s w t :
  dim_size (input ctx 1) 0 = 0 ->
  dim_size (input ctx 1) 1 = 3 ->
  waiting_tensors_ s !! batch_key_of ctx = Some t ->
  Compute TF_CALL_ALL_TYPES IsInnerDimsSizeAligned timeout_micros_
    ctx done_ now s w
  = (OK,
     {| waiting_tensors_ := delete (batch_key_of ctx) (waiting_tensors_ s);
        waiting_callbacks_ := waiting_callbacks_ s |},
     call_done done_ (set_output ctx 0 (tensor t) w)).
Proof.
  intros Hd0 Hd1 Ht. unfold Compute. rewrite Hd0, Hd1.
  destruct (Z.gtb_spec 0 (dim_size (input ctx 0) 0)) as [Hneg|_].
  - rewrite dim0_rows in Hneg. lia.
  - cbn [Z.eqb Pos.eqb negb Z.gtb Z.compare]. cbv zeta. cbn [ok negb].
    unfold Compute_critical. fold (batch_key_of ctx). rewrite Ht. reflexivity.
Qed.

End UnbatchDelivery.

(** X12: the rendezvous of Unbatch, tensor first.  A caller brings the
    batched tensor and an index with distinct keys, none of them waiting;
    a caller whose key is at row [j] of that index and who comes later with
    an empty index gets piece [j] of the split as its output 0, its callback
    is called, and its key is left in neither map. *)
Theorem Unbatch_tensor_then_caller
    (TF_CALL_ALL_TYPES : DataType -> bool)
    (IsInnerDimsSizeAligned : Tensor -> bool) (timeout_micros_ : Z)
    (producer consumer : OpKernelContext) (done_p done_c : DoneCallback)
    (now now' : Z) (s : UnbatchResource.State) (w w' : World)
    (pieces : list Tensor) (j : nat) :
  dim_size (input producer 1) 0 <= dim_size (input producer 0) 0 ->
  dim_size (input producer 1) 1 = 3 ->
  0 < dim_size (input producer 1) 0 ->
  TensorOps.Split TF_CALL_ALL_TYPES IsInnerDimsSizeAligned producer
    (input producer 0) (batch_sizes_of producer) = (OK, pieces) ->
  NoDup (batch_keys_of producer) ->
  (forall k, In k (batch_keys_of producer) -> in_neither s k) ->
  in_neither s (batch_key_of producer) ->
  batch_keys_of producer !! j = Some (batch_key_of consumer) ->
  batch_key_of consumer <> batch_key_of producer ->
  dim_size (input consumer 1) 0 = 0 ->
  dim_size (input consumer 1) 1 = 3 ->
  exists s1 w1 s2,
    UnbatchResource.Compute TF_CALL_ALL_TYPES IsInnerDimsSizeAligned
      timeout_micros_ producer done_p now s w = (OK, s1, w1)
    /\ UnbatchResource.Compute TF_CALL_ALL_TYPES IsInnerDimsSizeAligned
         timeout_micros_ consumer done_c now' s1 w'
       = (OK, s2,
          call_done done_c
            (set_output consumer 0 (nth j pieces (Scalar 0%nat 0)) w'))
    /\ in_neither s2 (batch_key_of consumer).
Proof.
  intros Hd0 Hd1 Hpos HS Hnd Hkeys Hown Hj Hne Hc0 Hc1.
  destruct (Compute_first_arrival TF_CALL_ALL_TYPES IsInnerDimsSizeAligned
              timeout_micros_ producer done_p now s w pieces
              Hd0 Hd1 Hpos HS Hnd Hkeys Hown)
    as (s1 & w1 & E1 & Hstored & _ & _ & Hwc).
  exists s1, w1. eexists. split; [exact E1|].
  rewrite (Compute_takes_waiting TF_CALL_ALL_TYPES IsInnerDimsSizeAligned
             timeout_micros_ consumer done_c now' s1 w' _ Hc0 Hc1
             (Hstored j _ Hj Hne)).
  split; [reflexivity|].
  split; simpl; [apply lookup_delete_eq|].
  rewrite (Hwc _ Hne). apply Hkeys.
  apply list_elem_of_In. eapply list_elem_of_lookup_2; exact Hj.
Qed.

Lemma Unbatch_tensor_then_caller_witness :
  exists s1 w1 s2,
    UnbatchResource.Compute Examples.all_types Examples.aligned 1000
      (Examples.unbatch_ctx 2 [[1; 2]; [3; 4]; [5; 6]] [[11; 0; 2]; [12; 2; 3]] 11)
      102%nat 0 UnbatchResource.init Examples.world = (OK, s1, w1)
    /\ UnbatchResource.Compute Examples.all_types Examples.aligned 1000
         (Examples.unbatch_ctx 1 [] [] 12) 101%nat 5 s1 Examples.world
       = (OK, s2,
          call_done 101%nat
            (set_output (Examples.unbatch_ctx 1 [] [] 12) 0
               (nth 1 [Rows 1%nat [2] [[1; 2]; [3; 4]]; Rows 1%nat [2] [[5; 6]]]
                  (Scalar 0%nat 0))
               Examples.world))
    /\ in_neither s2 (batch_key_of (Examples.unbatch_ctx 1 [] [] 12)).
Proof.
  apply (Unbatch_tensor_then_caller Examples.all_types Examples.aligned 1000
           (Examples.unbatch_ctx 2 [[1; 2]; [3; 4]; [5; 6]]
              [[11; 0; 2]; [12; 2; 3]] 11)
           (Examples.unbatch_ctx 1 [] [] 12) 102%nat 101%nat 0 5
           UnbatchResource.init Examples.world Examples.world
           [Rows 1%nat [2] [[1; 2]; [3; 4]]; Rows 1%nat [2] [[5; 6]]] 1).
  - vm_compute. discriminate.
  - reflexivity.
  - reflexivity.
  - vm_compute. reflexivity.
  - vm_compute. apply NoDup_cons. split; [|apply NoDup_singleton].
    intros H. apply list_elem_of_In in H. simpl in H. lia.
  - intros k _. split; reflexivity.
  - split; reflexivity.
  - reflexivity.
  - vm_compute. discriminate.
  - reflexivity.
  - reflexivity.
Defined.

(** ** From Batch to Unbatch *)

Section BatchToUnbatch.

Import BatchResource.

Variable TF_CALL_ALL_TYPES : DataType -> bool.
Variable IsInnerDimsSizeAligned : Tensor -> bool.
Variable allowed : list Z.

(** The tensor [EmitIndexTensor] sets. *)
Lemma EmitIndexTensor_tensor (ctx : OpKernelContext) (b : Batch)
    (output_index : Z) (w : World) :
  ctx_allocate ctx = OK ->
  sum_list (map size b) <= INT64_MAX ->
  EmitIndexTensor ctx b output_index w
  = (OK, set_output ctx output_index (Rows DT_INT64 [3] (index_rows 0 b)) w).
Proof.
  intros Halloc Hsum. unfold EmitIndexTensor. rewrite Halloc.
  assert (E : tensor_rows (allocated DT_INT64 (num_tasks b) [3])
              = [] ++ replicate (length b) [0; 0; 0] ++ []).
  { unfold allocated, num_tasks. rewrite Nat2Z.id, app_nil_r. reflexivity. }
  rewrite E.
  change 0%nat with (length (@nil Row)) at 1.
  rewrite EmitIndexTensor_loop_spec by lia.
  rewrite app_nil_r. reflexivity.
Qed.

Lemma map_seq_lookup {A} (f : nat -> Z) (g : A -> Z) (l : list A) :
  (forall i x, l !! i = Some x -> f i = g x) ->
  map f (seq 0 (length l)) = map g l.
Proof.
  intros H. apply list_eq. intros j. rewrite !list_lookup_fmap.
  destruct (l !! j) as [x|] eqn:E.
  - rewrite lookup_seq_lt by (eapply lookup_lt_Some; exact E).
    simpl. f_equal. apply H. exact E.
  - rewrite lookup_seq_ge by (apply lookup_ge_None; exact E). reflexivity.
Qed.

Lemma size_le_sum (b : Batch) (i : nat) (t : BatchTask) :
  b !! i = Some t -> size t <= sum_list (map size b).
Proof.
  revert i. induction b as [|x b IH]; intros [|i] H; try discriminate;
    cbn [map sum_list fold_right]; simpl in H.
  - injection H as ->. pose proof (sum_sizes_nonneg b).
    unfold sum_list in *. lia.
  - specialize (IH i H). pose proof (size_nonneg x). unfold sum_list in *. lia.
Qed.

(** Read the way [UnbatchResource::Compute] reads its index, the tensor of
    [EmitIndexTensor] gives the keys and the sizes of the tasks. *)
Lemma index_rows_read (b : Batch) (uctx : OpKernelContext) :
  sum_list (map size b) <= INT64_MAX ->
  input uctx 1 = Rows DT_INT64 [3] (index_rows 0 b) ->
  batch_keys_of uctx = map guid b /\ batch_sizes_of uctx = map size b.
Proof.
  intros Hsum Hidx. unfold batch_keys_of, batch_sizes_of. rewrite Hidx.
  cbn [dim_size]. rewrite index_rows_length, Nat2Z.id.
  destruct b as [|t0 b0] eqn:Eb; [split; reflexivity|]. rewrite <- Eb in *.
  replace (Z.of_nat (length b) >? 0) with true
    by (symmetry; apply Z.gtb_lt; rewrite Eb; simpl; lia).
  split; apply map_seq_lookup; intros i t Hi; unfold batch_indices;
    cbn [tensor_rows];
    rewrite (nth_lookup_Some _ _ _ _ (index_rows_lookup b 0 i t Hi)).
  - reflexivity.
  - cbn [nth].
    pose proof (size_le_sum b i t Hi). pose proof (size_nonneg t).
    rewrite to_int64_id; unfold INT64_MAX in *; lia.
Qed.

Lemma concat_eq_lengths {A} (l k : list (list A)) :
  concat l = concat k ->
  map (@length A) l = map (@length A) k ->
  l = k.
Proof.
  revert k. induction l as [|x l IH]; intros [|y k] Hc Hl; try discriminate;
    [reflexivity|].
  cbn [concat map] in *. injection Hl as Hxy Hl.
  destruct (app_inj_1 _ _ _ _ Hxy Hc) as [-> Hc'].
  f_equal. apply IH; assumption.
Qed.

(** What [ConcatInputTensors] produces has a supported element type and
    rank at least one. *)
Lemma ConcatInputTensors_loop_types (b : Batch) (ctx : OpKernelContext)
    (edges : list nat) :
  forall acc outs,
    ConcatInputTensors_loop TF_CALL_ALL_TYPES allowed b ctx edges acc
    = (OK, outs) ->
    Forall (fun t => TF_CALL_ALL_TYPES (dtype t) = true /\ 0 < dims t) acc ->
    Forall (fun t => TF_CALL_ALL_TYPES (dtype t) = true /\ 0 < dims t) outs.
Proof.
  induction edges as [|i edges IH]; intros acc outs; cbn [ConcatInputTensors_loop].
  - intros [= <-] H. exact H.
  - destruct (edge_inputs b i) as [l|]; [|discriminate].
    destruct (_ && _); [discriminate|].
    destruct (TensorOps.Concat _ _ _) as [[|c m] t] eqn:EC; [|discriminate].
    intros H Hacc. apply (IH _ _ H).
    apply Forall_app. split; [exact Hacc|]. constructor; [|constructor].
    destruct (Concat_ok_inv _ _ _ _ EC)
      as (first & rest & _ & Ht & _ & _ & _ & ->).
    split; [exact Ht | simpl; lia].
Qed.

Lemma same_dim0_same_lengths (l k : list Tensor) :
  map (fun x => dim_size x 0) l = map (fun x => dim_size x 0) k ->
  map (@length Row) (map tensor_rows l) = map (@length Row) (map tensor_rows k).
Proof.
  revert k. induction l as [|x l IH]; intros [|y k] H; try discriminate;
    [reflexivity|].
  cbn [map] in *. injection H as Hxy H. rewrite !dim0_rows in Hxy.
  f_equal; [lia | exact (IH _ H)].
Qed.

End BatchToUnbatch.

(** X13: from Batch to Unbatch.  Let [data] be the tensor
    [ConcatInputTensors] made for input edge [i] of a batch and [index] the
    tensor [EmitIndexTensor] set for it.  [UnbatchResource::Compute] on a
    context with these two inputs reads the keys of the tasks from the index,
    and its split of [data] gives, piece by piece, the rows of the tasks'
    inputs of edge [i]; the rows of padding are left out. *)
Theorem Batch_then_Unbatch
    (TF_CALL_ALL_TYPES : DataType -> bool)
    (IsInnerDimsSizeAligned : Tensor -> bool) (allowed : list Z)
    (b : BatchResource.Batch) (cctx ectx uctx : OpKernelContext)
    (output_index : Z) (w we : World) (outs : list Tensor) (i : nat)
    (data index : Tensor) :
  sum_list (map BatchResource.size b) <= INT_MAX ->
  Forall (fun a => a <= INT_MAX) allowed ->
  Z.of_nat (length (BatchResource.inputs (BatchResource.task b 0))) <= INT_MAX ->
  Forall uniform_dim0 b ->
  BatchResource.ConcatInputTensors TF_CALL_ALL_TYPES allowed b cctx = (OK, outs) ->
  outs !! i = Some data ->
  BatchResource.EmitIndexTensor ectx b output_index w = (OK, we) ->
  ctx_output we !! (ctx_id ectx, output_index) = Some index ->
  input uctx 0 = data ->
  input uctx 1 = index ->
  IsInnerDimsSizeAligned data = true \/ ctx_allocate uctx = OK ->
  batch_keys_of uctx = map BatchResource.guid b
  /\ batch_sizes_of uctx = map BatchResource.size b
  /\ exists pieces ts,
       TensorOps.Split TF_CALL_ALL_TYPES IsInnerDimsSizeAligned uctx
         (input uctx 0) (batch_sizes_of uctx) = (OK, pieces)
       /\ BatchResource.edge_inputs b i = Some ts
       /\ map tensor_rows pieces = map tensor_rows ts.
Proof.
  intros Hsum Hallowed Hedges Hu Hconc Hi Hemit Hidx Hdata Hindex Halloc.
  destruct (padding_amount_exact allowed b Hsum Hallowed) as (Eb & Hle & Epad).
  pose proof (sum_sizes_nonneg b) as H0.
  assert (Hsum64 : sum_list (map BatchResource.size b) <= INT64_MAX)
    by (unfold INT_MAX, INT64_MAX in *; lia).
  (* the index *)
  assert (Ei : index = Rows BatchResource.DT_INT64 [3]
                         (index_rows 0 b)).
  { destruct (ctx_allocate ectx) as [|c m] eqn:Ea.
    - rewrite (EmitIndexTensor_tensor _ _ _ _ Ea Hsum64) in Hemit.
      injection Hemit as <-. simpl in Hidx. rewrite lookup_insert_eq in Hidx.
      congruence.
    - unfold BatchResource.EmitIndexTensor in Hemit. rewrite Ea in Hemit.
      discriminate. }
  rewrite Ei in Hindex.
  destruct (index_rows_read b uctx Hsum64 Hindex) as [Hkeys Hsizes].
  split; [exact Hkeys|]. split; [exact Hsizes|].
  (* the data *)
  unfold BatchResource.ConcatInputTensors in Hconc.
  destruct (BatchResource.num_tasks b =? 0); [discriminate|].
  rewrite to_int_id in Hconc by (unfold INT_MAX in *; lia).
  rewrite Nat2Z.id in Hconc.
  pose proof (ConcatInputTensors_loop_types TF_CALL_ALL_TYPES allowed _ _ _ _ _
                Hconc (Forall_nil_2 _)) as Htypes.
  apply ConcatInputTensors_loop_ok in Hconc.
  destruct Hconc as (news & -> & HF). rewrite app_nil_l in Hi, Htypes.
  destruct (Forall2_lookup_r _ _ _ _ _ HF Hi) as (i' & Hi' & Hedge).
  apply lookup_seq in Hi'. destruct Hi' as [-> _]. simpl in Hedge.
  assert (Hpad : 0 <= BatchResource.padding_amount allowed b) by lia.
  pose proof (edge_concatenated_dim0 allowed b i data Hu Hpad Hedge) as Hd0.
  destruct Hedge as (ts & Ets & Hrows).
  assert (Ht : TF_CALL_ALL_TYPES (dtype data) = true /\ 0 < dims data).
  { rewrite List.Forall_forall in Htypes. apply Htypes.
    apply list_elem_of_In. eapply list_elem_of_lookup_2; exact Hi. }
  destruct Ht as [Ht Hrank].
  rewrite Hsizes, Hdata.
  assert (Hnn : Forall (fun s => 0 <= s) (map BatchResource.size b)).
  { apply List.Forall_forall. intros s Hs. apply in_map_iff in Hs.
    destruct Hs as (t & <- & _). apply size_nonneg. }
  assert (Hty : Forall int64_value (map BatchResource.size b))
    by (apply int64_value_sum; assumption).
  assert (ES := Split_ok_intro TF_CALL_ALL_TYPES IsInnerDimsSizeAligned uctx data
                  (map BatchResource.size b) Ht Hrank Hnn ltac:(lia) Hsum64
                  ltac:(destruct Halloc; auto)).
  eexists _, ts. split; [exact ES|]. split; [exact Ets|].
  apply concat_eq_lengths.
  - rewrite (Split_rows_take _ _ _ _ _ _ Hty ES).
    pose proof (edge_inputs_dim0 b i ts Hu Ets) as Hts.
    rewrite <- Hts, sum_dim0_concat, Nat2Z.id.
    destruct (BatchResource.padding_amount allowed b >? 0).
    + destruct Hrows as (first & rest & _ & ->). apply take_app_length.
    + rewrite Hrows. apply firstn_all.
  - apply same_dim0_same_lengths.
    rewrite (Split_dim0 _ _ _ _ _ _ Hty ES).
    symmetry. exact (edge_inputs_dim0 b i ts Hu Ets).
Qed.

Lemma Batch_then_Unbatch_witness :
  batch_keys_of
    (Examples.unbatch_ctx 2 [[1; 2]; [3; 4]; [5; 6]; [1; 2]]
       [[11; 0; 2]; [12; 2; 3]] 12)
  = map BatchResource.guid Examples.batch
  /\ batch_sizes_of
       (Examples.unbatch_ctx 2 [[1; 2]; [3; 4]; [5; 6]; [1; 2]]
          [[11; 0; 2]; [12; 2; 3]] 12)
     = map BatchResource.size Examples.batch
  /\ exists pieces ts,
       TensorOps.Split Examples.all_types Examples.aligned
         (Examples.unbatch_ctx 2 [[1; 2]; [3; 4]; [5; 6]; [1; 2]]
            [[11; 0; 2]; [12; 2; 3]] 12)
         (input (Examples.unbatch_ctx 2 [[1; 2]; [3; 4]; [5; 6]; [1; 2]]
                   [[11; 0; 2]; [12; 2; 3]] 12) 0)
         (batch_sizes_of
            (Examples.unbatch_ctx 2 [[1; 2]; [3; 4]; [5; 6]; [1; 2]]
               [[11; 0; 2]; [12; 2; 3]] 12))
       = (OK, pieces)
       /\ BatchResource.edge_inputs Examples.batch 0 = Some ts
       /\ map tensor_rows pieces = map tensor_rows ts.
Proof.
  apply (Batch_then_Unbatch Examples.all_types Examples.aligned [2; 4]
           Examples.batch (Examples.ctx 2) (Examples.ctx 2)
           (Examples.unbatch_ctx 2 [[1; 2]; [3; 4]; [5; 6]; [1; 2]]
              [[11; 0; 2]; [12; 2; 3]] 12)
           1 Examples.world
           (set_output (Examples.ctx 2) 1
              (Rows 9%nat [3] [[11; 0; 2]; [12; 2; 3]]) Examples.world)
           [Rows 1%nat [2] [[1; 2]; [3; 4]; [5; 6]; [1; 2]]] 0
           (Rows 1%nat [2] [[1; 2]; [3; 4]; [5; 6]; [1; 2]])
           (Rows 9%nat [3] [[11; 0; 2]; [12; 2; 3]])).
  - vm_compute. discriminate.
  - repeat constructor; vm_compute; discriminate.
  - vm_compute. discriminate.
  - repeat constructor.
  - vm_compute. reflexivity.
  - reflexivity.
  - reflexivity.
  - simpl. apply lookup_insert_eq.
  - reflexivity.
  - reflexivity.
  - left. reflexivity.
Defined.

(** ** ProcessBatch: the callbacks on every path *)

Section ProcessBatchCallbacks.

Import BatchResource.

Variable TF_CALL_ALL_TYPES : DataType -> bool.
Variable allowed : list Z.

Lemma and_then_calls log (b : Batch) fin (f : Flow) (k : World -> Flow) :
  flow_calls log b [] f ->
  (forall w1, done_log w1 = log -> flow_calls log b fin (k w1)) ->
  flow_calls log b fin (and_then f k).
Proof.
  destruct f as [w'|w']; simpl; intros H Hk.
  - apply Hk. rewrite H. apply app_nil_r.
  - exact H.
Qed.

Lemma for_each_calls {A} log (b : Batch) (l : list A)
    (body : A -> World -> Flow) :
  (forall x w, In x l -> done_log w = log -> flow_calls log b [] (body x w)) ->
  forall w, done_log w = log -> flow_calls log b [] (for_each l body w).
Proof.
  induction l as [|x l IH]; intros H w Hw; cbn [for_each].
  - simpl. rewrite Hw. symmetry. apply app_nil_r.
  - apply and_then_calls; [apply H; [left; reflexivity | exact Hw]|].
    intros w1 Hw1. apply IH; [|exact Hw1].
    intros y w0 Hy. apply H. right. exact Hy.
Qed.

Lemma OP_REQUIRES_OK_ASYNC_calls log (b : Batch) (t : BatchTask) (st : Status)
    (w : World) :
  In t b -> done_log w = log ->
  flow_calls log b [] (OP_REQUIRES_OK_ASYNC (context t) st (done_callback t) w).
Proof.
  intros Ht Hw. unfold OP_REQUIRES_OK_ASYNC.
  destruct st as [|c m]; cbn [ok].
  - simpl. rewrite Hw. symmetry. apply app_nil_r.
  - simpl. exists t. split; [exact Ht|]. split; [rewrite Hw; reflexivity|].
    rewrite status_of_insert.
    destruct (decide (ctx_id (context t) = ctx_id (context t))); [|congruence].
    unfold Status_Update.
    destruct (status_of (ctx_status w) (ctx_id (context t))); reflexivity.
Qed.

Lemma allocate_output_calls log (b : Batch) (t : BatchTask) (i : Z) (x : Tensor)
    (w : World) :
  In t b -> done_log w = log ->
  flow_calls log b []
    (let '(st, w0) := allocate_output (context t) i x w in
     OP_REQUIRES_OK_ASYNC (context t) st (done_callback t) w0).
Proof.
  intros Ht Hw. unfold allocate_output.
  destruct (ctx_allocate (context t)) as [|c m];
    apply OP_REQUIRES_OK_ASYNC_calls; auto.
Qed.

Lemma foldl_call_done (l : list BatchTask) (w : World) :
  done_log (foldl (fun w t => call_done (done_callback t) w) w l)
  = done_log w ++ map done_callback l.
Proof.
  revert w. induction l as [|t l IH]; intros w; simpl.
  - symmetry. apply app_nil_r.
  - rewrite IH. simpl. rewrite <- app_assoc. reflexivity.
Qed.

End ProcessBatchCallbacks.

(** X14: on every path through [ProcessBatch], either the callback of every
    task of the batch is called, once each and in the order of the batch, or
    the function returns early having failed the context of one task and
    called the callback of that task and of no other.  When [ValidateBatch]
    or [ConcatInputTensors] fails, that task is the last one. *)
Theorem ProcessBatch_callbacks
    (TF_CALL_ALL_TYPES : DataType -> bool) (allowed : list Z)
    (b : BatchResource.Batch) (w : World) :
  (done_log (BatchResource.ProcessBatch TF_CALL_ALL_TYPES allowed b w)
   = done_log w ++ map BatchResource.done_callback b
   \/ exists t,
        In t b
        /\ done_log (BatchResource.ProcessBatch TF_CALL_ALL_TYPES allowed b w)
           = done_log w ++ [BatchResource.done_callback t]
        /\ ok (status_of
                 (ctx_status (BatchResource.ProcessBatch TF_CALL_ALL_TYPES
                                allowed b w))
                 (ctx_id (BatchResource.context t))) = false)
  /\ (forall st,
        b <> [] ->
        st <> OK ->
        BatchResource.ValidateBatch b = st
        \/ (BatchResource.ValidateBatch b = OK
            /\ fst (BatchResource.ConcatInputTensors TF_CALL_ALL_TYPES allowed b
                      (BatchResource.context (BatchResource.last_task b))) = st) ->
        BatchResource.ProcessBatch TF_CALL_ALL_TYPES allowed b w
        = call_done (BatchResource.done_callback (BatchResource.last_task b))
            (SetStatus (BatchResource.context (BatchResource.last_task b)) st w)).
Proof.
  split.
  - unfold BatchResource.ProcessBatch.
    destruct b as [|t0 b0] eqn:Eb;
      [left; simpl; symmetry; apply app_nil_r|].
    rewrite <- Eb. assert (Hb : b <> []) by (rewrite Eb; discriminate).
    replace (length b =? 0)%nat with false by (rewrite Eb; reflexivity).
    pose proof (last_task_In b Hb) as Hlast.
    match goal with
    | |- context [BatchResource.flow_world ?f] =>
        assert (H : flow_calls (done_log w) b
                      (map BatchResource.done_callback b) f)
    end.
    { apply and_then_calls;
        [apply OP_REQUIRES_OK_ASYNC_calls; [exact Hlast | reflexivity]|].
      intros w1 Hw1.
      destruct (BatchResource.ConcatInputTensors _ _ _ _)
        as [concat_status concatenated_tensors].
      apply and_then_calls;
        [apply OP_REQUIRES_OK_ASYNC_calls; [exact Hlast | exact Hw1]|].
      intros w2 Hw2.
      apply and_then_calls.
      { apply for_each_calls; [|exact Hw2]. intros i w3 _ Hw3.
        apply for_each_calls; [|exact Hw3]. intros t w4 Ht Hw4.
        apply allocate_output_calls; [apply but_last_In; exact Ht | exact Hw4]. }
      intros w3 Hw3.
      apply and_then_calls.
      { apply for_each_calls; [|exact Hw3]. intros t w4 Ht Hw4.
        apply allocate_output_calls; [apply but_last_In; exact Ht | exact Hw4]. }
      intros w4 Hw4.
      apply and_then_calls.
      { apply for_each_calls; [|exact Hw4]. intros t w5 Ht Hw5.
        apply allocate_output_calls; [exact Ht | exact Hw5]. }
      intros w5 Hw5.
      unfold BatchResource.EmitIndexTensor.
      destruct (ctx_allocate (BatchResource.context (BatchResource.last_task b)))
        as [|c m] eqn:Ea.
      - cbn [BatchResource.OP_REQUIRES_OK_ASYNC ok BatchResource.and_then].
        simpl. rewrite foldl_call_done. simpl. rewrite Hw5. reflexivity.
      - apply and_then_calls;
          [apply OP_REQUIRES_OK_ASYNC_calls; [exact Hlast | exact Hw5]|].
        intros w6 Hw6. simpl. rewrite foldl_call_done, Hw6. reflexivity. }
    match goal with
    | |- context [BatchResource.flow_world ?f] => destruct f as [w'|w']
    end; simpl in H |- *; [left; exact H | right; exact H].
  - intros st Hb Hst Hfail. unfold BatchResource.ProcessBatch.
    replace (length b =? 0)%nat with false
      by (destruct b; [congruence | reflexivity]).
    destruct Hfail as [Hv|[Hv Hc]].
    + rewrite Hv. destruct st as [|c m]; [congruence|]. reflexivity.
    + rewrite Hv. cbn [BatchResource.OP_REQUIRES_OK_ASYNC ok BatchResource.and_then].
      destruct (BatchResource.ConcatInputTensors _ _ _ _)
        as [concat_status concatenated_tensors].
      simpl in Hc. subst concat_status.
      destruct st as [|c m]; [congruence|]. reflexivity.
Qed.

(** ** SplitOutputTensors: what every task receives *)

Section SplitOutputDelivery.

Import BatchResource.

Variable allowed : list Z.
Variable tensor_Split : Tensor -> list Z -> Status * list Tensor.

(** One assignment of the inner loop of [SplitOutputTensors]. *)
Lemma write_same (t : BatchTask) (i : nat) (x : Tensor) (w : World) :
  (is_partial t = true -> is_Some (delivered t i w)) ->
  delivered t i
    (if is_partial t then assign_shared_output t i x w
     else set_output (context t) (Z.of_nat i) x w)
  = Some x.
Proof.
  unfold delivered. destruct (is_partial t); intros H.
  - specialize (H eq_refl). cbn [assign_shared_output set_shared_output shared_output].
    rewrite lookup_insert_eq.
    destruct (shared_output w !! output t) as [m|]; [|destruct H; discriminate].
    change (default [] (Some m)) with m. unfold TensorMatrix in *.
    rewrite list_lookup_alter_eq.
    destruct (m !! Z.to_nat (split_index t)) as [row|]; [|destruct H; discriminate].
    cbn [fmap option_fmap option_map].
    apply list_lookup_insert_eq. apply lookup_lt_is_Some. exact H.
  - cbn [set_output ctx_output]. apply lookup_insert_eq.
Qed.

Lemma write_other (t t' : BatchTask) (i i' : nat) (x : Tensor) (w : World) :
  i' <> i \/ slot_of t' <> slot_of t ->
  delivered t' i'
    (if is_partial t then assign_shared_output t i x w
     else set_output (context t) (Z.of_nat i) x w)
  = delivered t' i' w.
Proof.
  unfold delivered, slot_of. intros H.
  destruct (is_partial t') eqn:Ep', (is_partial t) eqn:Ep;
    cbn [assign_shared_output set_shared_output set_output shared_output
         ctx_output]; try reflexivity.
  - destruct (decide (output t = output t')) as [Eo|Eo].
    + rewrite <- Eo, lookup_insert_eq.
      destruct (shared_output w !! output t) as [m|].
      * change (default [] (Some m)) with m. unfold TensorMatrix in *.
        destruct (decide (Z.to_nat (split_index t) = Z.to_nat (split_index t')))
          as [Er|Er].
        -- rewrite <- Er, list_lookup_alter_eq.
           destruct (m !! Z.to_nat (split_index t)) as [row|]; [|reflexivity].
           cbn [fmap option_fmap option_map].
           apply list_lookup_insert_ne.
           destruct H as [H|H]; [congruence|].
           exfalso. apply H. rewrite Eo, Er. reflexivity.
        -- rewrite list_lookup_alter_ne by exact Er. reflexivity.
      * change (default [] (@None TensorMatrix)) with (@nil (list Tensor)).
        destruct (Z.to_nat (split_index t')); reflexivity.
    + rewrite lookup_insert_ne by exact Eo. reflexivity.
  - apply lookup_insert_ne. intros [= Ec Ei].
    apply Nat2Z.inj in Ei.
    destruct H as [H|H]; [congruence|]. apply H. rewrite Ec. reflexivity.
Qed.

(** The inner loop, over tasks with their positions. *)
Lemma scatter_pairs (i : nat) (split_tensor : list Tensor) :
  forall (l : list (nat * BatchTask)) (w : World),
    List.NoDup (map (fun jt => slot_of (snd jt)) l) ->
    (forall jt, In jt l -> is_partial (snd jt) = true ->
       is_Some (delivered (snd jt) i w)) ->
    (forall jt, In jt l ->
       delivered (snd jt) i
         (foldl (fun w jt =>
                   let x := nth (fst jt) split_tensor (Scalar 0%nat 0) in
                   if is_partial (snd jt) then assign_shared_output (snd jt) i x w
                   else set_output (context (snd jt)) (Z.of_nat i) x w) w l)
       = Some (nth (fst jt) split_tensor (Scalar 0%nat 0)))
    /\ (forall t' i',
          i' <> i \/ ~ In (slot_of t') (map (fun jt => slot_of (snd jt)) l) ->
          delivered t' i'
            (foldl (fun w jt =>
                      let x := nth (fst jt) split_tensor (Scalar 0%nat 0) in
                      if is_partial (snd jt) then assign_shared_output (snd jt) i x w
                      else set_output (context (snd jt)) (Z.of_nat i) x w) w l)
          = delivered t' i' w).
Proof.
  induction l as [|jt l IH]; intros w Hnd Hpre.
  - split; [intros jt []|]. intros t' i' _. reflexivity.
  - apply List.NoDup_cons_iff in Hnd. destruct Hnd as [Hnot Hnd].
    cbn [foldl]. cbv zeta.
    match goal with
    | |- context [foldl ?f ?w1 l] =>
        destruct (IH w1 Hnd) as [IH1 IH2]
    end.
    { intros jt' Hin Hp. rewrite write_other.
      - apply Hpre; [right; exact Hin | exact Hp].
      - right. intros E. apply Hnot. rewrite <- E.
        apply (in_map (fun jt => slot_of (snd jt)) l jt' Hin). }
    split.
    + intros jt' [<-|Hin].
      * rewrite IH2 by (right; exact Hnot).
        apply write_same. intros Hp. apply Hpre; [left; reflexivity | exact Hp].
      * apply IH1. exact Hin.
    + intros t' i' H. rewrite IH2.
      * apply write_other. destruct H as [H|H]; [left; exact H|].
        right. intros E. apply H. left. symmetry. exact E.
      * destruct H as [H|H]; [left; exact H|].
        right. intros Hin. apply H. right. exact Hin.
Qed.

Lemma imap_pairs_slots (b : Batch) :
  map (fun jt : nat * BatchTask => slot_of (snd jt)) (imap (fun j t => (j, t)) b)
  = map slot_of b.
Proof.
  change (map (fun jt : nat * BatchTask => slot_of (snd jt))
            (imap (fun j t => (j, t)) b))
    with ((fun jt : nat * BatchTask => slot_of (snd jt))
            <$> imap (fun j t => (j, t)) b).
  rewrite fmap_imap. apply list_eq. intros j.
  rewrite list_lookup_imap, list_lookup_fmap. reflexivity.
Qed.

(** The inner loop of [SplitOutputTensors] for output [i]. *)
Lemma scatter_output_delivers (i : nat) (split_tensor : list Tensor)
    (b : Batch) (w : World) :
  List.NoDup (map slot_of b) ->
  (forall t, In t b -> is_partial t = true -> is_Some (delivered t i w)) ->
  (forall j t, b !! j = Some t ->
     delivered t i (scatter_output i split_tensor b w)
     = Some (nth j split_tensor (Scalar 0%nat 0)))
  /\ (forall t' i', i' <> i ->
        delivered t' i' (scatter_output i split_tensor b w) = delivered t' i' w).
Proof.
  intros Hnd Hpre. unfold scatter_output.
  destruct (scatter_pairs i split_tensor (imap (fun j t => (j, t)) b) w)
    as [H1 H2].
  - rewrite imap_pairs_slots. exact Hnd.
  - intros jt Hin. apply list_elem_of_In, elem_of_lookup_imap in Hin.
    destruct Hin as (j & t & -> & Hj). simpl. apply Hpre.
    apply list_elem_of_In. eapply list_elem_of_lookup_2; exact Hj.
  - split.
    + intros j t Hj. apply (H1 (j, t)).
      apply list_elem_of_In, elem_of_lookup_imap. eauto.
    + intros t' i' Hi. apply H2. left. exact Hi.
Qed.

(** The outer loop of [SplitOutputTensors], from output [i] on. *)
Lemma SplitOutputTensors_loop_delivers (b : Batch) :
  List.NoDup (map slot_of b) ->
  forall (combined_outputs : list Tensor) (i : nat) (w w' : World),
    (forall t p, In t b -> is_partial t = true ->
       (p < length combined_outputs)%nat -> is_Some (delivered t (i + p) w)) ->
    SplitOutputTensors_loop allowed tensor_Split b i combined_outputs w
    = (OK, w') ->
    (forall p output_tensor,
       combined_outputs !! p = Some output_tensor ->
       exists split_tensor,
         tensor_Split output_tensor (task_sizes_plus_optional_padding allowed b)
         = (OK, split_tensor)
         /\ length split_tensor
            = length (task_sizes_plus_optional_padding allowed b)
         /\ dim_size output_tensor 0
            = to_int64 (to_size_t (batch_size b + padding_amount allowed b))
         /\ forall j t, b !! j = Some t ->
              delivered t (i + p) w'
              = Some (nth j split_tensor (Scalar 0%nat 0)))
    /\ (forall t' i', (i' < i)%nat -> delivered t' i' w' = delivered t' i' w).
Proof.
  intros Hnd. induction combined_outputs as [|output_tensor rest IH];
    intros i w w' Hpre; cbn [SplitOutputTensors_loop].
  - intros [= <-]. split; [intros p o Hp; discriminate | reflexivity].
  - destruct (dims output_tensor =? 0); [discriminate|].
    destruct (Z.eqb_spec (dim_size output_tensor 0)
                (to_int64 (to_size_t (batch_size b + padding_amount allowed b))))
      as [Hd|]; cbn [negb]; [|discriminate].
    destruct (tensor_Split output_tensor _) as [[|c m] split_tensor] eqn:ES;
      [|discriminate].
    destruct (Nat.eqb_spec (length split_tensor)
                (length (task_sizes_plus_optional_padding allowed b)))
      as [Hl|]; cbn [negb]; [|discriminate].
    intros H.
    destruct (scatter_output_delivers i split_tensor b w Hnd) as [S1 S2].
    { intros t Ht Hp. rewrite <- (Nat.add_0_r i).
      apply Hpre; [exact Ht | exact Hp | simpl; lia]. }
    destruct (IH (S i) (scatter_output i split_tensor b w) w') as [IH1 IH2];
      [|exact H|].
    { intros t p Ht Hp Hlt. rewrite S2 by lia.
      replace (S i + p)%nat with (i + S p)%nat by lia.
      apply Hpre; [exact Ht | exact Hp | simpl; lia]. }
    split.
    + intros [|p] o Hp; simpl in Hp.
      * injection Hp as <-. exists split_tensor.
        split; [exact ES|]. split; [exact Hl|]. split; [exact Hd|].
        intros j t Hj. rewrite Nat.add_0_r, IH2 by lia. apply S1. exact Hj.
      * destruct (IH1 p o Hp) as (st & E1 & E2 & E3 & E4).
        exists st. split; [exact E1|]. split; [exact E2|]. split; [exact E3|].
        intros j t Hj. replace (i + S p)%nat with (S i + p)%nat by lia.
        apply E4. exact Hj.
    + intros t' i' Hi. rewrite IH2 by lia. apply S2. lia.
Qed.

End SplitOutputDelivery.

(** X15: when [SplitOutputTensors] returns OK on tasks that write to
    different places, every combined output has the batch size plus the
    padding as its first dimension and was split by the tensor library into
    one piece per task (and one for the padding, which no task receives);
    piece [j] of output [i] is output [i] of the context of task [j], or
    entry [split_index][i] of the shared matrix when task [j] is partial. *)
Theorem SplitOutputTensors_delivers
    (allowed : list Z)
    (tensor_Split : Tensor -> list Z -> Status * list Tensor)
    (combined_outputs : list Tensor) (b : BatchResource.Batch) (w w' : World) :
  List.NoDup (map slot_of b) ->
  (forall t i, In t b -> BatchResource.is_partial t = true ->
     (i < length combined_outputs)%nat -> is_Some (delivered t i w)) ->
  BatchResource.SplitOutputTensors allowed tensor_Split combined_outputs b w
  = (OK, w') ->
  to_int (Z.of_nat (length combined_outputs))
  = num_outputs (BatchResource.context (BatchResource.task b 0))
  /\ forall i output_tensor,
       combined_outputs !! i = Some output_tensor ->
       exists split_tensor,
         tensor_Split output_tensor
           (BatchResource.task_sizes_plus_optional_padding allowed b)
         = (OK, split_tensor)
         /\ length split_tensor
            = length (BatchResource.task_sizes_plus_optional_padding allowed b)
         /\ dim_size output_tensor 0
            = to_int64 (to_size_t (BatchResource.batch_size b
                                   + BatchResource.padding_amount allowed b))
         /\ forall j t, b !! j = Some t ->
              delivered t i w' = Some (nth j split_tensor (Scalar 0%nat 0)).
Proof.
  intros Hnd Hpre. unfold BatchResource.SplitOutputTensors.
  destruct (BatchResource.num_tasks b <? 1); [discriminate|].
  destruct (Z.eqb_spec (to_int (Z.of_nat (length combined_outputs)))
              (num_outputs (BatchResource.context (BatchResource.task b 0))))
    as [Hn|]; cbn [negb]; [|discriminate].
  intros H. split; [exact Hn|].
  destruct (SplitOutputTensors_loop_delivers allowed tensor_Split b Hnd
              combined_outputs 0 w w' Hpre H) as [H1 _].
  exact H1.
Qed.

Lemma SplitOutputTensors_delivers_witness :
  to_int (Z.of_nat (length [Rows 1%nat [2] [[1; 2]; [3; 4]; [5; 6]; [1; 2]]]))
  = num_outputs (BatchResource.context (BatchResource.task Examples.batch 0))
  /\ forall i output_tensor,
       [Rows 1%nat [2] [[1; 2]; [3; 4]; [5; 6]; [1; 2]]] !! i
       = Some output_tensor ->
       exists split_tensor,
         Examples.slices output_tensor
           (BatchResource.task_sizes_plus_optional_padding [2; 4] Examples.batch)
         = (OK, split_tensor)
         /\ length split_tensor
            = length (BatchResource.task_sizes_plus_optional_padding [2; 4]
                        Examples.batch)
         /\ dim_size output_tensor 0
            = to_int64 (to_size_t (BatchResource.batch_size Examples.batch
                                   + BatchResource.padding_amount [2; 4]
                                       Examples.batch))
         /\ forall j t, Examples.batch !! j = Some t ->
              delivered t i
                (snd (BatchResource.SplitOutputTensors [2; 4] Examples.slices
                        [Rows 1%nat [2] [[1; 2]; [3; 4]; [5; 6]; [1; 2]]]
                        Examples.batch
                        (BatchResource.set_shared_output 2 [[Scalar 0%nat 0]]
                           Examples.world)))
              = Some (nth j split_tensor (Scalar 0%nat 0)).
Proof.
  apply (SplitOutputTensors_delivers [2; 4] Examples.slices
           [Rows 1%nat [2] [[1; 2]; [3; 4]; [5; 6]; [1; 2]]] Examples.batch
           (BatchResource.set_shared_output 2 [[Scalar 0%nat 0]] Examples.world)).
  - vm_compute. repeat constructor; simpl; intuition discriminate.
  - intros t i [<-|[<-|[]]] Hp Hi; [discriminate|].
    destruct i; [vm_compute; eauto | simpl in Hi; lia].
  - vm_compute. reflexivity.
Defined.

(** ** split_task_done_callback *)

Section SplitCallbackProofs.

Import BatchResource SplitCallback.

Variable TF_CALL_ALL_TYPES : DataType -> bool.
Variable moved_from : Tensor -> Tensor.
Variable unset_tensor : Tensor.
Variable input_task : BatchTask.

Lemma column_alter_ne (m : TensorMatrix) (i i' : nat) :
  i' <> i ->
  column (map (fun tensor_vector => alter moved_from i tensor_vector) m) i'
  = column m i'.
Proof.
  intros Hne. unfold column. rewrite map_map. apply map_ext. intros row.
  destruct (row !! i') as [x|] eqn:E.
  - rewrite (nth_lookup_Some _ _ _ _ E).
    apply nth_lookup_Some. rewrite list_lookup_alter_ne by congruence. exact E.
  - rewrite !nth_overflow; [reflexivity | |].
    + apply lookup_ge_None. exact E.
    + rewrite length_alter. apply lookup_ge_None. exact E.
Qed.

Lemma merge_output_spec (i : nat) (w : World) :
  done_log (merge_output TF_CALL_ALL_TYPES moved_from unset_tensor input_task i w)
  = done_log w
  /\ ctx_status (merge_output TF_CALL_ALL_TYPES moved_from unset_tensor
                   input_task i w)
     = ctx_status w
  /\ ctx_output (merge_output TF_CALL_ALL_TYPES moved_from unset_tensor
                   input_task i w)
     = <[(ctx_id (context input_task), Z.of_nat i) :=
           if ok (fst (merged_output TF_CALL_ALL_TYPES input_task
                         (task_matrix input_task w) i))
           then snd (merged_output TF_CALL_ALL_TYPES input_task
                       (task_matrix input_task w) i)
           else unset_tensor]> (ctx_output w)
  /\ status_of
       (shared_status (merge_output TF_CALL_ALL_TYPES moved_from unset_tensor
                         input_task i w)) (status input_task)
     = Status_Update (status_of (shared_status w) (status input_task))
         (fst (merged_output TF_CALL_ALL_TYPES input_task
                 (task_matrix input_task w) i))
  /\ forall i', i' <> i ->
       column (task_matrix input_task
                 (merge_output TF_CALL_ALL_TYPES moved_from unset_tensor
                    input_task i w)) i'
       = column (task_matrix input_task w) i'.
Proof.
  unfold merge_output, merged_output, task_matrix.
  destruct (TensorOps.Concat TF_CALL_ALL_TYPES (context input_task)
              (column (default [] (shared_output w !! output input_task)) i))
    as [[|c m] t]; cbn [ok negb fst snd].
  - repeat split; cbn [set_output set_shared_output done_log ctx_status
                        ctx_output shared_status shared_output].
    + symmetry. apply Status_Update_OK.
    + intros i' Hne. rewrite lookup_insert_eq. apply column_alter_ne. exact Hne.
  - unfold ThreadSafeStatus_Update. cbn [ok].
    repeat split; cbn [set_output set_shared_output done_log ctx_status
                        ctx_output shared_status shared_output].
    + rewrite status_of_insert, decide_True by reflexivity. reflexivity.
    + intros i' Hne. rewrite lookup_insert_eq. apply column_alter_ne. exact Hne.
Qed.

Lemma Status_Update_first_error (s a : Status) (rest : list Status) :
  Status_Update (Status_Update s a) (first_error rest)
  = Status_Update s (first_error (a :: rest)).
Proof. destruct s, a; reflexivity. Qed.

(** The loop over the outputs. *)
Lemma merge_outputs_spec (l : list nat) :
  List.NoDup l ->
  forall w,
    let w' := foldl (fun w i => merge_output TF_CALL_ALL_TYPES moved_from
                                  unset_tensor input_task i w) w l in
    done_log w' = done_log w
    /\ ctx_status w' = ctx_status w
    /\ (forall i, In i l ->
          ctx_output w' !! (ctx_id (context input_task), Z.of_nat i)
          = Some (if ok (fst (merged_output TF_CALL_ALL_TYPES input_task
                                (task_matrix input_task w) i))
                  then snd (merged_output TF_CALL_ALL_TYPES input_task
                              (task_matrix input_task w) i)
                  else unset_tensor))
    /\ (forall key, (forall i, In i l ->
                       key <> (ctx_id (context input_task), Z.of_nat i)) ->
          ctx_output w' !! key = ctx_output w !! key)
    /\ status_of (shared_status w') (status input_task)
       = Status_Update (status_of (shared_status w) (status input_task))
           (first_error
              (map (fun i => fst (merged_output TF_CALL_ALL_TYPES input_task
                                    (task_matrix input_task w) i)) l))
    /\ (forall i, ~ In i l ->
          column (task_matrix input_task w') i
          = column (task_matrix input_task w) i).
Proof.
  induction l as [|i l IH]; intros Hnd w; cbn [foldl]; cbv zeta.
  - split; [reflexivity|]. split; [reflexivity|]. split; [intros i []|].
    split; [reflexivity|].
    split; [symmetry; apply Status_Update_OK | reflexivity].
  - apply List.NoDup_cons_iff in Hnd. destruct Hnd as [Hnot Hnd].
    destruct (merge_output_spec i w) as (M1 & M2 & M3 & M4 & M5).
    destruct (IH Hnd (merge_output TF_CALL_ALL_TYPES moved_from unset_tensor
                        input_task i w)) as (H1 & H2 & H3 & H4 & H5 & H6).
    assert (Hcol : forall i', In i' l ->
              merged_output TF_CALL_ALL_TYPES input_task
                (task_matrix input_task
                   (merge_output TF_CALL_ALL_TYPES moved_from unset_tensor
                      input_task i w)) i'
              = merged_output TF_CALL_ALL_TYPES input_task
                  (task_matrix input_task w) i').
    { intros i' Hi'. unfold merged_output. rewrite M5; [reflexivity|]. congruence. }
    split; [congruence|]. split; [congruence|].
    split.
    { intros i' [<-|Hi'].
      - rewrite H4, M3; [apply lookup_insert_eq|].
        intros i' Hi' [= E]. apply Nat2Z.inj in E. congruence.
      - rewrite (H3 i' Hi'), (Hcol i' Hi'). reflexivity. }
    split.
    { intros key Hkey. rewrite H4, M3.
      - apply lookup_insert_ne. intros E. apply (Hkey i (or_introl eq_refl)).
        symmetry. exact E.
      - intros i' Hi'. apply Hkey. right. exact Hi'. }
    split.
    { rewrite H5, M4. cbn [map].
      rewrite <- Status_Update_first_error. f_equal. f_equal.
      apply map_ext_in. intros i' Hi'. rewrite (Hcol i' Hi'). reflexivity. }
    intros i' Hi'. rewrite H6, M5; [reflexivity | |].
    + intros ->. apply Hi'. left. reflexivity.
    + intros Hin. apply Hi'. right. exact Hin.
Qed.

End SplitCallbackProofs.

(** X16: [split_task_done_callback] calls the callback of the task once and
    nothing else; output [i] of the task's context is the concatenation of
    entry [i] of the rows of the shared matrix, for every [i] the
    concatenation succeeds for; and the status it sets on the context is the
    shared status of the splits when that is an error, and otherwise the
    first error among the concatenations, if any. *)
Theorem split_task_done_callback_spec
    (TF_CALL_ALL_TYPES : DataType -> bool)
    (moved_from : Tensor -> Tensor) (unset_tensor : Tensor)
    (input_task : BatchResource.BatchTask) (w : World) :
  let m := default [] (shared_output w !! BatchResource.output input_task) in
  let ctx := BatchResource.context input_task in
  let merged i := TensorOps.Concat TF_CALL_ALL_TYPES ctx (SplitCallback.column m i) in
  let w' := SplitCallback.split_task_done_callback TF_CALL_ALL_TYPES moved_from
              unset_tensor input_task w in
  done_log w' = done_log w ++ [BatchResource.done_callback input_task]
  /\ (forall i t,
        (i < Z.to_nat (num_outputs ctx))%nat ->
        merged i = (OK, t) ->
        ctx_output w' !! (ctx_id ctx, Z.of_nat i) = Some t)
  /\ status_of (ctx_status w') (ctx_id ctx)
     = Status_Update (status_of (ctx_status w) (ctx_id ctx))
         (Status_Update
            (status_of (shared_status w) (BatchResource.status input_task))
            (first_error
               (map (fun i => fst (merged i))
                  (seq 0 (Z.to_nat (num_outputs ctx)))))).
Proof.
  cbv zeta. unfold SplitCallback.split_task_done_callback.
  destruct (merge_outputs_spec TF_CALL_ALL_TYPES moved_from unset_tensor
              input_task (seq 0 (Z.to_nat (num_outputs
                                             (BatchResource.context input_task))))
              (List.seq_NoDup _ _) w)
    as (H1 & H2 & H3 & _ & H5 & _).
  cbv zeta in H1, H2, H3, H5. unfold merged_output, task_matrix in H3, H5.
  split; [simpl; rewrite H1; reflexivity|].
  split.
  - intros i t Hi Ht. cbn [call_done SetStatus ctx_output].
    rewrite H3 by (apply in_seq; lia). rewrite Ht. reflexivity.
  - cbn [call_done SetStatus ctx_status].
    rewrite status_of_insert, decide_True by reflexivity.
    rewrite H2, H5. reflexivity.
Qed.

(** ** UnbatchResource::EnforceTimeout *)

Section Timeout.

Import UnbatchResource.

(** Failing and calling the evicted callbacks, one after the other. *)
Lemma evict_fold (e : Status) (l : list (Z * WaitingCallback)) :
  forall w,
    done_log (foldl (fun w kv =>
                       call_done (done (snd kv))
                         (SetStatus (context (snd kv)) e w)) w l)
    = done_log w ++ map (fun kv => done (snd kv)) l
    /\ ctx_output (foldl (fun w kv =>
                            call_done (done (snd kv))
                              (SetStatus (context (snd kv)) e w)) w l)
       = ctx_output w
    /\ forall id,
         (In id (map (fun kv => ctx_id (context (snd kv))) l) ->
          status_of (ctx_status (foldl (fun w kv =>
                                          call_done (done (snd kv))
                                            (SetStatus (context (snd kv)) e w))
                                   w l)) id
          = Status_Update (status_of (ctx_status w) id) e)
         /\ (~ In id (map (fun kv => ctx_id (context (snd kv))) l) ->
             status_of (ctx_status (foldl (fun w kv =>
                                             call_done (done (snd kv))
                                               (SetStatus (context (snd kv)) e w))
                                      w l)) id
             = status_of (ctx_status w) id).
Proof.
  induction l as [|kv l IH]; intros w; cbn [foldl map].
  - split; [symmetry; apply app_nil_r|]. split; [reflexivity|].
    intros id. split; [intros [] | reflexivity].
  - destruct (IH (call_done (done (snd kv)) (SetStatus (context (snd kv)) e w)))
      as (H1 & H2 & H3).
    split; [rewrite H1; simpl; rewrite <- app_assoc; reflexivity|].
    split; [rewrite H2; reflexivity|].
    intros id. destruct (H3 id) as [Hin Hout].
    assert (E : status_of
                  (ctx_status (call_done (done (snd kv))
                                 (SetStatus (context (snd kv)) e w))) id
                = if decide (ctx_id (context (snd kv)) = id)
                  then Status_Update (status_of (ctx_status w)
                                        (ctx_id (context (snd kv)))) e
                  else status_of (ctx_status w) id).
    { cbn [call_done SetStatus ctx_status]. apply status_of_insert. }
    destruct (in_dec Nat.eq_dec id (map (fun kv => ctx_id (context (snd kv))) l))
      as [Hl|Hl].
    + split; [|intros Hn; exfalso; apply Hn; right; exact Hl].
      intros _. rewrite (Hin Hl), E.
      destruct (decide (ctx_id (context (snd kv)) = id)) as [<-|_];
        [apply Status_Update_twice | reflexivity].
    + split.
      * intros [Hid|Hid]; [|contradiction].
        rewrite (Hout Hl), E, decide_True by exact Hid. rewrite Hid. reflexivity.
      * intros Hn. rewrite (Hout Hl), E, decide_False; [reflexivity|].
        intros Hid. apply Hn. left. exact Hid.
Qed.

End Timeout.

(** X17: [EnforceTimeout] keeps exactly the entries whose deadline is not
    before [now]; the callbacks it evicts are those whose deadline is before
    [now], each once: the callback of each is called once, its context fails
    with DeadlineExceeded (an earlier error of the context stays), and no
    output is set. *)
Theorem EnforceTimeout_spec (now : Z) (s : UnbatchResource.State) (w : World) :
  (forall k t,
     UnbatchResource.waiting_tensors_
       (fst (UnbatchResource.EnforceTimeout now s w)) !! k = Some t
     <-> UnbatchResource.waiting_tensors_ s !! k = Some t
         /\ now <= UnbatchResource.wt_deadline_micros t)
  /\ (forall k c,
        UnbatchResource.waiting_callbacks_
          (fst (UnbatchResource.EnforceTimeout now s w)) !! k = Some c
        <-> UnbatchResource.waiting_callbacks_ s !! k = Some c
            /\ now <= UnbatchResource.wc_deadline_micros c)
  /\ exists evicted : list (Z * UnbatchResource.WaitingCallback),
       NoDup evicted
       /\ (forall k c,
             (k, c) ∈ evicted
             <-> UnbatchResource.waiting_callbacks_ s !! k = Some c
                 /\ UnbatchResource.wc_deadline_micros c < now)
       /\ done_log (snd (UnbatchResource.EnforceTimeout now s w))
          = done_log w ++ map (fun kv => UnbatchResource.done (snd kv)) evicted
       /\ ctx_output (snd (UnbatchResource.EnforceTimeout now s w))
          = ctx_output w
       /\ forall k c,
            (k, c) ∈ evicted ->
            status_of (ctx_status (snd (UnbatchResource.EnforceTimeout now s w)))
              (ctx_id (UnbatchResource.context c))
            = Status_Update
                (status_of (ctx_status w) (ctx_id (UnbatchResource.context c)))
                (Error DeadlineExceeded
                   "Batched data did not arrive within timeout window.").
Proof.
  unfold UnbatchResource.EnforceTimeout. cbn [fst snd].
  split; [|split].
  - intros k t. cbn [UnbatchResource.waiting_tensors_].
    rewrite map_lookup_filter_Some. cbn [snd]. split; intros [H1 H2]; split; auto; lia.
  - intros k c. cbn [UnbatchResource.waiting_callbacks_].
    rewrite map_lookup_filter_Some. cbn [snd]. split; intros [H1 H2]; split; auto; lia.
  - exists (filter (fun kv => UnbatchResource.wc_deadline_micros (snd kv) < now)
              (map_to_list (UnbatchResource.waiting_callbacks_ s))).
    destruct (evict_fold
                (Error DeadlineExceeded
                   "Batched data did not arrive within timeout window.")
                (filter (fun kv => UnbatchResource.wc_deadline_micros (snd kv) < now)
                   (map_to_list (UnbatchResource.waiting_callbacks_ s))) w)
      as (H1 & H2 & H3).
    split; [apply NoDup_filter, NoDup_map_to_list|].
    split.
    { intros k c. rewrite list_elem_of_filter, elem_of_map_to_list. cbn [snd].
      split; intros [? ?]; split; assumption. }
    split; [exact H1|]. split; [exact H2|].
    intros k c Hin. apply H3.
    apply in_map_iff. exists (k, c). split; [reflexivity|].
    apply list_elem_of_In. exact Hin.
Qed.

(** X18: a callback is timed out once.  After [EnforceTimeout] at time
    [now], another run at a time that is not later changes nothing and calls
    nothing. *)
Theorem EnforceTimeout_again (now now' : Z) (s : UnbatchResource.State)
    (w w' : World) :
  now' <= now ->
  UnbatchResource.EnforceTimeout now'
    (fst (UnbatchResource.EnforceTimeout now s w)) w'
  = (fst (UnbatchResource.EnforceTimeout now s w), w').
Proof.
  intros Hle. unfold UnbatchResource.EnforceTimeout. cbn [fst snd
    UnbatchResource.waiting_tensors_ UnbatchResource.waiting_callbacks_].
  assert (E : filter (fun kv => UnbatchResource.wc_deadline_micros (snd kv) < now')
                (map_to_list
                   (filter (fun kv => ~ UnbatchResource.wc_deadline_micros (snd kv) < now)
                      (UnbatchResource.waiting_callbacks_ s)))
              = []).
  { apply elem_of_nil_inv. intros [k c] Hin.
    apply list_elem_of_filter in Hin. destruct Hin as [Hlt Hin].
    apply elem_of_map_to_list, map_lookup_filter_Some in Hin.
    destruct Hin as [_ Hge]. cbn [snd] in *. lia. }
  rewrite E. cbn [foldl]. f_equal. f_equal.
  - apply map_filter_id. intros k t Hk.
    apply map_lookup_filter_Some in Hk. destruct Hk as [_ Hge]. cbn [snd] in *. lia.
  - apply map_filter_id. intros k c Hk.
    apply map_lookup_filter_Some in Hk. destruct Hk as [_ Hge]. cbn [snd] in *. lia.
Qed.

Lemma EnforceTimeout_again_witness :
  UnbatchResource.EnforceTimeout 2000
    (fst (UnbatchResource.EnforceTimeout 2000 (fst Examples.unbatch_waiting)
            (snd Examples.unbatch_waiting)))
    Examples.world
  = (fst (UnbatchResource.EnforceTimeout 2000 (fst Examples.unbatch_waiting)
            (snd Examples.unbatch_waiting)),
     Examples.world).
Proof.
  apply (EnforceTimeout_again 2000 2000 (fst Examples.unbatch_waiting)
           (snd Examples.unbatch_waiting) Examples.world).
  lia.
Defined.

(** ** UnbatchKernel::ComputeAsync *)

Section UnbatchAsync.

Import UnbatchResource.

(** Through the loop over the rows, the callback of a caller that waits
    stays registered until it is collected to be called. *)
Lemma Compute_rows_own (deadline own : Z) (runs : WaitingCallback)
    (split_inputs : list Tensor) :
  forall batch_keys i s w cbs st s' w' cbs',
    waiting_callbacks_ s !! own = Some runs \/ In (done runs) cbs ->
    Compute_rows deadline i batch_keys split_inputs (s, w, cbs)
    = (st, (s', w', cbs')) ->
    waiting_callbacks_ s' !! own = Some runs \/ In (done runs) cbs'.
Proof.
  induction batch_keys as [|key rest IH]; intros i s w cbs st s' w' cbs' Hinv;
    cbn [Compute_rows].
  - intros [= _ <- _ <-]. exact Hinv.
  - unfold Compute_row.
    destruct (waiting_callbacks_ s !! key) as [r|] eqn:Ek.
    + apply IH. simpl.
      destruct Hinv as [Hown|Hin]; [|right; apply in_or_app; left; exact Hin].
      destruct (decide (key = own)) as [->|Hne].
      * right. apply in_or_app. right. left. congruence.
      * left. rewrite lookup_delete_ne by exact Hne. exact Hown.
    + destruct (waiting_tensors_ s !! key).
      * intros [= _ <- _ <-]. exact Hinv.
      * apply IH. simpl. exact Hinv.
Qed.

Lemma Compute_rows_done_log (deadline : Z) (split_inputs : list Tensor) :
  forall batch_keys i s w cbs st s' w' cbs',
    Compute_rows deadline i batch_keys split_inputs (s, w, cbs)
    = (st, (s', w', cbs')) ->
    done_log w' = done_log w.
Proof.
  induction batch_keys as [|key rest IH]; intros i s w cbs st s' w' cbs';
    cbn [Compute_rows].
  - intros [= _ _ <- _]. reflexivity.
  - unfold Compute_row.
    destruct (waiting_callbacks_ s !! key) as [r|].
    + intros H. rewrite (IH _ _ _ _ _ _ _ _ H). reflexivity.
    + destruct (waiting_tensors_ s !! key).
      * intros [= _ _ <- _]. reflexivity.
      * apply IH.
Qed.

Lemma foldl_ctx_output_call_done (l : list DoneCallback) (w : World) :
  ctx_output (foldl (fun w d => call_done d w) w l) = ctx_output w.
Proof.
  revert w. induction l as [|d l IH]; intros w; simpl; [reflexivity|].
  rewrite IH. reflexivity.
Qed.

Lemma foldl_call_done_log (l : list DoneCallback) (w : World) :
  done_log (foldl (fun w d => call_done d w) w l) = done_log w ++ l.
Proof.
  revert w. induction l as [|d l IH]; intros w; simpl.
  - symmetry. apply app_nil_r.
  - rewrite IH. simpl. rewrite <- app_assoc. reflexivity.
Qed.

End UnbatchAsync.

(** X19: when [UnbatchResource::Compute] fails in its loop over the rows of
    the index (a key of the index already has a tensor waiting),
    [UnbatchKernel::ComputeAsync] fails the context and calls [done]; at that
    point the caller's callback either is still registered under its key in
    [waiting_callbacks_], or was already called once in this run because the
    caller's own key came earlier in the index. *)
Theorem UnbatchKernel_error_in_rows
    (TF_CALL_ALL_TYPES : DataType -> bool)
    (IsInnerDimsSizeAligned : Tensor -> bool) (timeout_micros_ : Z)
    (c : OpKernelContext) (done : DoneCallback) (now : Z)
    (s s' : UnbatchResource.State) (w w1 : World) :
  ctx_allocate c = OK ->
  UnbatchResource.Compute TF_CALL_ALL_TYPES IsInnerDimsSizeAligned
    timeout_micros_ c done now s w
  = (Error AlreadyExists "Multiple tensors returned for same batch key.",
     s', w1) ->
  UnbatchKernel.ComputeAsync TF_CALL_ALL_TYPES IsInnerDimsSizeAligned
    timeout_micros_ OK c done now s w
  = (s',
     call_done done
       (SetStatus c
          (Error AlreadyExists "Multiple tensors returned for same batch key.")
          w1))
  /\ (UnbatchResource.waiting_callbacks_ s' !! batch_key_of c
      = Some {| UnbatchResource.wc_deadline_micros :=
                  to_size_t (now + timeout_micros_);
                UnbatchResource.context := c;
                UnbatchResource.done := done |}
      \/ exists called, done_log w1 = done_log w ++ called /\ In done called).
Proof.
  intros Ha H. split.
  - unfold UnbatchKernel.ComputeAsync. cbn [BatchResource.OP_REQUIRES_OK_ASYNC ok].
    rewrite H. reflexivity.
  - revert H. unfold UnbatchResource.Compute.
    destruct (dim_size (input c 1) 0 >? dim_size (input c 0) 0); [discriminate|].
    destruct (negb (dim_size (input c 1) 1 =? 3)); [discriminate|].
    cbv zeta.
    destruct (dim_size (input c 1) 0 >? 0).
    + destruct (TensorOps.Split _ _ _ _ _) as [[|cs ms] split_inputs] eqn:ES;
        cbn [ok negb].
      * unfold UnbatchResource.Compute_critical. fold (batch_key_of c).
        destruct (UnbatchResource.waiting_tensors_ s !! batch_key_of c);
          [discriminate|].
        destruct (UnbatchResource.waiting_callbacks_ s !! batch_key_of c);
          [discriminate|].
        destruct (UnbatchResource.Compute_rows _ _ _ _ _)
          as [st [[s2 w2] cbs]] eqn:ER.
        intros [= -> <- <-].
        destruct (Compute_rows_own _ (batch_key_of c)
                    {| UnbatchResource.wc_deadline_micros :=
                         to_size_t (now + timeout_micros_);
                       UnbatchResource.context := c;
                       UnbatchResource.done := done |}
                    _ _ _ _ _ _ _ _ _ _ (or_introl (lookup_insert_eq _ _ _)) ER)
          as [Hreg|Hin].
        -- left. exact Hreg.
        -- right. exists cbs. split; [|exact Hin].
           rewrite foldl_call_done_log.
           rewrite (Compute_rows_done_log _ _ _ _ _ _ _ _ _ _ _ ER). reflexivity.
      * destruct (Split_error _ _ _ _ _ _ _ _ ES) as [_ [->|[->|E]]];
          [discriminate | discriminate | congruence].
    + cbn [ok negb]. unfold UnbatchResource.Compute_critical.
      destruct (UnbatchResource.waiting_tensors_ s !! _); [discriminate|].
      destruct (UnbatchResource.waiting_callbacks_ s !! _); discriminate.
Qed.

Lemma UnbatchKernel_error_in_rows_witness :
  UnbatchKernel.ComputeAsync Examples.all_types Examples.aligned 1000 OK
    (Examples.unbatch_ctx 6 [[3; 4]] [[12; 0; 1]] 14) 106%nat 7
    Examples.unbatch_stored Examples.world
  = (snd (fst (UnbatchResource.Compute Examples.all_types Examples.aligned 1000
                 (Examples.unbatch_ctx 6 [[3; 4]] [[12; 0; 1]] 14) 106%nat 7
                 Examples.unbatch_stored Examples.world)),
     call_done 106%nat
       (SetStatus (Examples.unbatch_ctx 6 [[3; 4]] [[12; 0; 1]] 14)
          (Error AlreadyExists "Multiple tensors returned for same batch key.")
          Examples.world))
  /\ (UnbatchResource.waiting_callbacks_
        (snd (fst (UnbatchResource.Compute Examples.all_types Examples.aligned
                     1000 (Examples.unbatch_ctx 6 [[3; 4]] [[12; 0; 1]] 14)
                     106%nat 7 Examples.unbatch_stored Examples.world)))
      !! batch_key_of (Examples.unbatch_ctx 6 [[3; 4]] [[12; 0; 1]] 14)
      = Some {| UnbatchResource.wc_deadline_micros := to_size_t (7 + 1000);
                UnbatchResource.context :=
                  Examples.unbatch_ctx 6 [[3; 4]] [[12; 0; 1]] 14;
                UnbatchResource.done := 106%nat |}
      \/ exists called,
           done_log Examples.world = done_log Examples.world ++ called
           /\ In 106%nat called).
Proof.
  apply (UnbatchKernel_error_in_rows Examples.all_types Examples.aligned 1000
           (Examples.unbatch_ctx 6 [[3; 4]] [[12; 0; 1]] 14) 106%nat 7
           Examples.unbatch_stored).
  - reflexivity.
  - vm_compute. reflexivity.
Defined.

(** ** UnbatchGradResource: the bookkeeping of desired tensors *)

Section UnbatchGradInvariant.

Import UnbatchGradResource.

Variable TF_CALL_ALL_TYPES : DataType -> bool.

Lemma OutputBatch_keeps_batches ctx done_ s w st s' w' :
  OutputBatch TF_CALL_ALL_TYPES ctx done_ s w = (st, s', w') ->
  available_batches_ s' = available_batches_ s
  /\ desired_tensor_to_batch_map_ s' = desired_tensor_to_batch_map_ s.
Proof.
  unfold OutputBatch.
  destruct (OutputBatch_collect _ _ _) as [[[|c m] available] tensors].
  - destruct (TF_CALL_ALL_TYPES _).
    + destruct (TensorOps.Concat_T _ _ _) as [[|c m] t];
        intros [= _ <- _]; split; reflexivity.
    + intros [= _ <- _]; split; reflexivity.
  - intros [= _ <- _]; split; reflexivity.
Qed.

Lemma Compute_desire_entries (batch_key : Z) :
  forall missing desired st desired',
    Compute_desire missing batch_key desired = (st, desired') ->
    forall k kb,
      desired' !! k = Some kb ->
      desired !! k = Some kb \/ (kb = batch_key /\ In k missing).
Proof.
  induction missing as [|i missing IH]; intros desired st desired';
    cbn [Compute_desire].
  - intros [= _ <-] k kb H. left. exact H.
  - destruct (desired !! i) eqn:Ei.
    + intros [= _ <-] k kb H. left. exact H.
    + intros H k kb Hk.
      destruct (IH _ _ _ H k kb Hk) as [Hold|[-> Hin]].
      * destruct (decide (i = k)) as [->|Hne].
        -- rewrite lookup_insert_eq in Hold. injection Hold as <-.
           right. split; [reflexivity | left; reflexivity].
        -- rewrite lookup_insert_ne in Hold by exact Hne. left. exact Hold.
      * right. split; [reflexivity | right; exact Hin].
Qed.

Lemma Compute_search_invariant batch_key s w st s' w' :
  desired_by_waiting_batch s ->
  Compute_search TF_CALL_ALL_TYPES batch_key s w = (st, s', w') ->
  desired_by_waiting_batch s'.
Proof.
  intros Hinv. unfold Compute_search.
  destruct (desired_tensor_to_batch_map_ s !! batch_key) as [wanted_by|] eqn:Ed;
    [|intros [= _ <- _]; exact Hinv].
  cbn [available_batches_ available_tensors_ desired_tensor_to_batch_map_].
  destruct (available_batches_ s !! wanted_by) as [batch|] eqn:Eb.
  - (* the state with the tensor marked as no longer missing *)
    match goal with
    | |- context [if decide _ then match OutputBatch _ _ _ ?s2 _ with _ => _ end
                  else _] =>
        assert (H2 : desired_by_waiting_batch s2)
    end.
    { intros k kb Hk. simpl in Hk |- *.
      destruct (decide (k = batch_key)) as [->|Hne];
        [rewrite lookup_delete_eq in Hk; discriminate|].
      rewrite lookup_delete_ne in Hk by congruence.
      destruct (Hinv k kb Hk) as (b0 & Hb0 & Hin).
      destruct (decide (kb = wanted_by)) as [->|Hkb].
      - rewrite lookup_insert_eq. eexists. split; [reflexivity|]. simpl.
        rewrite Eb in Hb0. injection Hb0 as <-.
        apply elem_of_difference. split; [exact Hin|].
        rewrite elem_of_singleton. exact Hne.
      - rewrite lookup_insert_ne by congruence. eauto. }
    destruct (decide _) as [Hempty|_]; [|intros [= _ <- _]; exact H2].
    destruct (OutputBatch _ _ _ _ _) as [[[|c m] s3] w3] eqn:EO.
    + intros [= _ <- _].
      destruct (OutputBatch_keeps_batches _ _ _ _ _ _ _ EO) as [Hb Hd].
      intros k kb Hk. simpl in Hk |- *. rewrite Hd in Hk.
      destruct (H2 k kb Hk) as (b0 & Hb0 & Hin).
      destruct (decide (kb = wanted_by)) as [->|Hkb].
      * exfalso. simpl in Hb0. rewrite lookup_insert_eq in Hb0.
        injection Hb0 as <-. simpl in Hin, Hempty. rewrite Hempty in Hin.
        apply elem_of_empty in Hin. exact Hin.
      * rewrite lookup_delete_ne by congruence. rewrite Hb. eauto.
    + intros [= _ <- _].
      destruct (OutputBatch_keeps_batches _ _ _ _ _ _ _ EO) as [Hb Hd].
      intros k kb Hk. rewrite Hd in Hk. rewrite Hb. apply H2. exact Hk.
  - intros [= _ <- _]. intros k kb Hk. simpl in Hk |- *.
    destruct (decide (k = batch_key)) as [->|Hne];
      [rewrite lookup_delete_eq in Hk; discriminate|].
    rewrite lookup_delete_ne in Hk by congruence. apply Hinv. exact Hk.
Qed.

Lemma Compute_invariant ctx done_ s w st s' w' :
  desired_by_waiting_batch s ->
  Compute TF_CALL_ALL_TYPES ctx done_ s w = (st, s', w') ->
  desired_by_waiting_batch s'.
Proof.
  intros Hinv. unfold Compute.
  destruct (available_tensors_ s !! scalar (input ctx 3));
    [intros [= _ <- _]; exact Hinv|].
  assert (H0 : forall m, desired_by_waiting_batch (with_available_tensors s m))
    by (intros m; exact Hinv).
  destruct (NumElements (input ctx 0) >? 0).
  - destruct (NumElements (input ctx 1) =? 0);
      [intros [= _ <- _]; apply H0|].
    cbv zeta.
    destruct (decide _) as [_|_].
    + intros H. destruct (OutputBatch_keeps_batches _ _ _ _ _ _ _ H) as [Hb Hd].
      intros k kb Hk. rewrite Hd in Hk. rewrite Hb. apply (H0 _ k kb Hk).
    + cbn [with_available_tensors available_batches_ available_tensors_
           desired_tensor_to_batch_map_].
      destruct (available_batches_ s !! scalar (input ctx 3)) eqn:Eb;
        [intros [= _ <- _]; apply H0|].
      destruct (Compute_desire _ _ _) as [st1 desired] eqn:ED.
      assert (H1 : desired_by_waiting_batch
                     {| available_batches_ :=
                          <[scalar (input ctx 3) :=
                              {| missing_tensors :=
                                   list_to_set
                                     (filter
                                        (fun k =>
                                           <[scalar (input ctx 3) := input ctx 2]>
                                             (available_tensors_ s) !! k = None)
                                        (index_keys (input ctx 1)));
                                 context := ctx; done := done_ |}]>
                            (available_batches_ s);
                        available_tensors_ :=
                          <[scalar (input ctx 3) := input ctx 2]>
                            (available_tensors_ s);
                        desired_tensor_to_batch_map_ := desired |}).
      { intros k kb Hk. simpl in Hk |- *.
        destruct (Compute_desire_entries _ _ _ _ _ ED k kb Hk) as [Hold|[-> Hin]].
        - destruct (Hinv k kb Hold) as (b0 & Hb0 & Hk0).
          rewrite lookup_insert_ne by congruence. eauto.
        - rewrite lookup_insert_eq. eexists. split; [reflexivity|]. simpl.
          apply elem_of_elements. apply list_elem_of_In. exact Hin. }
      destruct st1 as [|c m].
      * apply Compute_search_invariant. exact H1.
      * intros [= _ <- _]. exact H1.
  - destruct (ctx_allocate ctx).
    + apply Compute_search_invariant. apply H0.
    + intros [= _ <- _]. apply H0.
Qed.

End UnbatchGradInvariant.

(** X20: in every state that calls of [UnbatchGradResource::Compute] lead
    to, a tensor recorded in [desired_tensor_to_batch_map_] names a batch
    that is in [available_batches_] and has the tensor among its missing
    ones; so the search at the end of [Compute] finds the batch of every
    desired tensor. *)
Theorem UnbatchGrad_desired_batch_exists
    (TF_CALL_ALL_TYPES : DataType -> bool) (s : UnbatchGradResource.State) :
  grad_reachable TF_CALL_ALL_TYPES s ->
  desired_by_waiting_batch s
  /\ forall k kb,
       UnbatchGradResource.desired_tensor_to_batch_map_ s !! k = Some kb ->
       is_Some (UnbatchGradResource.available_batches_ s !! kb).
Proof.
  intros Hr.
  assert (Hinv : desired_by_waiting_batch s).
  { induction Hr as [|s ctx done_ w st s' w' _ IH HC].
    - intros k kb Hk. simpl in Hk. rewrite lookup_empty in Hk. discriminate.
    - eapply Compute_invariant; eassumption. }
  split; [exact Hinv|].
  intros k kb Hk. destruct (Hinv k kb Hk) as (b0 & Hb0 & _). eauto.
Qed.

Lemma UnbatchGrad_desired_batch_exists_witness :
  desired_by_waiting_batch
    (snd (fst (UnbatchGradResource.Compute Examples.all_types
                 Examples.grad_batch_ctx 103%nat UnbatchGradResource.init
                 Examples.world)))
  /\ forall k kb,
       UnbatchGradResource.desired_tensor_to_batch_map_
         (snd (fst (UnbatchGradResource.Compute Examples.all_types
                      Examples.grad_batch_ctx 103%nat UnbatchGradResource.init
                      Examples.world))) !! k = Some kb ->
       is_Some
         (UnbatchGradResource.available_batches_
            (snd (fst (UnbatchGradResource.Compute Examples.all_types
                         Examples.grad_batch_ctx 103%nat
                         UnbatchGradResource.init Examples.world))) !! kb).
Proof.
  apply (UnbatchGrad_desired_batch_exists Examples.all_types
           (snd (fst (UnbatchGradResource.Compute Examples.all_types
                        Examples.grad_batch_ctx 103%nat
                        UnbatchGradResource.init Examples.world)))).
  apply (grad_reach_Compute Examples.all_types UnbatchGradResource.init
           Examples.grad_batch_ctx 103%nat Examples.world
           (fst (fst (UnbatchGradResource.Compute Examples.all_types
                        Examples.grad_batch_ctx 103%nat
                        UnbatchGradResource.init Examples.world)))
           (snd (fst (UnbatchGradResource.Compute Examples.all_types
                        Examples.grad_batch_ctx 103%nat
                        UnbatchGradResource.init Examples.world)))
           (snd (UnbatchGradResource.Compute Examples.all_types
                   Examples.grad_batch_ctx 103%nat
                   UnbatchGradResource.init Examples.world))
           (grad_reach_init Examples.all_types)).
  destruct (UnbatchGradResource.Compute _ _ _ _ _) as [[st s] w]. reflexivity.
Defined.

(** ** UnbatchGradResource::OutputBatch *)

Section GradOutput.

Import UnbatchGradResource.

Variable TF_CALL_ALL_TYPES : DataType -> bool.

(** The loop of [OutputBatch] succeeds only on distinct keys that are all
    available; it takes their tensors in the order of the keys and erases
    them. *)
Lemma OutputBatch_collect_ok :
  forall keys available tensors available' tensors',
    OutputBatch_collect keys available tensors = (OK, available', tensors') ->
    List.NoDup keys
    /\ exists news,
         tensors' = tensors ++ news
         /\ Forall2 (fun k t => available !! k = Some t) keys news
         /\ (forall k, In k keys -> available' !! k = None)
         /\ (forall k, ~ In k keys -> available' !! k = available !! k).
Proof.
  induction keys as [|key rest IH]; intros available tensors available' tensors';
    cbn [OutputBatch_collect].
  - intros [= <- <-]. split; [constructor|]. exists [].
    rewrite app_nil_r. repeat split; [constructor | intros k []].
  - destruct (available !! key) as [t|] eqn:Ek; [|discriminate].
    intros H. destruct (IH _ _ _ _ H) as (Hnd & news & -> & HF & Hin & Hout).
    assert (Hnot : ~ In key rest).
    { intros Hk. apply list_elem_of_In, list_elem_of_lookup_1 in Hk.
      destruct Hk as [j Hj].
      destruct (Forall2_lookup_l _ _ _ _ _ HF Hj) as (x & _ & Hx).
      rewrite lookup_delete_eq in Hx. discriminate. }
    split; [constructor; assumption|].
    exists (t :: news). rewrite <- app_assoc. split; [reflexivity|].
    split.
    { constructor; [exact Ek|].
      eapply Forall2_impl; [exact HF|]. intros k x Hx. simpl in Hx.
      apply lookup_delete_Some in Hx. apply Hx. }
    split.
    + intros k [<-|Hk]; [|apply Hin; exact Hk].
      rewrite (Hout key Hnot). apply lookup_delete_eq.
    + intros k Hk. rewrite Hout by (intros Hr; apply Hk; right; exact Hr).
      apply lookup_delete_ne. intros ->. apply Hk. left. reflexivity.
Qed.

(** What [OutputBatch] has done when it returns OK. *)
Lemma OutputBatch_ok (ctx : OpKernelContext) (done_ : DoneCallback)
    (s s' : State) (w w' : World) :
  OutputBatch TF_CALL_ALL_TYPES ctx done_ s w = (OK, s', w') ->
  List.NoDup (index_keys (input ctx 1))
  /\ (exists tensors out,
        Forall2
          (fun k t => available_tensors_ s !! k = Some t)
          (index_keys (input ctx 1)) tensors
        /\ ctx_output w' !! (ctx_id ctx, 0) = Some out
        /\ tensor_rows out = concat (map tensor_rows tensors))
  /\ (forall k,
        In k (index_keys (input ctx 1)) ->
        available_tensors_ s' !! k = None)
  /\ (forall k,
        ~ In k (index_keys (input ctx 1)) ->
        available_tensors_ s' !! k
        = available_tensors_ s !! k)
  /\ done_log w' = done_log w ++ [done_]
  /\ available_batches_ s'
     = available_batches_ s
  /\ desired_tensor_to_batch_map_ s'
     = desired_tensor_to_batch_map_ s.
Proof.
  unfold OutputBatch.
  destruct (OutputBatch_collect _ _ _)
    as [[[|c m] available] tensors] eqn:EC; [|discriminate].
  destruct (OutputBatch_collect_ok _ _ _ _ _ EC)
    as (Hnd & news & -> & HF & Hin & Hout).
  rewrite app_nil_l.
  destruct (TF_CALL_ALL_TYPES _); [|discriminate].
  destruct (TensorOps.Concat_T _ ctx news) as [[|c m] out] eqn:ET; [|discriminate].
  intros [= <- <-].
  split; [exact Hnd|]. split.
  - exists news, out. split; [exact HF|].
    split; [simpl; apply lookup_insert_eq|].
    eapply Concat_T_rows; exact ET.
  - repeat split; [exact Hin | exact Hout].
Qed.

End GradOutput.

(** X21: when [OutputBatch] returns OK, the keys of the index are distinct
    and were all in [available_tensors_]; their tensors have been erased from
    it and no other; output 0 of the context holds their rows in the order of
    the index; the callback has been called once; and the other two maps are
    as before. *)
Theorem OutputBatch_spec
    (TF_CALL_ALL_TYPES : DataType -> bool) (ctx : OpKernelContext)
    (done_ : DoneCallback) (s s' : UnbatchGradResource.State) (w w' : World) :
  UnbatchGradResource.OutputBatch TF_CALL_ALL_TYPES ctx done_ s w = (OK, s', w') ->
  List.NoDup (UnbatchGradResource.index_keys (input ctx 1))
  /\ (exists tensors out,
        Forall2
          (fun k t => UnbatchGradResource.available_tensors_ s !! k = Some t)
          (UnbatchGradResource.index_keys (input ctx 1)) tensors
        /\ ctx_output w' !! (ctx_id ctx, 0) = Some out
        /\ tensor_rows out = concat (map tensor_rows tensors))
  /\ (forall k,
        In k (UnbatchGradResource.index_keys (input ctx 1)) ->
        UnbatchGradResource.available_tensors_ s' !! k = None)
  /\ (forall k,
        ~ In k (UnbatchGradResource.index_keys (input ctx 1)) ->
        UnbatchGradResource.available_tensors_ s' !! k
        = UnbatchGradResource.available_tensors_ s !! k)
  /\ done_log w' = done_log w ++ [done_]
  /\ UnbatchGradResource.available_batches_ s'
     = UnbatchGradResource.available_batches_ s
  /\ UnbatchGradResource.desired_tensor_to_batch_map_ s'
     = UnbatchGradResource.desired_tensor_to_batch_map_ s.
Proof.
  unfold UnbatchGradResource.OutputBatch.
  destruct (UnbatchGradResource.OutputBatch_collect _ _ _)
    as [[[|c m] available] tensors] eqn:EC; [|discriminate].
  destruct (OutputBatch_collect_ok _ _ _ _ _ EC)
    as (Hnd & news & -> & HF & Hin & Hout).
  rewrite app_nil_l.
  destruct (TF_CALL_ALL_TYPES _); [|discriminate].
  destruct (TensorOps.Concat_T _ ctx news) as [[|c m] out] eqn:ET; [|discriminate].
  intros [= <- <-].
  split; [exact Hnd|]. split.
  - exists news, out. split; [exact HF|].
    split; [simpl; apply lookup_insert_eq|].
    eapply Concat_T_rows; exact ET.
  - repeat split; [exact Hin | exact Hout].
Qed.

Lemma OutputBatch_spec_witness :
  List.NoDup (UnbatchGradResource.index_keys (input Examples.grad_batch_ctx 1))
  /\ (exists tensors out,
        Forall2
          (fun k t =>
             UnbatchGradResource.available_tensors_ Examples.grad_available !! k
             = Some t)
          (UnbatchGradResource.index_keys (input Examples.grad_batch_ctx 1))
          tensors
        /\ ctx_output
             (snd (UnbatchGradResource.OutputBatch Examples.all_types
                     Examples.grad_batch_ctx 103%nat Examples.grad_available
                     Examples.world))
           !! (ctx_id Examples.grad_batch_ctx, 0) = Some out
        /\ tensor_rows out = concat (map tensor_rows tensors))
  /\ (forall k,
        In k (UnbatchGradResource.index_keys (input Examples.grad_batch_ctx 1)) ->
        UnbatchGradResource.available_tensors_
          (snd (fst (UnbatchGradResource.OutputBatch Examples.all_types
                       Examples.grad_batch_ctx 103%nat Examples.grad_available
                       Examples.world))) !! k = None)
  /\ (forall k,
        ~ In k (UnbatchGradResource.index_keys (input Examples.grad_batch_ctx 1)) ->
        UnbatchGradResource.available_tensors_
          (snd (fst (UnbatchGradResource.OutputBatch Examples.all_types
                       Examples.grad_batch_ctx 103%nat Examples.grad_available
                       Examples.world))) !! k
        = UnbatchGradResource.available_tensors_ Examples.grad_available !! k)
  /\ done_log
       (snd (UnbatchGradResource.OutputBatch Examples.all_types
               Examples.grad_batch_ctx 103%nat Examples.grad_available
               Examples.world))
     = done_log Examples.world ++ [103%nat]
  /\ UnbatchGradResource.available_batches_
       (snd (fst (UnbatchGradResource.OutputBatch Examples.all_types
                    Examples.grad_batch_ctx 103%nat Examples.grad_available
                    Examples.world)))
     = UnbatchGradResource.available_batches_ Examples.grad_available
  /\ UnbatchGradResource.desired_tensor_to_batch_map_
       (snd (fst (UnbatchGradResource.OutputBatch Examples.all_types
                    Examples.grad_batch_ctx 103%nat Examples.grad_available
                    Examples.world)))
     = UnbatchGradResource.desired_tensor_to_batch_map_ Examples.grad_available.
Proof.
  apply (OutputBatch_spec Examples.all_types Examples.grad_batch_ctx 103%nat
           Examples.grad_available).
  vm_compute. reflexivity.
Defined.

(** ** RegisterInput and the queues *)

Section RegisterInputProofs.

Import BatchResource BatchResourceInput.

Lemma RegisterInput_loop_ok (first : Tensor) (n : nat) (tensors : list Tensor) :
  RegisterInput_loop first n tensors = OK ->
  Forall (fun x => 0 < dims x
                   /\ ((2 <= n)%nat -> dim_size x 0 = dim_size first 0))
    tensors.
Proof.
  induction tensors as [|x tensors IH]; cbn [RegisterInput_loop];
    [constructor|].
  destruct (Z.eqb_spec (dims x) 0) as [|Hd]; [discriminate|].
  destruct (Nat.leb_spec 2 n) as [Hn|Hn]; cbn [andb].
  - destruct (Z.eqb_spec (dim_size x 0) (dim_size first 0)) as [E|];
      cbn [negb]; [|discriminate].
    intros H. constructor; [|exact (IH H)].
    split; [destruct x; simpl in *; lia | intros _; exact E].
  - intros H. constructor; [|exact (IH H)].
    split; [destruct x; simpl in *; lia | lia].
Qed.

(** A tensor without dimensions among the inputs makes the loop fail. *)
Lemma RegisterInput_loop_rank0 (first : Tensor) (n : nat) (tensors : list Tensor) :
  Exists (fun x => dims x = 0) tensors ->
  code (RegisterInput_loop first n tensors) = Some InvalidArgument.
Proof.
  induction 1 as [x tensors Hx|x tensors _ IH]; cbn [RegisterInput_loop].
  - rewrite Hx. reflexivity.
  - destruct (dims x =? 0); [reflexivity|].
    destruct (_ && _); [reflexivity | exact IH].
Qed.

End RegisterInputProofs.

(** X22: the task [RegisterInput] hands to the scheduler holds the input
    tensors of the call, at least one, each of rank at least one and all
    with the task's size as their first dimension; it carries the key, the
    context and the callback of the call, is not partial and has split index
    0; the status returned is the scheduler's, and the queue is the one
    recorded under the queue name. *)
Theorem RegisterInput_task
    (Schedule : BatchResourceInput.BatcherQueue -> BatchResource.BatchTask -> Status)
    (guid : Z) (context : OpKernelContext) (batcher_queue_name : string)
    (done_callback : DoneCallback) (now : Z)
    (in_tensors captured_tensors : Status * list Tensor)
    (fresh_output fresh_status : nat)
    (add_queue : Status * BatchResourceInput.BatcherQueue)
    (batcher_queues_ queues : gmap string BatchResourceInput.BatcherQueue)
    (st : Status) (q : BatchResourceInput.BatcherQueue)
    (t : BatchResource.BatchTask) :
  BatchResourceInput.RegisterInput Schedule guid context batcher_queue_name
    done_callback now in_tensors captured_tensors fresh_output fresh_status
    add_queue batcher_queues_
  = (st, Some (q, t), queues) ->
  in_tensors = (OK, BatchResource.inputs t)
  /\ BatchResource.inputs t <> []
  /\ Forall (fun x => 0 < dims x) (BatchResource.inputs t)
  /\ uniform_dim0 t
  /\ BatchResource.guid t = guid
  /\ BatchResource.context t = context
  /\ BatchResource.done_callback t = done_callback
  /\ BatchResource.is_partial t = false
  /\ BatchResource.split_index t = 0
  /\ st = Schedule q t
  /\ queues !! batcher_queue_name = Some q.
Proof.
  unfold BatchResourceInput.RegisterInput.
  destruct in_tensors as [[|c m] tensors]; [|discriminate].
  destruct (BatchResourceInput.RegisterInput_loop _ _ _) eqn:EL; [|discriminate].
  destruct tensors as [|first rest] eqn:Et; [discriminate|]. rewrite <- Et in *.
  unfold BatchResourceInput.LookupOrCreateBatcherQueue.
  assert (Hshape : Forall (fun x => 0 < dims x) tensors
                   /\ Forall (fun x => dim_size x 0
                                       = dim_size (nth 0 tensors (Scalar 0%nat 0)) 0)
                        tensors).
  { apply RegisterInput_loop_ok in EL. split.
    - eapply List.Forall_impl; [|exact EL]. intros x [H _]. exact H.
    - destruct (Nat.leb_spec 2 (length tensors)) as [Hn|Hn].
      + eapply List.Forall_impl; [|exact EL]. intros x [_ H]. exact (H Hn).
      + rewrite Et in Hn |- *. destruct rest; [|simpl in Hn; lia].
        constructor; [reflexivity | constructor]. }
  destruct Hshape as [Hrank Hdim].
  destruct (batcher_queues_ !! batcher_queue_name) as [q0|] eqn:Eq.
  - intros [= <- <- <- <-]. cbn. repeat split; try assumption.
    rewrite Et. discriminate.
  - destruct add_queue as [[|c m] new_queue]; [|discriminate].
    intros [= <- <- <- <-]. cbn. repeat split; try assumption.
    + rewrite Et. discriminate.
    + apply lookup_insert_eq.
Qed.

Lemma RegisterInput_task_witness :
  (OK, [Rows 1%nat [2] [[1; 2]; [3; 4]]; Rows 1%nat [] [[5]; [6]]])
  = (OK, BatchResource.inputs
           {| BatchResource.guid := 11;
              BatchResource.inputs :=
                [Rows 1%nat [2] [[1; 2]; [3; 4]]; Rows 1%nat [] [[5]; [6]]];
              BatchResource.captured_inputs := [];
              BatchResource.context := Examples.ctx 1;
              BatchResource.done_callback := 101%nat;
              BatchResource.split_index := 0;
              BatchResource.output := 7%nat;
              BatchResource.status := 8%nat;
              BatchResource.is_partial := false;
              BatchResource.start_time := 5 |})
  /\ [Rows 1%nat [2] [[1; 2]; [3; 4]]; Rows 1%nat [] [[5]; [6]]] <> []
  /\ Forall (fun x => 0 < dims x)
       [Rows 1%nat [2] [[1; 2]; [3; 4]]; Rows 1%nat [] [[5]; [6]]]
  /\ uniform_dim0
       {| BatchResource.guid := 11;
          BatchResource.inputs :=
            [Rows 1%nat [2] [[1; 2]; [3; 4]]; Rows 1%nat [] [[5]; [6]]];
          BatchResource.captured_inputs := [];
          BatchResource.context := Examples.ctx 1;
          BatchResource.done_callback := 101%nat;
          BatchResource.split_index := 0;
          BatchResource.output := 7%nat;
          BatchResource.status := 8%nat;
          BatchResource.is_partial := false;
          BatchResource.start_time := 5 |}
  /\ 11 = 11
  /\ Examples.ctx 1 = Examples.ctx 1
  /\ 101%nat = 101%nat
  /\ false = false
  /\ 0 = 0
  /\ OK = OK
  /\ (<["queue"%string := 4%nat]> (∅ : gmap string nat))
       !! "queue"%string = Some 4%nat.
Proof.
  apply (RegisterInput_task (fun _ _ => OK) 11 (Examples.ctx 1)
           "queue"%string 101%nat 5
           (OK, [Rows 1%nat [2] [[1; 2]; [3; 4]]; Rows 1%nat [] [[5]; [6]]])
           (Error InvalidArgument "captured_tensors", []) 7%nat 8%nat (OK, 4%nat) ∅
           (<["queue"%string := 4%nat]> ∅) OK 4%nat
           {| BatchResource.guid := 11;
              BatchResource.inputs :=
                [Rows 1%nat [2] [[1; 2]; [3; 4]]; Rows 1%nat [] [[5]; [6]]];
              BatchResource.captured_inputs := [];
              BatchResource.context := Examples.ctx 1;
              BatchResource.done_callback := 101%nat;
              BatchResource.split_index := 0;
              BatchResource.output := 7%nat;
              BatchResource.status := 8%nat;
              BatchResource.is_partial := false;
              BatchResource.start_time := 5 |}).
  reflexivity.
Defined.

(** X23: a queue is created once per name.  After
    [LookupOrCreateBatcherQueue] returned OK for a name, the queue it
    answered is recorded under that name and the queues of the other names
    are as before; a later call for the same name answers the same queue and
    leaves the map alone, whatever the scheduler would answer. *)
Theorem LookupOrCreateBatcherQueue_once
    (queue_name : string)
    (add_queue add_queue' : Status * BatchResourceInput.BatcherQueue)
    (batcher_queues_ queues : gmap string BatchResourceInput.BatcherQueue)
    (q : option BatchResourceInput.BatcherQueue) :
  BatchResourceInput.LookupOrCreateBatcherQueue queue_name add_queue
    batcher_queues_ = (OK, q, queues) ->
  (exists queue, q = Some queue /\ queues !! queue_name = Some queue)
  /\ (forall other, other <> queue_name ->
        queues !! other = batcher_queues_ !! other)
  /\ (forall queue, batcher_queues_ !! queue_name = Some queue ->
        q = Some queue /\ queues = batcher_queues_)
  /\ BatchResourceInput.LookupOrCreateBatcherQueue queue_name add_queue' queues
     = (OK, q, queues).
Proof.
  unfold BatchResourceInput.LookupOrCreateBatcherQueue.
  destruct (batcher_queues_ !! queue_name) as [q0|] eqn:E.
  - intros [= <- <-]. rewrite E.
    split; [eauto|]. split; [reflexivity|]. split; [|reflexivity].
    intros queue [= <-]. split; reflexivity.
  - destruct add_queue as [[|c m] new_queue]; [|discriminate].
    intros [= <- <-]. rewrite lookup_insert_eq.
    split; [exists new_queue; split; reflexivity|].
    split; [intros other Hne; apply lookup_insert_ne; congruence|].
    split; [discriminate | reflexivity].
Qed.

Lemma LookupOrCreateBatcherQueue_once_witness :
  (exists queue,
     Some 4%nat = Some queue
     /\ (<["queue"%string := 4%nat]> (∅ : gmap string nat)) !! "queue"%string
        = Some queue)
  /\ (forall other, other <> "queue"%string ->
        (<["queue"%string := 4%nat]> (∅ : gmap string nat)) !! other
        = (∅ : gmap string nat) !! other)
  /\ (forall queue, (∅ : gmap string nat) !! "queue"%string = Some queue ->
        Some 4%nat = Some queue
        /\ <["queue"%string := 4%nat]> (∅ : gmap string nat) = ∅)
  /\ BatchResourceInput.LookupOrCreateBatcherQueue "queue"%string
       (Error Internal "no more queues", 0%nat)
       (<["queue"%string := 4%nat]> ∅)
     = (OK, Some 4%nat, <["queue"%string := 4%nat]> ∅).
Proof.
  apply (LookupOrCreateBatcherQueue_once "queue"%string (OK, 4%nat)
           (Error Internal "no more queues", 0%nat) ∅).
  reflexivity.
Defined.

(** X24: a call of the Batch kernel whose inputs include a tensor without
    dimensions fails the context with InvalidArgument and calls [done] once;
    no task reaches the scheduler and no queue is created. *)
Theorem ComputeAsync_rank0_input
    (Schedule : BatchResourceInput.BatcherQueue -> BatchResource.BatchTask -> Status)
    (guid : Z) (c : OpKernelContext) (batcher_queue_ : string)
    (done : DoneCallback) (now : Z) (tensors : list Tensor)
    (captured_tensors : Status * list Tensor)
    (fresh_output fresh_status : nat)
    (add_queue : Status * BatchResourceInput.BatcherQueue)
    (batcher_queues_ : gmap string BatchResourceInput.BatcherQueue) (w : World) :
  Exists (fun x => dims x = 0) tensors ->
  exists msg,
    BatchResourceInput.ComputeAsync Schedule OK guid c batcher_queue_ done now
      (OK, tensors) captured_tensors fresh_output fresh_status add_queue
      batcher_queues_ w
    = (None, batcher_queues_,
       call_done done (SetStatus c (Error InvalidArgument msg) w)).
Proof.
  intros Hex. unfold BatchResourceInput.ComputeAsync.
  cbn [BatchResource.OP_REQUIRES_OK_ASYNC ok].
  unfold BatchResourceInput.RegisterInput.
  pose proof (RegisterInput_loop_rank0 (nth 0 tensors (Scalar 0%nat 0))
                (length tensors) tensors Hex) as Hcode.
  destruct (BatchResourceInput.RegisterInput_loop _ _ _) as [|code msg];
    [discriminate|].
  injection Hcode as ->. exists msg. reflexivity.
Qed.

Lemma ComputeAsync_rank0_input_witness :
  exists msg,
    BatchResourceInput.ComputeAsync (fun _ _ => OK) OK 11 (Examples.ctx 1)
      "queue"%string 101%nat 5
      (OK, [Rows 1%nat [2] [[1; 2]]; Scalar 1%nat 3])
      (OK, []) 7%nat 8%nat (OK, 4%nat) ∅ Examples.world
    = (None, ∅,
       call_done 101%nat
         (SetStatus (Examples.ctx 1) (Error InvalidArgument msg) Examples.world)).
Proof.
  apply (ComputeAsync_rank0_input (fun _ _ => OK) 11 (Examples.ctx 1)
           "queue"%string 101%nat 5
           [Rows 1%nat [2] [[1; 2]]; Scalar 1%nat 3]).
  right. left. reflexivity.
Defined.

(** ** UnbatchGradResource::Compute: gathering the gradients *)

(** X25: the caller that brings the batch when all the other gradients of
    its index are at hand.  When [Compute] returns OK, the keys of the index
    are distinct, output 0 of the caller holds the rows of the gradients in
    the order of the index (the caller's own among them, when its key is in
    the index), its callback has been called once, the gradients of the index
    are no longer in [available_tensors_], and no batch waits for it. *)
Theorem UnbatchGrad_owner_gathers
    (TF_CALL_ALL_TYPES : DataType -> bool) (ctx : OpKernelContext)
    (done_ : DoneCallback) (s s' : UnbatchGradResource.State) (w w' : World) :
  0 < NumElements (input ctx 0) ->
  NumElements (input ctx 1) <> 0 ->
  UnbatchGradResource.available_tensors_ s !! scalar (input ctx 3) = None ->
  (forall k, In k (UnbatchGradResource.index_keys (input ctx 1)) ->
     k = scalar (input ctx 3)
     \/ is_Some (UnbatchGradResource.available_tensors_ s !! k)) ->
  UnbatchGradResource.Compute TF_CALL_ALL_TYPES ctx done_ s w = (OK, s', w') ->
  List.NoDup (UnbatchGradResource.index_keys (input ctx 1))
  /\ (exists tensors out,
        Forall2
          (fun k t =>
             <[scalar (input ctx 3) := input ctx 2]>
               (UnbatchGradResource.available_tensors_ s) !! k = Some t)
          (UnbatchGradResource.index_keys (input ctx 1)) tensors
        /\ ctx_output w' !! (ctx_id ctx, 0) = Some out
        /\ tensor_rows out = concat (map tensor_rows tensors))
  /\ (forall k, In k (UnbatchGradResource.index_keys (input ctx 1)) ->
        UnbatchGradResource.available_tensors_ s' !! k = None)
  /\ done_log w' = done_log w ++ [done_]
  /\ UnbatchGradResource.available_batches_ s'
     = UnbatchGradResource.available_batches_ s
  /\ UnbatchGradResource.desired_tensor_to_batch_map_ s'
     = UnbatchGradResource.desired_tensor_to_batch_map_ s.
Proof.
  intros Hdata Hindex Hown Hkeys. unfold UnbatchGradResource.Compute.
  rewrite Hown.
  replace (NumElements (input ctx 0) >? 0) with true
    by (symmetry; apply Z.gtb_lt; exact Hdata).
  replace (NumElements (input ctx 1) =? 0) with false
    by (symmetry; apply Z.eqb_neq; exact Hindex).
  cbv zeta.
  assert (E : filter
                (fun k =>
                   UnbatchGradResource.available_tensors_
                     (UnbatchGradResource.with_available_tensors s
                        (<[scalar (input ctx 3) := input ctx 2]>
                           (UnbatchGradResource.available_tensors_ s))) !! k
                   = None)
                (UnbatchGradResource.index_keys (input ctx 1)) = []).
  { apply elem_of_nil_inv. intros k Hk.
    apply list_elem_of_filter in Hk. destruct Hk as [Hnone Hin].
    apply list_elem_of_In in Hin. simpl in Hnone.
    destruct (Hkeys k Hin) as [->|[t Ht]].
    - rewrite lookup_insert_eq in Hnone. discriminate.
    - destruct (decide (scalar (input ctx 3) = k)) as [<-|Hne];
        [congruence|].
      rewrite lookup_insert_ne in Hnone by exact Hne. congruence. }
  rewrite E. cbn [list_to_set foldr].
  destruct (decide _) as [_|Hne]; [|exfalso; apply Hne; reflexivity].
  intros H.
  destruct (OutputBatch_ok TF_CALL_ALL_TYPES _ _ _ _ _ _ H)
    as (Hnd & Hout & Hgone & _ & Hlog & Hb & Hd).
  split; [exact Hnd|]. split; [exact Hout|]. split; [exact Hgone|].
  split; [exact Hlog|]. split; [exact Hb | exact Hd].
Qed.

Lemma UnbatchGrad_owner_gathers_witness :
  List.NoDup (UnbatchGradResource.index_keys (input Examples.grad_batch_ctx 1))
  /\ (exists tensors out,
        Forall2
          (fun k t =>
             <[scalar (input Examples.grad_batch_ctx 3) :=
                 input Examples.grad_batch_ctx 2]>
               (UnbatchGradResource.available_tensors_
                  (UnbatchGradResource.with_available_tensors
                     UnbatchGradResource.init
                     (<[12 := Rows 1%nat [2] [[9; 10]]]> ∅))) !! k = Some t)
          (UnbatchGradResource.index_keys (input Examples.grad_batch_ctx 1))
          tensors
        /\ ctx_output
             (snd (UnbatchGradResource.Compute Examples.all_types
                     Examples.grad_batch_ctx 103%nat
                     (UnbatchGradResource.with_available_tensors
                        UnbatchGradResource.init
                        (<[12 := Rows 1%nat [2] [[9; 10]]]> ∅))
                     Examples.world))
           !! (ctx_id Examples.grad_batch_ctx, 0) = Some out
        /\ tensor_rows out = concat (map tensor_rows tensors))
  /\ (forall k,
        In k (UnbatchGradResource.index_keys (input Examples.grad_batch_ctx 1)) ->
        UnbatchGradResource.available_tensors_
          (snd (fst (UnbatchGradResource.Compute Examples.all_types
                       Examples.grad_batch_ctx 103%nat
                       (UnbatchGradResource.with_available_tensors
                          UnbatchGradResource.init
                          (<[12 := Rows 1%nat [2] [[9; 10]]]> ∅))
                       Examples.world))) !! k = None)
  /\ done_log
       (snd (UnbatchGradResource.Compute Examples.all_types
               Examples.grad_batch_ctx 103%nat
               (UnbatchGradResource.with_available_tensors
                  UnbatchGradResource.init
                  (<[12 := Rows 1%nat [2] [[9; 10]]]> ∅))
               Examples.world))
     = done_log Examples.world ++ [103%nat]
  /\ UnbatchGradResource.available_batches_
       (snd (fst (UnbatchGradResource.Compute Examples.all_types
                    Examples.grad_batch_ctx 103%nat
                    (UnbatchGradResource.with_available_tensors
                       UnbatchGradResource.init
                       (<[12 := Rows 1%nat [2] [[9; 10]]]> ∅))
                    Examples.world)))
     = UnbatchGradResource.available_batches_
         (UnbatchGradResource.with_available_tensors UnbatchGradResource.init
            (<[12 := Rows 1%nat [2] [[9; 10]]]> ∅))
  /\ UnbatchGradResource.desired_tensor_to_batch_map_
       (snd (fst (UnbatchGradResource.Compute Examples.all_types
                    Examples.grad_batch_ctx 103%nat
                    (UnbatchGradResource.with_available_tensors
                       UnbatchGradResource.init
                       (<[12 := Rows 1%nat [2] [[9; 10]]]> ∅))
                    Examples.world)))
     = UnbatchGradResource.desired_tensor_to_batch_map_
         (UnbatchGradResource.with_available_tensors UnbatchGradResource.init
            (<[12 := Rows 1%nat [2] [[9; 10]]]> ∅)).
Proof.
  apply (UnbatchGrad_owner_gathers Examples.all_types Examples.grad_batch_ctx
           103%nat
           (UnbatchGradResource.with_available_tensors UnbatchGradResource.init
              (<[12 := Rows 1%nat [2] [[9; 10]]]> ∅))).
  - vm_compute. reflexivity.
  - vm_compute. discriminate.
  - reflexivity.
  - intros k [<-|[<-|[]]]; [left; reflexivity | right; vm_compute; eauto].
  - vm_compute. reflexivity.
Defined.

(** X26: the caller that brings the last gradient a waiting batch misses.
    When [Compute] returns OK for a caller without data whose key is the only
    one the batch still misses, the callback of the caller and then the
    callback of the batch have been called, output 0 of the context of the
    batch holds the rows of the gradients in the order of the index of the
    batch, the batch is no longer in [available_batches_] and the key is no
    longer desired. *)
Theorem UnbatchGrad_last_missing
    (TF_CALL_ALL_TYPES : DataType -> bool) (ctx : OpKernelContext)
    (done_ : DoneCallback) (s s' : UnbatchGradResource.State) (w w' : World)
    (wanted_by : Z) (batch : UnbatchGradResource.Batch) :
  NumElements (input ctx 0) <= 0 ->
  ctx_allocate ctx = OK ->
  UnbatchGradResource.available_tensors_ s !! scalar (input ctx 3) = None ->
  UnbatchGradResource.desired_tensor_to_batch_map_ s !! scalar (input ctx 3)
  = Some wanted_by ->
  UnbatchGradResource.available_batches_ s !! wanted_by = Some batch ->
  UnbatchGradResource.missing_tensors batch ∖ {[scalar (input ctx 3)]} = ∅ ->
  UnbatchGradResource.Compute TF_CALL_ALL_TYPES ctx done_ s w = (OK, s', w') ->
  List.NoDup
    (UnbatchGradResource.index_keys
       (input (UnbatchGradResource.context batch) 1))
  /\ (exists tensors out,
        Forall2
          (fun k t =>
             <[scalar (input ctx 3) := input ctx 2]>
               (UnbatchGradResource.available_tensors_ s) !! k = Some t)
          (UnbatchGradResource.index_keys
             (input (UnbatchGradResource.context batch) 1))
          tensors
        /\ ctx_output w'
           !! (ctx_id (UnbatchGradResource.context batch), 0) = Some out
        /\ tensor_rows out = concat (map tensor_rows tensors))
  /\ done_log w' = done_log w ++ [done_; UnbatchGradResource.done batch]
  /\ UnbatchGradResource.available_batches_ s' !! wanted_by = None
  /\ UnbatchGradResource.desired_tensor_to_batch_map_ s'
     !! scalar (input ctx 3) = None.
Proof.
  intros Hdata Halloc Hown Hdes Hbatch Hlast. unfold UnbatchGradResource.Compute.
  rewrite Hown.
  destruct (Z.gtb_spec (NumElements (input ctx 0)) 0) as [|_]; [lia|].
  rewrite Halloc. unfold UnbatchGradResource.Compute_search.
  cbn [UnbatchGradResource.with_available_tensors
       UnbatchGradResource.available_batches_
       UnbatchGradResource.available_tensors_
       UnbatchGradResource.desired_tensor_to_batch_map_].
  rewrite Hdes, Hbatch.
  cbn [UnbatchGradResource.missing_tensors UnbatchGradResource.context
       UnbatchGradResource.done].
  destruct (decide _) as [_|Hne]; [|contradiction].
  destruct (UnbatchGradResource.OutputBatch _ _ _ _ _) as [[[|c m] s3] w3] eqn:EO;
    [|discriminate].
  intros [= <- <-].
  destruct (OutputBatch_ok TF_CALL_ALL_TYPES _ _ _ _ _ _ EO)
    as (Hnd & Hout & _ & _ & Hlog & Hb & Hd).
  split; [exact Hnd|]. split; [exact Hout|].
  split; [rewrite Hlog; simpl; rewrite <- app_assoc; reflexivity|].
  split; [simpl; apply lookup_delete_eq|].
  simpl. rewrite Hd. simpl. apply lookup_delete_eq.
Qed.

Lemma UnbatchGrad_last_missing_witness :
  List.NoDup
    (UnbatchGradResource.index_keys
       (input (UnbatchGradResource.context
                 {| UnbatchGradResource.missing_tensors := {[12]};
                    UnbatchGradResource.context := Examples.grad_batch_ctx;
                    UnbatchGradResource.done := 103%nat |}) 1))
  /\ (exists tensors out,
        Forall2
          (fun k t =>
             <[scalar (input Examples.grad_caller_ctx 3) :=
                 input Examples.grad_caller_ctx 2]>
               (UnbatchGradResource.available_tensors_ Examples.grad_waiting)
             !! k = Some t)
          (UnbatchGradResource.index_keys
             (input (UnbatchGradResource.context
                       {| UnbatchGradResource.missing_tensors := {[12]};
                          UnbatchGradResource.context := Examples.grad_batch_ctx;
                          UnbatchGradResource.done := 103%nat |}) 1))
          tensors
        /\ ctx_output
             (snd (UnbatchGradResource.Compute Examples.all_types
                     Examples.grad_caller_ctx 104%nat Examples.grad_waiting
                     Examples.world))
           !! (ctx_id (UnbatchGradResource.context
                         {| UnbatchGradResource.missing_tensors := {[12]};
                            UnbatchGradResource.context := Examples.grad_batch_ctx;
                            UnbatchGradResource.done := 103%nat |}), 0)
           = Some out
        /\ tensor_rows out = concat (map tensor_rows tensors))
  /\ done_log
       (snd (UnbatchGradResource.Compute Examples.all_types
               Examples.grad_caller_ctx 104%nat Examples.grad_waiting
               Examples.world))
     = done_log Examples.world
         ++ [104%nat;
             UnbatchGradResource.done
               {| UnbatchGradResource.missing_tensors := {[12]};
                  UnbatchGradResource.context := Examples.grad_batch_ctx;
                  UnbatchGradResource.done := 103%nat |}]
  /\ UnbatchGradResource.available_batches_
       (snd (fst (UnbatchGradResource.Compute Examples.all_types
                    Examples.grad_caller_ctx 104%nat Examples.grad_waiting
                    Examples.world))) !! 11 = None
  /\ UnbatchGradResource.desired_tensor_to_batch_map_
       (snd (fst (UnbatchGradResource.Compute Examples.all_types
                    Examples.grad_caller_ctx 104%nat Examples.grad_waiting
                    Examples.world)))
     !! scalar (input Examples.grad_caller_ctx 3) = None.
Proof.
  apply (UnbatchGrad_last_missing Examples.all_types Examples.grad_caller_ctx
           104%nat Examples.grad_waiting
           (snd (fst (UnbatchGradResource.Compute Examples.all_types
                        Examples.grad_caller_ctx 104%nat Examples.grad_waiting
                        Examples.world)))
           Examples.world
           (snd (UnbatchGradResource.Compute Examples.all_types
                   Examples.grad_caller_ctx 104%nat Examples.grad_waiting
                   Examples.world))
           11
           {| UnbatchGradResource.missing_tensors := {[12]};
              UnbatchGradResource.context := Examples.grad_batch_ctx;
              UnbatchGradResource.done := 103%nat |}).
  - vm_compute. discriminate.
  - reflexivity.
  - vm_compute. reflexivity.
  - vm_compute. reflexivity.
  - vm_compute. reflexivity.
  - vm_compute. reflexivity.
  - vm_compute. reflexivity.
Defined.

(** ** ProcessFuncBatch: the outputs on success *)

Section ProcessFuncOutputs.

Import BatchResource.

(** [cleanup_fn] touches statuses and callbacks, not outputs. *)
Lemma cleanup_delivered (s : Status) (b : Batch) (w : World)
    (t : BatchTask) (i : nat) :
  delivered t i (foldl (cleanup_task s) w b) = delivered t i w.
Proof.
  revert w. induction b as [|x b IH]; intros w; cbn [foldl]; [reflexivity|].
  rewrite IH. unfold cleanup_task, delivered.
  destruct (is_partial x).
  - unfold ThreadSafeStatus_Update. destruct (ok s); reflexivity.
  - reflexivity.
Qed.

End ProcessFuncOutputs.

(** X27: the successful path of [ProcessFuncBatch].  When the batch is
    valid, its inputs concatenate, the batched function returns OK and
    [SplitOutputTensors] returns OK, then on tasks that write to different
    places piece [j] of every output of the function is what task [j] holds
    for that output when [ProcessFuncBatch] is done, and the callback of
    every task has been called once, in the order of the batch. *)
Theorem ProcessFuncBatch_delivers
    (TF_CALL_ALL_TYPES : DataType -> bool) (allowed : list Z)
    (tensor_Split : Tensor -> list Z -> Status * list Tensor)
    (flib_Run : list Tensor -> Status * list Tensor)
    (b : BatchResource.Batch) (w w1 : World)
    (concatenated_tensors combined_outputs : list Tensor) :
  BatchResource.ValidateBatch b = OK ->
  BatchResource.ConcatInputTensors TF_CALL_ALL_TYPES allowed b
    (BatchResource.context (BatchResource.last_task b))
  = (OK, concatenated_tensors) ->
  flib_Run (concatenated_tensors
              ++ BatchResource.captured_inputs (BatchResource.last_task b))
  = (OK, combined_outputs) ->
  BatchResource.SplitOutputTensors allowed tensor_Split combined_outputs b w
  = (OK, w1) ->
  List.NoDup (map slot_of b) ->
  (forall t i, In t b -> BatchResource.is_partial t = true ->
     (i < length combined_outputs)%nat -> is_Some (delivered t i w)) ->
  (forall i output_tensor,
     combined_outputs !! i = Some output_tensor ->
     exists split_tensor,
       tensor_Split output_tensor
         (BatchResource.task_sizes_plus_optional_padding allowed b)
       = (OK, split_tensor)
       /\ forall j t, b !! j = Some t ->
            delivered t i
              (BatchResource.ProcessFuncBatch TF_CALL_ALL_TYPES allowed
                 tensor_Split flib_Run b w)
            = Some (nth j split_tensor (Scalar 0%nat 0)))
  /\ done_log (BatchResource.ProcessFuncBatch TF_CALL_ALL_TYPES allowed
                 tensor_Split flib_Run b w)
     = done_log w ++ map BatchResource.done_callback b.
Proof.
  intros Hvalid Hconcat Hrun Hsplit Hnd Hpre.
  assert (E : BatchResource.ProcessFuncBatch TF_CALL_ALL_TYPES allowed
                tensor_Split flib_Run b w
              = foldl (BatchResource.cleanup_task OK) w1 b).
  { unfold BatchResource.ProcessFuncBatch.
    destruct b as [|t0 b0] eqn:Eb; [discriminate|]. rewrite <- Eb in *.
    replace (length b =? 0)%nat with false by (rewrite Eb; reflexivity).
    rewrite Hvalid. cbn [ok negb]. rewrite Hconcat, Hrun. cbn [ok negb].
    rewrite Hsplit. reflexivity. }
  rewrite E.
  assert (Hlog : done_log w1 = done_log w).
  { destruct (SplitOutputTensors_statuses allowed tensor_Split
                combined_outputs b w) as (_ & _ & H).
    rewrite Hsplit in H. exact H. }
  split.
  - intros i output_tensor Hi.
    revert Hsplit. unfold BatchResource.SplitOutputTensors.
    destruct (BatchResource.num_tasks b <? 1); [discriminate|].
    destruct (negb _); [discriminate|]. intros Hloop.
    destruct (SplitOutputTensors_loop_delivers allowed tensor_Split b Hnd
                combined_outputs 0 w w1 Hpre Hloop) as [H1 _].
    destruct (H1 i output_tensor Hi) as (split_tensor & ES & _ & _ & Hd).
    exists split_tensor. split; [exact ES|].
    intros j t Hj. rewrite cleanup_delivered. apply Hd. exact Hj.
  - rewrite cleanup_done_log, Hlog. reflexivity.
Qed.

Lemma ProcessFuncBatch_delivers_witness :
  (forall i output_tensor,
     [Rows 1%nat [2] [[1; 2]; [3; 4]; [5; 6]; [1; 2]]] !! i = Some output_tensor ->
     exists split_tensor,
       Examples.slices output_tensor
         (BatchResource.task_sizes_plus_optional_padding [2; 4] Examples.batch)
       = (OK, split_tensor)
       /\ forall j t, Examples.batch !! j = Some t ->
            delivered t i
              (BatchResource.ProcessFuncBatch Examples.all_types [2; 4]
                 Examples.slices Examples.identity_run Examples.batch
                 (BatchResource.set_shared_output 2 [[Scalar 0%nat 0]]
                    Examples.world))
            = Some (nth j split_tensor (Scalar 0%nat 0)))
  /\ done_log (BatchResource.ProcessFuncBatch Examples.all_types [2; 4]
                 Examples.slices Examples.identity_run Examples.batch
                 (BatchResource.set_shared_output 2 [[Scalar 0%nat 0]]
                    Examples.world))
     = done_log (BatchResource.set_shared_output 2 [[Scalar 0%nat 0]]
                   Examples.world)
         ++ map BatchResource.done_callback Examples.batch.
Proof.
  apply (ProcessFuncBatch_delivers Examples.all_types [2; 4] Examples.slices
           Examples.identity_run Examples.batch
           (BatchResource.set_shared_output 2 [[Scalar 0%nat 0]] Examples.world)
           (snd (BatchResource.SplitOutputTensors [2; 4] Examples.slices
                   [Rows 1%nat [2] [[1; 2]; [3; 4]; [5; 6]; [1; 2]]]
                   Examples.batch
                   (BatchResource.set_shared_output 2 [[Scalar 0%nat 0]]
                      Examples.world)))
           [Rows 1%nat [2] [[1; 2]; [3; 4]; [5; 6]; [1; 2]]]
           [Rows 1%nat [2] [[1; 2]; [3; 4]; [5; 6]; [1; 2]]]).
  - reflexivity.
  - vm_compute. reflexivity.
  - reflexivity.
  - vm_compute. reflexivity.
  - vm_compute. repeat constructor; simpl; intuition discriminate.
  - intros t i [<-|[<-|[]]] Hp Hi; [discriminate|].
    destruct i; [vm_compute; eauto | simpl in Hi; lia].
Defined.

(** ** Unbatch: callers that wait for the tensor *)

Section UnbatchDispatch.

Import UnbatchResource.

Variable TF_CALL_ALL_TYPES : DataType -> bool.
Variable IsInnerDimsSizeAligned : Tensor -> bool.
Variable timeout_micros_ : Z.

(** The loop over the rows of an index with distinct keys, none of which has
    a tensor waiting: it runs to its end; the piece of every key that has a
    kernel waiting is set as output 0 of the context of that kernel, whose
    callback is collected and whose key leaves both maps. *)
Lemma Compute_rows_dispatch (deadline : Z) (split_inputs : list Tensor) :
  forall batch_keys i s w cbs,
    NoDup batch_keys ->
    (forall k, In k batch_keys -> waiting_tensors_ s !! k = None) ->
    exists s' w' cbs',
      Compute_rows deadline i batch_keys split_inputs (s, w, cbs)
      = (OK, (s', w', cbs'))
      /\ (forall c,
            (forall k r, In k batch_keys -> waiting_callbacks_ s !! k = Some r ->
               ctx_id (context r) <> c) ->
            ctx_output w' !! (c, 0) = ctx_output w !! (c, 0))
      /\ (forall j k r,
            batch_keys !! j = Some k ->
            waiting_callbacks_ s !! k = Some r ->
            (forall k' r', In k' batch_keys -> k' <> k ->
               waiting_callbacks_ s !! k' = Some r' ->
               ctx_id (context r') <> ctx_id (context r)) ->
            ctx_output w' !! (ctx_id (context r), 0)
            = Some (nth (i + j) split_inputs (Scalar 0%nat 0)))
      /\ (forall k r, In k batch_keys -> waiting_callbacks_ s !! k = Some r ->
            In (done r) cbs'
            /\ waiting_callbacks_ s' !! k = None
            /\ waiting_tensors_ s' !! k = None)
      /\ (forall k, ~ In k batch_keys ->
            waiting_callbacks_ s' !! k = waiting_callbacks_ s !! k
            /\ waiting_tensors_ s' !! k = waiting_tensors_ s !! k)
      /\ (exists more, cbs' = cbs ++ more)
      /\ done_log w' = done_log w.
Proof.
  induction batch_keys as [|key rest IH]; intros i s w cbs Hnd Ht.
  - exists s, w, cbs. split; [reflexivity|].
    split; [reflexivity|].
    split; [intros j k r Hj; discriminate|].
    split; [intros k r []|].
    split; [split; reflexivity|].
    split; [exists []; symmetry; apply app_nil_r | reflexivity].
  - apply NoDup_cons in Hnd. destruct Hnd as [Hnot Hnd].
    rewrite list_elem_of_In in Hnot.
    cbn [Compute_rows]. unfold Compute_row.
    destruct (waiting_callbacks_ s !! key) as [r0|] eqn:Ek.
    + destruct (IH (S i)
                  {| waiting_tensors_ := waiting_tensors_ s;
                     waiting_callbacks_ := delete key (waiting_callbacks_ s) |}
                  (set_output (context r0) 0
                     (nth i split_inputs (Scalar 0%nat 0)) w)
                  (cbs ++ [done r0]) Hnd)
        as (s' & w' & cbs' & E & Hframe & Hmain & Hcoll & Hstate & [more ->] & Hlog).
      { intros k Hk. simpl. apply Ht. right. exact Hk. }
      assert (Hwc : forall k, In k rest ->
                delete key (waiting_callbacks_ s) !! k = waiting_callbacks_ s !! k).
      { intros k Hk. apply lookup_delete_ne. intros ->. contradiction. }
      exists s', w', ((cbs ++ [done r0]) ++ more). split; [exact E|].
      split.
      { intros c Hc. rewrite Hframe.
        - simpl. apply lookup_insert_ne. intros [= Hid].
          apply (Hc key r0 (or_introl eq_refl) Ek). exact Hid.
        - intros k r Hk Hr. simpl in Hr. rewrite (Hwc k Hk) in Hr.
          apply (Hc k r (or_intror Hk) Hr). }
      split.
      { intros [|j] k r Hj Hr Hdist; simpl in Hj.
        - injection Hj as <-. rewrite Ek in Hr. injection Hr as <-.
          rewrite Hframe.
          + simpl. rewrite lookup_insert_eq, Nat.add_0_r. reflexivity.
          + intros k' r' Hk' Hr'. simpl in Hr'. rewrite (Hwc k' Hk') in Hr'.
            apply (Hdist k' r' (or_intror Hk')); [|exact Hr'].
            intros ->. contradiction.
        - assert (Hk : In k rest)
            by (apply list_elem_of_In; eapply list_elem_of_lookup_2; exact Hj).
          replace (i + S j)%nat with (S i + j)%nat by lia.
          apply (Hmain j k r);
            [exact Hj | simpl; rewrite (Hwc k Hk); exact Hr|].
          intros k' r' Hk' Hne Hr'. simpl in Hr'. rewrite (Hwc k' Hk') in Hr'.
          apply (Hdist k' r' (or_intror Hk') Hne Hr'). }
      split.
      { intros k r [<-|Hk] Hr.
        - rewrite Ek in Hr. injection Hr as <-.
          destruct (Hstate key Hnot) as [Hc' Ht'].
          split; [apply in_or_app; left; apply in_or_app; right; left; reflexivity|].
          split.
          + rewrite Hc'. simpl. apply lookup_delete_eq.
          + rewrite Ht'. simpl. apply Ht. left. reflexivity.
        - apply Hcoll; [exact Hk|]. simpl. rewrite (Hwc k Hk). exact Hr. }
      split.
      { intros k Hk.
        destruct (Hstate k) as [Hc' Ht'];
          [intros Hin; apply Hk; right; exact Hin|].
        split.
        - rewrite Hc'. simpl. apply lookup_delete_ne.
          intros ->. apply Hk. left. reflexivity.
        - rewrite Ht'. reflexivity. }
      split; [exists ([done r0] ++ more); rewrite app_assoc; reflexivity|].
      rewrite Hlog. reflexivity.
    + rewrite (Ht key (or_introl eq_refl)).
      destruct (IH (S i)
                  {| waiting_tensors_ :=
                       <[key := {| wt_deadline_micros := deadline;
                                   tensor := nth i split_inputs (Scalar 0%nat 0) |}]>
                         (waiting_tensors_ s);
                     waiting_callbacks_ := waiting_callbacks_ s |}
                  w cbs Hnd)
        as (s' & w' & cbs' & E & Hframe & Hmain & Hcoll & Hstate & Hmore & Hlog).
      { intros k Hk. simpl. rewrite lookup_insert_ne by congruence.
        apply Ht. right. exact Hk. }
      exists s', w', cbs'. split; [exact E|].
      split.
      { intros c Hc. apply Hframe. intros k r Hk Hr.
        apply (Hc k r (or_intror Hk) Hr). }
      split.
      { intros [|j] k r Hj Hr Hdist; simpl in Hj.
        - injection Hj as <-. congruence.
        - replace (i + S j)%nat with (S i + j)%nat by lia.
          apply (Hmain j k r); [exact Hj | exact Hr|].
          intros k' r' Hk' Hne Hr'. apply (Hdist k' r' (or_intror Hk') Hne Hr'). }
      split.
      { intros k r [<-|Hk] Hr; [congruence|]. apply Hcoll; assumption. }
      split.
      { intros k Hk.
        destruct (Hstate k) as [Hc' Ht'];
          [intros Hin; apply Hk; right; exact Hin|].
        split; [exact Hc'|]. rewrite Ht'. simpl. apply lookup_insert_ne.
        intros ->. apply Hk. left. reflexivity. }
      split; [exact Hmore | exact Hlog].
Qed.

(** A caller with an empty index whose key is in neither map is put on the
    waitlist, and nothing else happens. *)
Lemma Compute_waits ctx done_ now s w :
  dim_size (input ctx 1) 0 = 0 ->
  dim_size (input ctx 1) 1 = 3 ->
  in_neither s (batch_key_of ctx) ->
  Compute TF_CALL_ALL_TYPES IsInnerDimsSizeAligned timeout_micros_
    ctx done_ now s w
  = (OK,
     {| waiting_tensors_ := waiting_tensors_ s;
        waiting_callbacks_ :=
          <[batch_key_of ctx :=
              {| wc_deadline_micros := to_size_t (now + timeout_micros_);
                 context := ctx; done := done_ |}]> (waiting_callbacks_ s) |},
     w).
Proof.
  intros Hd0 Hd1 [Ht Hc]. unfold Compute. rewrite Hd0, Hd1.
  destruct (Z.gtb_spec 0 (dim_size (input ctx 0) 0)) as [Hneg|_].
  - rewrite dim0_rows in Hneg. lia.
  - cbn [Z.eqb Pos.eqb negb Z.gtb Z.compare]. cbv zeta. cbn [ok negb].
    unfold Compute_critical. fold (batch_key_of ctx). rewrite Ht, Hc. reflexivity.
Qed.

End UnbatchDispatch.

(** X28: the rendezvous of Unbatch, caller first.  A caller with an empty
    index whose key is in neither map is put on the waitlist.  When another
    caller, on another context, then brings the batched tensor and an index
    with distinct keys that has the key of the first at row [j] (no key of
    the index has a tensor waiting, no other key of it has a kernel waiting),
    piece [j] of the split becomes output 0 of the context of the first
    caller, its callback is called, and its key is left in neither map. *)
Theorem Unbatch_caller_then_tensor
    (TF_CALL_ALL_TYPES : DataType -> bool)
    (IsInnerDimsSizeAligned : Tensor -> bool) (timeout_micros_ : Z)
    (producer consumer : OpKernelContext) (done_p done_c : DoneCallback)
    (now now' : Z) (s : UnbatchResource.State) (w w' : World)
    (pieces : list Tensor) (j : nat) :
  dim_size (input consumer 1) 0 = 0 ->
  dim_size (input consumer 1) 1 = 3 ->
  in_neither s (batch_key_of consumer) ->
  dim_size (input producer 1) 0 <= dim_size (input producer 0) 0 ->
  dim_size (input producer 1) 1 = 3 ->
  0 < dim_size (input producer 1) 0 ->
  TensorOps.Split TF_CALL_ALL_TYPES IsInnerDimsSizeAligned producer
    (input producer 0) (batch_sizes_of producer) = (OK, pieces) ->
  NoDup (batch_keys_of producer) ->
  (forall k, In k (batch_keys_of producer) -> in_neither s k) ->
  in_neither s (batch_key_of producer) ->
  batch_keys_of producer !! j = Some (batch_key_of consumer) ->
  batch_key_of consumer <> batch_key_of producer ->
  ctx_id producer <> ctx_id consumer ->
  exists s1 s2 w2 called,
    UnbatchResource.Compute TF_CALL_ALL_TYPES IsInnerDimsSizeAligned
      timeout_micros_ consumer done_c now s w = (OK, s1, w)
    /\ UnbatchResource.waiting_callbacks_ s1 !! batch_key_of consumer
       = Some {| UnbatchResource.wc_deadline_micros :=
                   to_size_t (now + timeout_micros_);
                 UnbatchResource.context := consumer;
                 UnbatchResource.done := done_c |}
    /\ UnbatchResource.Compute TF_CALL_ALL_TYPES IsInnerDimsSizeAligned
         timeout_micros_ producer done_p now' s1 w' = (OK, s2, w2)
    /\ ctx_output w2 !! (ctx_id consumer, 0)
       = Some (nth j pieces (Scalar 0%nat 0))
    /\ done_log w2 = done_log w' ++ called
    /\ In done_c called
    /\ in_neither s2 (batch_key_of consumer).
Proof.
  intros Hc0 Hc1 Hcn Hd0 Hd1 Hpos HS Hnd Hkeys [Hown_t Hown_c] Hj Hne Hid.
  rewrite (Compute_waits TF_CALL_ALL_TYPES IsInnerDimsSizeAligned
             timeout_micros_ consumer done_c now s w Hc0 Hc1 Hcn).
  set (s1 := {| UnbatchResource.waiting_tensors_ :=
                  UnbatchResource.waiting_tensors_ s;
                UnbatchResource.waiting_callbacks_ :=
                  <[batch_key_of consumer :=
                      {| UnbatchResource.wc_deadline_micros :=
                           to_size_t (now + timeout_micros_);
                         UnbatchResource.context := consumer;
                         UnbatchResource.done := done_c |}]>
                    (UnbatchResource.waiting_callbacks_ s) |}).
  exists s1.
  assert (Eg : (dim_size (input producer 1) 0 >? 0) = true)
    by (apply Z.gtb_lt; lia).
  unfold batch_sizes_of in HS. unfold batch_keys_of in Hnd, Hkeys, Hj.
  rewrite Eg in HS, Hnd, Hkeys, Hj.
  unfold UnbatchResource.Compute at 1.
  destruct (Z.gtb_spec (dim_size (input producer 1) 0)
              (dim_size (input producer 0) 0)) as [|_]; [lia|].
  rewrite Hd1, Eg. cbn [Z.eqb Pos.eqb negb]. cbv zeta. rewrite HS. cbn [ok negb].
  unfold UnbatchResource.Compute_critical. fold (batch_key_of producer).
  replace (UnbatchResource.waiting_tensors_ s1 !! batch_key_of producer)
    with (@None UnbatchResource.WaitingTensor) by (symmetry; exact Hown_t).
  replace (UnbatchResource.waiting_callbacks_ s1 !! batch_key_of producer)
    with (@None UnbatchResource.WaitingCallback)
    by (symmetry; simpl; rewrite lookup_insert_ne by exact Hne; exact Hown_c).
  match goal with
  | |- context [UnbatchResource.Compute_rows ?dl 0 ?keys pieces (?s0, w', [])] =>
      destruct (Compute_rows_dispatch dl pieces keys 0%nat s0 w' [] Hnd)
        as (s2 & w2 & cbs & E & _ & Hmain & Hcoll & _ & _ & Hlog)
  end.
  { intros k Hk. simpl. apply (Hkeys k Hk). }
  rewrite E.
  assert (Hin : In (batch_key_of consumer)
                  (map (fun i => batch_indices (input producer 1) i 0)
                     (seq 0 (Z.to_nat (dim_size (input producer 1) 0)))))
    by (apply list_elem_of_In; eapply list_elem_of_lookup_2; exact Hj).
  assert (Hreg : UnbatchResource.waiting_callbacks_
                   {| UnbatchResource.waiting_tensors_ :=
                        UnbatchResource.waiting_tensors_ s1;
                      UnbatchResource.waiting_callbacks_ :=
                        <[batch_key_of producer :=
                            {| UnbatchResource.wc_deadline_micros :=
                                 to_size_t (now' + timeout_micros_);
                               UnbatchResource.context := producer;
                               UnbatchResource.done := done_p |}]>
                          (UnbatchResource.waiting_callbacks_ s1) |}
                 !! batch_key_of consumer
                 = Some {| UnbatchResource.wc_deadline_micros :=
                             to_size_t (now + timeout_micros_);
                           UnbatchResource.context := consumer;
                           UnbatchResource.done := done_c |}).
  { simpl. rewrite lookup_insert_ne by congruence. apply lookup_insert_eq. }
  exists s2. eexists. exists cbs.
  split; [reflexivity|].
  split; [simpl; apply lookup_insert_eq|].
  split; [reflexivity|].
  destruct (Hcoll _ _ Hin Hreg) as (Hcalled & Hwc & Hwt).
  split.
  { rewrite (foldl_ctx_output_call_done cbs w2).
    pose proof (Hmain j _ _ Hj Hreg) as Hout.
    cbn [UnbatchResource.context] in Hout.
    rewrite Hout; [rewrite Nat.add_0_l; reflexivity|].
    intros k' r' Hk' Hne' Hr'. simpl in Hr'.
    destruct (decide (k' = batch_key_of producer)) as [->|Hnp].
    - rewrite lookup_insert_eq in Hr'. injection Hr' as <-. exact Hid.
    - rewrite lookup_insert_ne in Hr' by congruence.
      rewrite lookup_insert_ne in Hr' by congruence.
      destruct (Hkeys k' Hk') as [_ Hnone]. congruence. }
  split; [rewrite foldl_call_done_log, Hlog; reflexivity|].
  split; [exact Hcalled|].
  split; [exact Hwt | exact Hwc].
Qed.

Lemma Unbatch_caller_then_tensor_witness :
  exists s1 s2 w2 called,
    UnbatchResource.Compute Examples.all_types Examples.aligned 1000
      (Examples.unbatch_ctx 1 [] [] 12) 101%nat 0 UnbatchResource.init
      Examples.world = (OK, s1, Examples.world)
    /\ UnbatchResource.waiting_callbacks_ s1
       !! batch_key_of (Examples.unbatch_ctx 1 [] [] 12)
       = Some {| UnbatchResource.wc_deadline_micros := to_size_t (0 + 1000);
                 UnbatchResource.context := Examples.unbatch_ctx 1 [] [] 12;
                 UnbatchResource.done := 101%nat |}
    /\ UnbatchResource.Compute Examples.all_types Examples.aligned 1000
         (Examples.unbatch_ctx 2 [[1; 2]; [3; 4]; [5; 6]]
            [[11; 0; 2]; [12; 2; 3]] 11)
         102%nat 5 s1 Examples.world = (OK, s2, w2)
    /\ ctx_output w2 !! (ctx_id (Examples.unbatch_ctx 1 [] [] 12), 0)
       = Some (nth 1 [Rows 1%nat [2] [[1; 2]; [3; 4]]; Rows 1%nat [2] [[5; 6]]]
                 (Scalar 0%nat 0))
    /\ done_log w2 = done_log Examples.world ++ called
    /\ In 101%nat called
    /\ in_neither s2 (batch_key_of (Examples.unbatch_ctx 1 [] [] 12)).
Proof.
  apply (Unbatch_caller_then_tensor Examples.all_types Examples.aligned 1000
           (Examples.unbatch_ctx 2 [[1; 2]; [3; 4]; [5; 6]]
              [[11; 0; 2]; [12; 2; 3]] 11)
           (Examples.unbatch_ctx 1 [] [] 12) 102%nat 101%nat 0 5
           UnbatchResource.init Examples.world Examples.world
           [Rows 1%nat [2] [[1; 2]; [3; 4]]; Rows 1%nat [2] [[5; 6]]] 1).
  - reflexivity.
  - reflexivity.
  - split; reflexivity.
  - vm_compute. discriminate.
  - reflexivity.
  - reflexivity.
  - vm_compute. reflexivity.
  - vm_compute. apply NoDup_cons. split; [|apply NoDup_singleton].
    intros H. apply list_elem_of_In in H. simpl in H. lia.
  - intros k _. split; reflexivity.
  - split; reflexivity.
  - reflexivity.
  - vm_compute. discriminate.
  - vm_compute. discriminate.
Defined.
